(** * CLUBAL / SAL kiosk: schedule classifier and weather fetch with cache fallback

    Shallow embedding of the two algorithmic cores of the repository:

    - [sal.py]: [parse_hhmm], [_parse_time_obj], [_best_date_for_daycode],
      [_item_interval_debug] and [SALApp._compute_now_next];
    - [weather.py]: [_safe_int], [_http_get_json], [_minmax_tomorrow],
      [_extract_summary] and [get_weather].

    Conventions of the embedding.

    - A Python [str] is a [string]; the operations whose result depends on
      Unicode tables ([strip], [upper], [lower], [int]) are written out for
      ASCII text.
    - A Python [float] is the rational number it denotes (exact arithmetic in
      [Q]); [timedelta.total_seconds()] is microseconds divided by 10^6.
    - A naive [datetime] is the number of microseconds since midnight of
      ordinal day 0, so that comparison is [<=] on [Z] and adding a
      [timedelta] is [+]; a [date] is its proleptic Gregorian ordinal.  The
      bounds of the type (years 1 to 9999), which [datetime.now()] stays
      well inside, are not represented.
    - An exception is a value of [pyexn]; fallible code returns
      [result A = pyexn + A], and [try ... except Exception] is a match. *)

From Stdlib Require Import ZArith QArith Qround Qminmax List String Ascii Bool Lia Lqa.
From Stdlib Require Import Sorting.Sorted Sorting.Permutation DecimalString.
From Stdlib Require Import Floats.SpecFloat.
Import ListNotations.

Open Scope string_scope.
Open Scope list_scope.
Open Scope Z_scope.

(** ** Python built-ins used by the two modules *)

Module Py.

(** [str.isspace] on an ASCII character: TAB..CR, FS..US and SPACE. *)
Definition isspace (c : ascii) : bool :=
  let n := Z.of_nat (nat_of_ascii c) in
  ((9 <=? n) && (n <=? 13)) || ((28 <=? n) && (n <=? 32)).

(** C-level [Py_ISSPACE], the whitespace [int()] skips: TAB..CR and SPACE. *)
Definition c_isspace (c : ascii) : bool :=
  let n := Z.of_nat (nat_of_ascii c) in
  ((9 <=? n) && (n <=? 13)) || (n =? 32).

Fixpoint lstrip (s : string) : string :=
  match s with
  | String c s' => if isspace c then lstrip s' else s
  | EmptyString => EmptyString
  end.

Fixpoint rstrip (s : string) : string :=
  match s with
  | String c s' =>
      match rstrip s' with
      | EmptyString => if isspace c then EmptyString else String c EmptyString
      | r => String c r
      end
  | EmptyString => EmptyString
  end.

(** [s.strip()] *)
Definition strip (s : string) : string := rstrip (lstrip s).

(** [s.split(sep)] for a one-character separator: never the empty list. *)
Fixpoint split (sep : ascii) (s : string) : list string :=
  match s with
  | EmptyString => [EmptyString]
  | String c s' =>
      if Ascii.eqb c sep then EmptyString :: split sep s'
      else match split sep s' with
           | h :: t => String c h :: t
           | [] => [String c EmptyString]
           end
  end.

Definition upper_char (c : ascii) : ascii :=
  let n := nat_of_ascii c in
  if (97 <=? n)%nat && (n <=? 122)%nat then ascii_of_nat (n - 32) else c.

Definition lower_char (c : ascii) : ascii :=
  let n := nat_of_ascii c in
  if (65 <=? n)%nat && (n <=? 90)%nat then ascii_of_nat (n + 32) else c.

Fixpoint map_string (f : ascii -> ascii) (s : string) : string :=
  match s with
  | EmptyString => EmptyString
  | String c s' => String (f c) (map_string f s')
  end.

(** [s.upper()] and [s.lower()] *)
Definition upper : string -> string := map_string upper_char.
Definition lower : string -> string := map_string lower_char.

(** [sub in s] *)
Fixpoint contains (sub s : string) : bool :=
  if prefix sub s then true
  else match s with
       | EmptyString => false
       | String _ s' => contains sub s'
       end.

Definition digit_val (c : ascii) : option Z :=
  let n := Z.of_nat (nat_of_ascii c) in
  if (48 <=? n) && (n <=? 57) then Some (n - 48) else None.

Definition digit_chars : list (ascii * Z) :=
  [("0"%char, 0); ("1"%char, 1); ("2"%char, 2); ("3"%char, 3); ("4"%char, 4);
   ("5"%char, 5); ("6"%char, 6); ("7"%char, 7); ("8"%char, 8); ("9"%char, 9)].

Fixpoint skip_c_space (s : string) : string :=
  match s with
  | String c s' => if c_isspace c then skip_c_space s' else s
  | EmptyString => EmptyString
  end.

(** The digit scan of [PyLong_FromString] in base 10: digits with single
    underscores between them.  Returns the value, the number of digits and the
    unread rest; [None] on a doubled or trailing underscore. *)
Fixpoint scan_digits (s : string) (prev_us : bool) (acc : Z) (n : nat)
  : option (Z * nat * string) :=
  match s with
  | EmptyString => if prev_us then None else Some (acc, n, s)
  | String c s' =>
      if Ascii.eqb c "_" then
        if prev_us then None else scan_digits s' true acc n
      else
        match digit_val c with
        | Some d => scan_digits s' false (10 * acc + d) (S n)
        | None => if prev_us then None else Some (acc, n, s)
        end
  end.

(** [int(s)] for a string [s]: [None] where Python raises [ValueError].
    Optional surrounding whitespace, an optional sign, then decimal digits
    (leading zeros allowed) with optional single underscores between them.
    The limit that recent interpreters put on the number of digits (4300) is
    not part of the model. *)
Definition int (s : string) : option Z :=
  let s1 := skip_c_space s in
  let '(neg, s2) :=
    match s1 with
    | String "+" r => (false, r)
    | String "-" r => (true, r)
    | _ => (false, s1)
    end in
  match s2 with
  | String "_" _ => None
  | _ =>
      match scan_digits s2 false 0 0 with
      | Some (v, S _, rest) =>
          match skip_c_space rest with
          | EmptyString => Some (if neg then - v else v)
          | _ => None
          end
      | _ => None
      end
  end.

(** [max(a, b)] and [min(a, b)] on floats: the first argument wins ties. *)
Definition Qltb (a b : Q) : bool := negb (Qle_bool b a).
Definition max (a b : Q) : Q := if Qltb a b then b else a.
Definition min (a b : Q) : Q := if Qltb b a then b else a.

End Py.

(** ** sal.py: time parsing and interval placement *)

Module Sal.

Record ClassItem := mkClassItem {
  day : string;       (* SEG TER QUA QUI SEX SAB DOM *)
  start : string;     (* HH:MM *)
  end_ : string;      (* HH:MM *)
  activity : string;
  teacher : string;
  location : string;
  tag : string
}.

(** [parse_hhmm]: the whole body sits in [try ... except Exception: return
    None], so the [ValueError] of [int()] becomes [None]. *)
Definition parse_hhmm (s : string) : option Z :=
  let s := Py.strip s in
  if String.eqb s "" then None
  else
    let parts := Py.split ":" s in
    if (List.length parts <? 2)%nat then None
    else
      match Py.int (nth 0 parts "") with
      | None => None
      | Some hh =>
          match Py.int (nth 1 parts "") with
          | None => None
          | Some mm =>
              if (0 <=? hh) && (hh <=? 23) && (0 <=? mm) && (mm <=? 59)
              then Some (hh * 60 + mm)
              else None
          end
      end.

(** The parser as the specification words it, for comparison with
    [parse_hhmm]: the text is exactly [HH:MM] or [HH:MM:SS], two decimal
    digits per field, hour at most 23 and minute at most 59; anything else
    has no value. *)
Definition two_digits (a b : ascii) : option Z :=
  match Py.digit_val a, Py.digit_val b with
  | Some x, Some y => Some (10 * x + y)
  | _, _ => None
  end.

Definition spec_parseTimeOfDay (text : string) : option Z :=
  match text with
  | String h1 (String h2 (String ":" (String m1 (String m2 rest)))) =>
      let seconds_ok :=
        match rest with
        | EmptyString => true
        | String ":" (String s1 (String s2 EmptyString)) =>
            match two_digits s1 s2 with Some _ => true | None => false end
        | _ => false
        end in
      match two_digits h1 h2, two_digits m1 m2 with
      | Some hh, Some mm =>
          if seconds_ok && (hh <=? 23) && (mm <=? 59)
          then Some (60 * hh + mm)
          else None
      | _, _ => None
      end
  | _ => None
  end.

(** [datetime.time(hour, minute)]; second and microsecond stay 0. *)
Record dt_time := mk_dt_time { hour : Z; minute : Z }.

Definition _parse_time_obj (s : string) : option dt_time :=
  match parse_hhmm s with
  | None => None
  | Some m => Some (mk_dt_time (m / 60) (m mod 60))
  end.

Definition date := Z.
Definition datetime := Z.
Definition timedelta := Z.

Definition us_per_second : Z := 1000000.
Definition us_per_day : Z := 86400 * us_per_second.

Definition timedelta_days (n : Z) : timedelta := n * us_per_day.
Definition timedelta_minutes (n : Z) : timedelta := n * 60 * us_per_second.

(** [dt.date()] and [d.weekday()] (Monday = 0; ordinal 1 is a Monday). *)
Definition date_of (dt : datetime) : date := dt / us_per_day.
Definition weekday (d : date) : Z := (d + 6) mod 7.

(** [datetime.combine(d, t)] *)
Definition combine (d : date) (t : dt_time) : datetime :=
  d * us_per_day + (hour t * 3600 + minute t * 60) * us_per_second.

(** [td.total_seconds()] *)
Definition total_seconds (td : timedelta) : Q :=
  (inject_Z td / inject_Z us_per_second)%Q.

Definition DAY_TO_WD : list (string * Z) :=
  [("SEG", 0); ("TER", 1); ("QUA", 2); ("QUI", 3); ("SEX", 4); ("SAB", 5);
   ("DOM", 6)].

Fixpoint lookup (k : string) (m : list (string * Z)) : option Z :=
  match m with
  | [] => None
  | (k', v) :: m' => if String.eqb k k' then Some v else lookup k m'
  end.

Definition _best_date_for_daycode (now : datetime) (day_code : string)
  : option date :=
  let dc := Py.upper (Py.strip day_code) in
  match lookup dc DAY_TO_WD with
  | None => None
  | Some target_wd =>
      let candidates := [date_of now - 1; date_of now; date_of now + 1] in
      match find (fun d => weekday d =? target_wd) candidates with
      | Some d => Some d
      | None => Some (date_of now)
      end
  end.

Definition _item_interval_debug (now : datetime) (it : ClassItem)
  : option (datetime * datetime) * string :=
  match _best_date_for_daycode now (day it) with
  | None => (None, "invalid_day")
  | Some base_date =>
      match _parse_time_obj (start it), _parse_time_obj (end_ it) with
      | Some t_start, Some t_end =>
          let start_dt := combine base_date t_start in
          let end_dt := combine base_date t_end in
          let end_dt :=
            if end_dt <=? start_dt then end_dt + timedelta_days 1
            else end_dt in
          (Some (start_dt, end_dt), "ok")
      | _, _ => (None, "invalid_time")
      end
  end.

End Sal.

(** ** sal.py: the now/next classifier *)

Module Classifier.
Import Sal.

(** The 7 fields a card shows, and the 9-tuple kept while sorting:
    [(start, end, activity, teacher, location, tag, progress, end_dt, start_dt)]. *)
Definition card : Type :=
  (string * string * string * string * string * string * Q)%type.
Definition row : Type := (card * datetime * datetime)%type.

Definition row_card (t : row) : card := fst (fst t).
Definition row_end (t : row) : datetime := snd (fst t).     (* t[7] *)
Definition row_start (t : row) : datetime := snd t.         (* t[8] *)
Definition card_progress (c : card) : Q := snd c.

Definition mk_row (it : ClassItem) (progress : Q) (end_dt start_dt : datetime)
  : row :=
  (start it, end_ it, activity it, teacher it, location it, tag it, progress,
   end_dt, start_dt).

(** Progress of a running entry (lines 1323-1325). *)
Definition progress_now (now_dt start_dt end_dt : datetime) : Q :=
  let total := total_seconds (end_dt - start_dt) in
  let done := total_seconds (now_dt - start_dt) in
  if Qle_bool total 0 then 0%Q
  else Py.max 0 (Py.min 1 (done / total))%Q.

(** Progress of an entry about to start (lines 1330-1338). *)
Definition progress_next (now_dt start_dt window_end : datetime) : Q :=
  let total_win := total_seconds (window_end - now_dt) in
  let remaining := total_seconds (start_dt - now_dt) in
  let progress_next :=
    if Qle_bool total_win 0 then 0%Q
    else
      let progress_next := (1 - remaining / total_win)%Q in
      Py.max 0 (Py.min 1 progress_next) in
  Py.max (2 # 100) progress_next.

(** One turn of the [for it in self.all_items] loop.  The three discard
    counters only feed the diagnostic log line and are left out. *)
Definition loop_body (now_dt window_end : datetime)
    (st : list row * list row) (it : ClassItem) : list row * list row :=
  let '(now_list, next_list) := st in
  match _item_interval_debug now_dt it with
  | (None, _) => st
  | (Some (start_dt, end_dt), _) =>
      if (start_dt <=? now_dt) && (now_dt <? end_dt) then
        (now_list ++ [mk_row it (progress_now now_dt start_dt end_dt)
                             end_dt start_dt],
         next_list)
      else if (now_dt <=? start_dt) && (start_dt <=? window_end) then
        (now_list,
         next_list ++ [mk_row it (progress_next now_dt start_dt window_end)
                              end_dt start_dt])
      else st
  end.

(** [list.sort(key=...)]: a stable sort by an integer key. *)
Fixpoint insert_by (key : row -> Z) (x : row) (l : list row) : list row :=
  match l with
  | [] => [x]
  | y :: l' => if key x <=? key y then x :: l else y :: insert_by key x l'
  end.

Definition sort_by (key : row -> Z) (l : list row) : list row :=
  fold_right (insert_by key) [] l.

(** Ascending order of a sort key. *)
Definition key_le (key : row -> Z) (a b : row) : Prop := key a <= key b.

(** What one entry alone contributes to the two buckets. *)
Definition classify (now_dt window_end : datetime) (it : ClassItem)
  : list row * list row :=
  loop_body now_dt window_end ([], []) it.

(** The two buckets when the loop ends. *)
Definition buckets (all_items : list ClassItem) (now_dt : datetime)
  : list row * list row :=
  let window_end := now_dt + timedelta_minutes 120 in
  fold_left (loop_body now_dt window_end) all_items ([], []).

(** [SALApp._compute_now_next], with [datetime.now()] and [self.all_items] as
    arguments.  The rate-limited log line written when both lists are empty
    does not change the result. *)
Definition _compute_now_next (all_items : list ClassItem) (now_dt : datetime)
  : list card * list card :=
  let '(now_list, next_list) := buckets all_items now_dt in
  let now_list := sort_by row_end now_list in
  let next_list := sort_by row_start next_list in
  let now_cards := map row_card now_list in
  let next_cards := map row_card next_list in
  (firstn 6 now_cards, firstn 6 next_cards).

End Classifier.

(** ** The progress fractions in binary64

    The same two computations with IEEE 754 double arithmetic in place of
    exact rationals, to evaluate the examples as Python does.
    [timedelta.total_seconds()] is the correctly rounded quotient of two
    integers below 2^53, hence the quotient of their doubles. *)

Module Binary64.
Import Sal.

Definition prec : Z := 53.
Definition emax : Z := 1024.

Definition of_int (z : Z) : spec_float := binary_normalize prec emax z 0 false.
Definition div : spec_float -> spec_float -> spec_float := SFdiv prec emax.
Definition sub : spec_float -> spec_float -> spec_float := SFsub prec emax.

Definition max (a b : spec_float) : spec_float := if SFltb a b then b else a.
Definition min (a b : spec_float) : spec_float := if SFltb b a then b else a.

(** The literals [0.5], [0.75] and [0.02] (0x1.47ae147ae147bp-6). *)
Definition lit_0_5 : spec_float := S754_finite false 4503599627370496 (-53).
Definition lit_0_75 : spec_float := S754_finite false 6755399441055744 (-53).
Definition lit_0_02 : spec_float := S754_finite false 5764607523034235 (-58).

Definition total_seconds (td : timedelta) : spec_float :=
  div (of_int td) (of_int 1000000).

Definition progress_now (now_dt start_dt end_dt : datetime) : spec_float :=
  let total := total_seconds (end_dt - start_dt) in
  let done := total_seconds (now_dt - start_dt) in
  if SFleb total (of_int 0) then of_int 0
  else max (of_int 0) (min (of_int 1) (div done total)).

Definition progress_next (now_dt start_dt window_end : datetime)
  : spec_float :=
  let total_win := total_seconds (window_end - now_dt) in
  let remaining := total_seconds (start_dt - now_dt) in
  let progress_next :=
    if SFleb total_win (of_int 0) then of_int 0
    else
      let progress_next := sub (of_int 1) (div remaining total_win) in
      max (of_int 0) (min (of_int 1) progress_next) in
  max lit_0_02 progress_next.

End Binary64.

(** ** weather.py: values, exceptions and the summary extraction *)

Module Weather.

#[local] Set Warnings "-register-all".

(** A Python float: finite (its exact value) or one of nan, inf, -inf. *)
Inductive pyfloat :=
| Finite (q : Q)
| NonFinite.

(** What [json.load] produces.  A dict is its list of items; keys are unique
    in a Python dict, and [lookup] reads the first binding. *)
Inductive value :=
| VNone
| VBool (b : bool)
| VInt (z : Z)
| VFloat (f : pyfloat)
| VStr (s : string)
| VList (l : list value)
| VDict (items : list (string * value)).

Inductive pyexn :=
| HTTPError (code : Z)     (* urllib.error.HTTPError, a subclass of URLError *)
| URLError
| JSONDecodeError
| OSError
| AttributeError
| TypeError
| KeyError
| RuntimeError.

Definition result (A : Type) : Type := (pyexn + A)%type.
Definition ret {A} (a : A) : result A := inr a.
Definition raise {A} (e : pyexn) : result A := inl e.
Definition bind {A B} (m : result A) (k : A -> result B) : result B :=
  match m with
  | inl e => inl e
  | inr a => k a
  end.

Notation "x <- m ;; k" := (bind m (fun x => k))
  (at level 61, m at next level, right associativity).
Notation "' pat <- m ;; k" := (bind m (fun x => let 'pat := x in k))
  (at level 61, pat pattern, m at next level, right associativity).

Record WeatherResult := mkWeatherResult {
  ok : bool;
  temp_c : option Z;
  today_label : string;
  tomorrow_label : string;
  symbol_code : value;
  source : string;            (* "online" | "cache" *)
  cache_ts : value
}.

Fixpoint lookup (k : string) (items : list (string * value)) : option value :=
  match items with
  | [] => None
  | (k', v) :: items' => if String.eqb k k' then Some v else lookup k items'
  end.

(** [d.get(k, default)]; only a dict has the method. *)
Definition get (d : value) (k : string) (default : value) : result value :=
  match d with
  | VDict items =>
      ret (match lookup k items with Some v => v | None => default end)
  | _ => raise AttributeError
  end.

(** Truth value of an object, as [if x], [not x], [x or y], [x and y] use it. *)
Definition truthy (v : value) : bool :=
  match v with
  | VNone => false
  | VBool b => b
  | VInt z => negb (z =? 0)
  | VFloat (Finite q) => negb (Qeq_bool q 0)
  | VFloat NonFinite => true
  | VStr s => negb (String.eqb s "")
  | VList l => match l with [] => false | _ => true end
  | VDict items => match items with [] => false | _ => true end
  end.

(** [x[0]] *)
Definition index0 (v : value) : result value :=
  match v with
  | VList (x :: _) => ret x
  | VList [] => raise KeyError          (* IndexError *)
  | VStr (String c _) => ret (VStr (String c ""))
  | VStr EmptyString => raise KeyError  (* IndexError *)
  | VDict _ => raise KeyError
  | _ => raise TypeError
  end.

(** The items a [for] loop visits. *)
Definition iterate (v : value) : result (list value) :=
  match v with
  | VList l => ret l
  | VStr s => ret (map (fun c => VStr (String c "")) (list_ascii_of_string s))
  | VDict items => ret (map (fun kv => VStr (fst kv)) items)
  | _ => raise TypeError
  end.

(** [round(x)] of a finite float: to the nearest integer, ties to even. *)
Definition round_half_even (q : Q) : Z :=
  let n := Qfloor q in
  match (q - inject_Z n ?= 1 # 2)%Q with
  | Lt => n
  | Gt => n + 1
  | Eq => if Z.even n then n else n + 1
  end.

(** [float(z)] of an int: the nearest binary64 value, ties to even;
    [None] is OverflowError. *)
Definition float_of_int (z : Z) : option Q :=
  let a := Z.abs z in
  let nbits := Z.log2 a + 1 in
  if nbits <=? 53 then Some (inject_Z z)
  else
    let sh := nbits - 53 in
    let m := Z.shiftr a sh in
    let r := a mod 2 ^ sh in
    let half := 2 ^ (sh - 1) in
    let m := if (half <? r) || ((r =? half) && Z.odd m) then m + 1 else m in
    let v := Z.shiftl m sh in
    if 2 ^ 1024 <=? v then None else Some (inject_Z (Z.sgn z * v)).

Definition _pick_period (now_hour : Z) : string :=
  if (6 <=? now_hour) && (now_hour <=? 11) then "manhã"
  else if (12 <=? now_hour) && (now_hour <=? 17) then "tarde"
  else "noite".

(** [str(n)] of an int. *)
Definition str_of_int (n : Z) : string := NilZero.string_of_int (Z.to_int n).

Section WithFloatParser.

(** [float(s)] of a string, a built-in outside the repository: [None] where
    it raises ValueError. *)
Variable float_of_str : string -> option pyfloat.

(** [float(x)]; [None] where it raises. *)
Definition float_ (x : value) : option pyfloat :=
  match x with
  | VBool b => Some (Finite (if b then 1 else 0))
  | VInt z =>
      match float_of_int z with
      | Some q => Some (Finite q)
      | None => None
      end
  | VFloat f => Some f
  | VStr s => float_of_str s
  | VNone | VList _ | VDict _ => None
  end.

(** [_safe_int]: [int(round(float(x)))], [None] on any exception. *)
Definition _safe_int (x : value) : option Z :=
  match float_ x with
  | Some (Finite q) => Some (round_half_even q)
  | Some NonFinite => None
  | None => None
  end.

(** One turn of the loop of [_minmax_tomorrow]. *)
Definition minmax_step (acc : result (option Z * option Z)) (item : value)
  : result (option Z * option Z) :=
  '(tmin, tmax) <- acc ;;
  data <- get item "data" (VDict []) ;;
  instant <- get data "instant" (VDict []) ;;
  inst <- get instant "details" (VDict []) ;;
  t <- get inst "air_temperature" VNone ;;
  match _safe_int t with
  | None => ret (tmin, tmax)
  | Some temp =>
      ret (Some (match tmin with None => temp | Some m => Z.min m temp end),
           Some (match tmax with None => temp | Some m => Z.max m temp end))
  end.

Definition _minmax_tomorrow (timeseries : value)
  : result (option Z * option Z) :=
  items <- iterate timeseries ;;
  fold_left minmax_step items (ret (None, None)).

(** The inner function [humanize] of [_extract_summary]. *)
Definition humanize (sym : value) : result string :=
  if negb (truthy sym) then ret "Sem dados"
  else
    match sym with
    | VStr sym =>
        let s := Py.lower sym in
        let has k := Py.contains k s in
        ret (if has "thunder" then "Tempestade"
             else if has "snow" then "Neve"
             else if has "rain" || has "sleet" then
               if has "heavyrain" || has "rainshowersandthunder"
                  || has "heavyrainshowers" then "Chuva forte"
               else if has "lightrain" || has "lightrainshowers"
               then "Chuva fraca"
               else "Chuva"
             else if has "cloudy" then
               if has "partly" then "Parcialmente nublado" else "Nublado"
             else if has "clearsky" || has "fair" then "Céu limpo"
             else "Tempo instável")
    | _ => raise AttributeError
    end.

(** [_extract_summary]; [now_ts] is the [int(time.time())] it stamps. *)
Definition _extract_summary (payload : value) (now_hour now_ts : Z)
  : result WeatherResult :=
  props <- get payload "properties" (VDict []) ;;
  timeseries <- get props "timeseries" (VList []) ;;
  '(temp_now, symbol_code) <-
    (if truthy timeseries then
       item0 <- index0 timeseries ;;
       first <- get item0 "data" (VDict []) ;;
       instant <- get first "instant" (VDict []) ;;
       details <- get instant "details" (VDict []) ;;
       t <- get details "air_temperature" VNone ;;
       n1h <- get first "next_1_hours" (VDict []) ;;
       s1 <- get n1h "summary" (VDict []) ;;
       n1 <- get s1 "symbol_code" VNone ;;
       n6h <- get first "next_6_hours" (VDict []) ;;
       s6 <- get n6h "summary" (VDict []) ;;
       n6 <- get s6 "symbol_code" VNone ;;
       ret (_safe_int t, if truthy n1 then n1 else n6)
     else ret (None, VNone)) ;;
  let period := _pick_period now_hour in
  h <- humanize symbol_code ;;
  let today_label := ("Hoje (" ++ period ++ "): " ++ h)%string in
  '(tmin, tmax) <- _minmax_tomorrow timeseries ;;
  let tomorrow_label :=
    match tmin, tmax with
    | Some tmin, Some tmax =>
        ("Amanhã: " ++ str_of_int tmin ++ "–" ++ str_of_int tmax ++ "°C")%string
    | _, _ => "Amanhã: —"
    end in
  ret (mkWeatherResult true temp_now today_label tomorrow_label symbol_code
         "online" (VInt now_ts)).

End WithFloatParser.

End Weather.

(** ** weather.py: the HTTP retry loop and the public entry point *)

Module Fetch.
Import Weather.

(** What one [opener.open(req)] followed by [read], [decode] and
    [json.loads] does: it yields the decoded payload or raises. *)
Inductive outcome :=
| Response (payload : value)
| Raises (e : pyexn).

(** Observable steps of the retry loop. *)
Inductive event :=
| EvOpen (attempt : Z)      (* opener.open at [for attempt in (1, 2)] *)
| EvSleep (seconds : Q).    (* time.sleep *)

(** The body of [for attempt in todo], the [k]-th call to the network
    being answered by [net k]. *)
Fixpoint attempts (net : nat -> outcome) (k : nat) (todo : list Z)
    (last_exc : option pyexn) : list event * result value :=
  match todo with
  | [] =>
      ([], raise (match last_exc with Some e => e | None => RuntimeError end))
  | attempt :: todo' =>
      match net k with
      | Response payload => ([EvOpen attempt], ret payload)
      | Raises (HTTPError code) =>
          ([EvOpen attempt], raise (HTTPError code))
      | Raises URLError =>
          if attempt =? 1 then
            let '(evs, r) := attempts net (S k) todo' (Some URLError) in
            (EvOpen attempt :: EvSleep (4 # 10) :: evs, r)
          else ([EvOpen attempt], raise URLError)
      | Raises e =>
          if attempt =? 1 then
            let '(evs, r) := attempts net (S k) todo' (Some e) in
            (EvOpen attempt :: EvSleep (4 # 10) :: evs, r)
          else ([EvOpen attempt], raise e)
      end
  end.

Definition _http_get_json (net : nat -> outcome) : list event * result value :=
  attempts net 0%nat [1; 2] None.

Definition opens (evs : list event) : list Z :=
  flat_map (fun e => match e with EvOpen a => [a] | EvSleep _ => [] end) evs.

Definition sleeps (evs : list event) : list Q :=
  flat_map (fun e => match e with EvSleep s => [s] | EvOpen _ => [] end) evs.

(** Everything [get_weather] reads from outside. *)
Record world := mkWorld {
  net : nat -> outcome;     (* answers of the network *)
  now_hour : Z;             (* time.localtime().tm_hour *)
  now_ts : Z;               (* int(time.time()) *)
  cache_file : value;       (* _read_json(current_cache_path) at entry;
                               VNone for a missing or unreadable file *)
  archive_ok : bool;        (* os.replace into cache_old/ succeeds *)
  write_ok : bool           (* _write_json_atomic succeeds *)
}.

(** [isinstance(cached.get("payload"), dict)] *)
Definition is_dict (v : value) : bool :=
  match v with
  | VDict _ => true
  | _ => false
  end.

(** The test of the fallback, [cached and isinstance(cached.get("payload"),
    dict)], where it does not raise. *)
Definition usable (cached : value) : bool :=
  match cached with
  | VDict items =>
      match lookup "payload" items with
      | Some (VDict _) => truthy cached
      | _ => false
      end
  | _ => false
  end.

(** A forecast point as the endpoint sends it, for the examples. *)
Definition forecast_point (time : string) (air_temperature : Z) : value :=
  VDict [("time", VStr time);
         ("data",
          VDict [("instant",
                  VDict [("details",
                          VDict [("air_temperature",
                                  VInt air_temperature)])])])].

Definition forecast (timeseries : list value) : value :=
  VDict [("properties", VDict [("timeseries", VList timeseries)])].

(** The "no data" snapshot. *)
Definition no_data : WeatherResult :=
  mkWeatherResult false None "Sem dados" "Amanhã: —" VNone "cache" VNone.

Section WithFloatParser.

Variable float_of_str : string -> option pyfloat.

(** The [try] block of [get_weather]: the result and the cache slot after
    it.  [_archive_existing_cache] swallows its errors and leaves the slot
    in place when the move fails; [_write_json_atomic] raises. *)
Definition online (w : world) (city_label : string)
  : result WeatherResult * value :=
  match snd (_http_get_json (net w)) with
  | inl e => (raise e, cache_file w)
  | inr payload =>
      match _extract_summary float_of_str payload (now_hour w) (now_ts w) with
      | inl e => (raise e, cache_file w)
      | inr res =>
          let slot := if archive_ok w then VNone else cache_file w in
          if write_ok w then
            (ret res,
             VDict [("ts", cache_ts res); ("payload", payload);
                    ("city", VStr city_label)])
          else (raise OSError, slot)
      end
  end.

(** The [except Exception] block of [get_weather], [cached] being what
    [_read_json] returns there. *)
Definition fallback (w : world) (cached : value) : result WeatherResult :=
  has_record <-
    (if truthy cached then
       p <- get cached "payload" VNone ;;
       ret (is_dict p)
     else ret false) ;;
  if has_record : bool then
    payload <- get cached "payload" VNone ;;   (* cached["payload"] *)
    res <- _extract_summary float_of_str payload (now_hour w) (now_ts w) ;;
    ts <- get cached "ts" VNone ;;
    ret (mkWeatherResult true (temp_c res) (today_label res)
           (tomorrow_label res) (symbol_code res) "cache" ts)
  else
    ret (mkWeatherResult false None "Sem dados" "Amanhã: —" VNone "cache"
           VNone).

(** [get_weather]: the snapshot it returns or the exception it lets
    through, and the cache slot it leaves. *)
Definition get_weather (w : world) (city_label : string)
  : result WeatherResult * value :=
  match online w city_label with
  | (inr res, slot) => (ret res, slot)
  | (inl _, slot) => (fallback w slot, slot)
  end.

End WithFloatParser.

End Fetch.

(** ** sal.py: display helpers and the opening-hours status *)

Module SalUi.
Import Sal.

(** The format [f"{n:02d}"]: at least two characters, zero padded. *)
Definition fmt_02d (n : Z) : string :=
  if (0 <=? n) && (n <? 10) then ("0" ++ Weather.str_of_int n)%string
  else Weather.str_of_int n.

(** [fmt_hhmm]; [//] and [%] are floor division and its remainder. *)
Definition fmt_hhmm (mins : option Z) : string :=
  match mins with
  | None => "—"
  | Some mins =>
      let hh := mins / 60 in
      let mm := mins mod 60 in
      if mm =? 0 then (fmt_02d hh ++ "H")%string
      else (fmt_02d hh ++ ":" ++ fmt_02d mm)%string
  end.

(** [today_3letters_noaccent] and [weekday_full_noaccent], with
    [time.localtime().tm_wday] (0 to 6, Monday = 0) as argument. *)
Definition today_3letters_noaccent (wd : Z) : string :=
  nth (Z.to_nat wd) ["SEG"; "TER"; "QUA"; "QUI"; "SEX"; "SAB"; "DOM"] "".

Definition weekday_full_noaccent (wd : Z) : string :=
  nth (Z.to_nat wd)
    ["SEGUNDA-FEIRA"; "TERCA-FEIRA"; "QUARTA-FEIRA"; "QUINTA-FEIRA";
     "SEXTA-FEIRA"; "SABADO"; "DOMINGO"] "".

(** [theme_is_day], with [time.localtime().tm_hour] as argument. *)
Definition theme_is_day (h : Z) : bool := (6 <=? h) && (h <=? 17).

(** The [rules] of one item of [HoursCard]: day code to opening and closing
    text, either of which may be [None]. *)
Definition hours_rules : Type :=
  list (string * (option string * option string)).

Fixpoint rule_of (day : string) (rules : hours_rules)
  : option (option string * option string) :=
  match rules with
  | [] => None
  | (k, v) :: rules' => if String.eqb day k then Some v else rule_of day rules'
  end.

(** [parse_hhmm(x) if x else None] *)
Definition parse_if_set (x : option string) : option Z :=
  match x with
  | None => None
  | Some s => if String.eqb s "" then None else parse_hhmm s
  end.

(** [HoursCard.update_status_only]: the texts put on the status and the
    sub-status labels, for the rules of the item shown, today's code and the
    minute of the day. *)
Definition update_status_only (rules : hours_rules) (day : string)
    (now_min : Z) : string * string :=
  let '(open_s, close_s) :=
    match rule_of day rules with
    | Some r => r
    | None => (None, None)
    end in
  let open_m := parse_if_set open_s in
  let close_m := parse_if_set close_s in
  let is_open :=
    match open_m, close_m with
    | Some o, Some c => (o <=? now_min) && (now_min <? c)
    | _, _ => false
    end in
  if is_open then ("ABERTO AGORA", ("FECHA ÀS " ++ fmt_hhmm close_m)%string)
  else
    ("FECHADO AGORA",
     match open_m with
     | Some _ => ("ABRE ÀS " ++ fmt_hhmm open_m)%string
     | None => "SEM ATENDIMENTO"
     end).

(** [map_symbol_to_icon], on the [Optional[str]] of its signature. *)
Definition map_symbol_to_icon (symbol_code : option string) : string :=
  match symbol_code with
  | None => "clouds"
  | Some sym =>
      if String.eqb sym "" then "clouds"
      else
        let s := Py.lower sym in
        let has k := Py.contains k s in
        if has "thunder" then "storm"
        else if has "snow" then "snowflake"
        else if has "rain" || has "sleet" then "rainy-day"
        else if has "partlycloudy" then "cloudy"
        else if has "cloudy" then "clouds"
        else if has "clearsky" || has "fair" then "sun"
        else "clouds"
  end.

(** A text made of whitespace only. *)
Fixpoint all_space (s : string) : bool :=
  match s with
  | EmptyString => true
  | String c s' => Py.isspace c && all_space s'
  end.

(** The minutes of a day, 0 to 1439. *)
Definition minutes_of_day : list Z := map Z.of_nat (seq 0 1440).

End SalUi.

(** ** sal.py: what the periodic tick keeps between passes *)

Module Scheduler.
Import Sal Classifier Weather.

(** The three discard counters of the loop of [_compute_now_next]. *)
Definition count_body (now_dt : datetime) (c : Z * Z * Z) (it : ClassItem)
  : Z * Z * Z :=
  let '(discard_day, discard_time, discard_other) := c in
  match _item_interval_debug now_dt it with
  | (None, reason) =>
      if String.eqb reason "invalid_day" then
        (discard_day + 1, discard_time, discard_other)
      else if String.eqb reason "invalid_time" then
        (discard_day, discard_time + 1, discard_other)
      else (discard_day, discard_time, discard_other + 1)
  | (Some _, _) => c
  end.

Definition discard_counts (all_items : list ClassItem) (now_dt : datetime)
  : Z * Z * Z :=
  fold_left (count_body now_dt) all_items (0, 0, 0).

(** An entry that gets an interval. *)
Definition resolves (now_dt : datetime) (it : ClassItem) : bool :=
  match fst (_item_interval_debug now_dt it) with
  | Some _ => true
  | None => false
  end.

(** One pass of [_compute_now_next]: the entries, [datetime.now()], and the
    two readings of [time.time()] at the rate limit of the diagnostic line
    (the test, then the stamp). *)
Record pass := mkPass {
  p_items : list ClassItem;
  p_now : datetime;
  p_check : Q;
  p_stamp : Q
}.

(** Whether the pass writes the "0 em AGORA/PROXIMAS" line, and
    [_last_zero_agenda_log_ts] after it. *)
Definition zero_agenda_log (p : pass) (last : Q) : bool * Q :=
  let '(now_list, next_list) := buckets (p_items p) (p_now p) in
  let now_cards := map row_card (sort_by row_end now_list) in
  let next_cards := map row_card (sort_by row_start next_list) in
  let nonempty := match p_items p with [] => false | _ => true end in
  if nonempty && (List.length now_cards =? 0)%nat
     && (List.length next_cards =? 0)%nat then
    if Py.Qltb 60 (p_check p - last) then (true, p_stamp p) else (false, last)
  else (false, last).

(** The passes of a run that write the line. *)
Fixpoint zero_agenda_run (passes : list pass) (last : Q) : list pass :=
  match passes with
  | [] => []
  | p :: passes' =>
      let '(logged, last') := zero_agenda_log p last in
      if logged then p :: zero_agenda_run passes' last'
      else zero_agenda_run passes' last'
  end.

(** [_tick_housekeeping], for the two readings of [time.time()]: whether
    housekeeping runs, and [_last_housekeeping_ts] after it. *)
Definition _tick_housekeeping (t_check t_stamp last : Q) : bool * Q :=
  if Py.Qltb (t_check - last) 86400 then (false, last) else (true, t_stamp).

Fixpoint housekeeping_run (ticks : list (Q * Q)) (last : Q) : list (Q * Q) :=
  match ticks with
  | [] => []
  | (t_check, t_stamp) :: ticks' =>
      let '(ran, last') := _tick_housekeeping t_check t_stamp last in
      if ran then (t_check, t_stamp) :: housekeeping_run ticks' last'
      else housekeeping_run ticks' last'
  end.

(** The weather fields of [SALApp], the place the main thread has reached
    in [_tick_weather], and the worker threads alive, by what they have
    left to do. *)
Inductive main_pc :=
| Idle          (* outside _tick_weather *)
| Checked       (* past the freshness test, before the lock *)
| Acquired.     (* flag set, lock released, thread not yet started *)

Record app := mkApp {
  weather_last_fetch : Q;
  weather_res : option WeatherResult;
  _weather_inflight : bool;
  pc : main_pc;
  fetching : nat;     (* workers inside get_weather *)
  finishing : nat     (* workers before their [finally] block *)
}.

(** [SALApp.__init__] *)
Definition boot : app := mkApp 0 None false Idle 0 0.

(** The atomic steps of the two threads: the test of line 1382, the locked
    block of lines 1385-1388, the thread start, and in the worker the
    locked publication, the exception path and the [finally] block. *)
Inductive action :=
| TickTest (now : Q)
| TickLock
| TickStart
| WorkerPublish (res : WeatherResult) (now : Q)
| WorkerRaise
| WorkerFinally.

Definition step (a : action) (s : app) : option app :=
  match a, pc s with
  | TickTest now, Idle =>
      let fresh :=
        Py.Qltb (now - weather_last_fetch s) 600
        && match weather_res s with Some _ => true | None => false end in
      Some (mkApp (weather_last_fetch s) (weather_res s) (_weather_inflight s)
              (if fresh then Idle else Checked) (fetching s) (finishing s))
  | TickLock, Checked =>
      if _weather_inflight s then
        Some (mkApp (weather_last_fetch s) (weather_res s) true Idle
                (fetching s) (finishing s))
      else
        Some (mkApp (weather_last_fetch s) (weather_res s) true Acquired
                (fetching s) (finishing s))
  | TickStart, Acquired =>
      Some (mkApp (weather_last_fetch s) (weather_res s) (_weather_inflight s)
              Idle (S (fetching s)) (finishing s))
  | WorkerPublish res now, _ =>
      match fetching s with
      | O => None
      | S n =>
          Some (mkApp now (Some res) (_weather_inflight s) (pc s) n
                  (S (finishing s)))
      end
  | WorkerRaise, _ =>
      match fetching s with
      | O => None
      | S n =>
          Some (mkApp (weather_last_fetch s) (weather_res s)
                  (_weather_inflight s) (pc s) n (S (finishing s)))
      end
  | WorkerFinally, _ =>
      match finishing s with
      | O => None
      | S n =>
          Some (mkApp (weather_last_fetch s) (weather_res s) false (pc s)
                  (fetching s) n)
      end
  | _, _ => None
  end.

(** The flag counts the workers alive and the thread about to start. *)
Definition one_flight (s : app) : Prop :=
  (fetching s + finishing s
   + match pc s with Acquired => 1 | _ => 0 end
   = if _weather_inflight s then 1 else 0)%nat.

(** A schedule of steps, stopping at the first one that cannot happen. *)
Fixpoint run (acts : list action) (s : app) : option app :=
  match acts with
  | [] => Some s
  | a :: acts' =>
      match step a s with
      | Some s' => run acts' s'
      | None => None
      end
  end.

End Scheduler.

(** ** The pruning of an archive directory *)

Module Housekeeping.

(** One name of [os.listdir]: whether [os.path.isfile] holds, and what
    [os.stat] gives as modification time ([None] when it raises). *)
Record dirent := mkDirent {
  d_name : string;
  d_is_file : bool;
  d_mtime : option Q
}.

(** [max_age > 0 and (now - st.st_mtime) > max_age] *)
Definition too_old (max_age : Z) (now mtime : Q) : bool :=
  (0 <? max_age) && Py.Qltb (inject_Z max_age) (now - mtime).

(** The loop over the listing: the files [os.remove] is called on for
    their age, and the [(st_mtime, p)] pairs kept for the count rule. *)
Definition scan_body (max_age : Z) (now : Q)
    (acc : list dirent * list (Q * dirent)) (e : dirent)
  : list dirent * list (Q * dirent) :=
  let '(removed, files) := acc in
  if negb (d_is_file e) then acc
  else
    match d_mtime e with
    | None => acc
    | Some mtime =>
        if too_old max_age now mtime then (removed ++ [e], files)
        else (removed, files ++ [(mtime, e)])
    end.

(** [(m1, p1) >= (m2, p2)] on tuples; paths in one directory compare as
    their names. *)
Definition tuple_geb (a b : Q * dirent) : bool :=
  match (fst a ?= fst b)%Q with
  | Gt => true
  | Lt => false
  | Eq => String.leb (d_name (snd b)) (d_name (snd a))
  end.

(** [files.sort(reverse=True)] *)
Fixpoint insert_desc (x : Q * dirent) (l : list (Q * dirent))
  : list (Q * dirent) :=
  match l with
  | [] => [x]
  | y :: l' => if tuple_geb x y then x :: l else y :: insert_desc x l'
  end.

Definition sort_desc (l : list (Q * dirent)) : list (Q * dirent) :=
  fold_right insert_desc [] l.

(** Descending order of the modification times. *)
Definition newest_first (a b : Q * dirent) : Prop := (fst b <= fst a)%Q.

(** The body shared by [_cleanup_cache_archive] and [_cleanup_log_archive]:
    the entries [os.remove] is called on, in order.  A listing that cannot
    be read leaves everything in place. *)
Definition cleanup (keep : nat) (max_age_days : Z) (now : Q)
    (listing : option (list dirent)) : list dirent :=
  match listing with
  | None => []
  | Some entries =>
      let max_age := max_age_days * 86400 in
      let '(removed, files) :=
        fold_left (scan_body max_age now) entries ([], []) in
      let files := sort_desc files in
      removed ++ map snd (skipn keep files)
  end.

Definition CACHE_ARCHIVE_KEEP : nat := 10.
Definition CACHE_ARCHIVE_MAX_AGE_DAYS : Z := 7.
Definition LOG_ARCHIVE_KEEP : nat := 6.
Definition LOG_ARCHIVE_MAX_AGE_DAYS : Z := 30.

Definition _cleanup_cache_archive : Q -> option (list dirent) -> list dirent :=
  cleanup CACHE_ARCHIVE_KEEP CACHE_ARCHIVE_MAX_AGE_DAYS.

Definition _cleanup_log_archive : Q -> option (list dirent) -> list dirent :=
  cleanup LOG_ARCHIVE_KEEP LOG_ARCHIVE_MAX_AGE_DAYS.

(** The regular files of a listing whose [stat] succeeds, and among them
    those within the age limit, with their times. *)
Definition regular (entries : list dirent) : list dirent :=
  filter (fun e => d_is_file e
                   && match d_mtime e with Some _ => true | None => false end)
    entries.

Definition aged (max_age : Z) (now : Q) (entries : list dirent)
  : list dirent :=
  filter (fun e => d_is_file e
                   && match d_mtime e with
                      | Some m => too_old max_age now m
                      | None => false
                      end)
    entries.

Definition fresh (max_age : Z) (now : Q) (entries : list dirent)
  : list (Q * dirent) :=
  flat_map (fun e =>
              if d_is_file e then
                match d_mtime e with
                | Some m => if too_old max_age now m then [] else [(m, e)]
                | None => []
                end
              else []) entries.

End Housekeeping.

(** ** weather.py: one forecast point *)

Module Forecast.
Import Weather.

Section WithFloatParser.

Variable float_of_str : string -> option pyfloat.

(** What the body of the loop of [_minmax_tomorrow] reads of one item:
    [_safe_int] of its [data.instant.details.air_temperature]. *)
Definition point_temp (item : value) : result (option Z) :=
  data <- get item "data" (VDict []) ;;
  instant <- get data "instant" (VDict []) ;;
  inst <- get instant "details" (VDict []) ;;
  t <- get inst "air_temperature" VNone ;;
  ret (_safe_int float_of_str t).

(** The update of [(tmin, tmax)] by one reading. *)
Definition widen (acc : option Z * option Z) (t : option Z)
  : option Z * option Z :=
  match t with
  | None => acc
  | Some temp =>
      (Some (match fst acc with None => temp | Some m => Z.min m temp end),
       Some (match snd acc with None => temp | Some m => Z.max m temp end))
  end.

End WithFloatParser.

(** The readings that are numbers. *)
Definition numbers (ts : list (option Z)) : list Z :=
  flat_map (fun t => match t with Some n => [n] | None => [] end) ts.

(** [(tmin, tmax)] is the range of the readings seen so far. *)
Definition range_of (seen : list Z) (acc : option Z * option Z) : Prop :=
  match acc with
  | (None, None) => seen = []
  | (Some lo, Some hi) =>
      In lo seen /\ In hi seen /\ forall t, In t seen -> lo <= t <= hi
  | _ => False
  end.

End Forecast.

(** * Properties *)

(** ** The time-of-day parser *)

Module SalProofs.
Import Sal.

Example parse_hhmm_plain : parse_hhmm "09:30" = Some 570.
Proof. reflexivity. Qed.

Example parse_hhmm_seconds : parse_hhmm " 23:59:59 " = Some 1439.
Proof. reflexivity. Qed.

Example parse_hhmm_hour_out_of_range : parse_hhmm "24:00" = None.
Proof. reflexivity. Qed.

Example parse_hhmm_minute_out_of_range : parse_hhmm "12:60" = None.
Proof. reflexivity. Qed.

Example parse_hhmm_no_colon : parse_hhmm "1230" = None.
Proof. reflexivity. Qed.

Example parse_hhmm_not_a_number : parse_hhmm "ab:cd" = None.
Proof. reflexivity. Qed.

Example parse_hhmm_empty : parse_hhmm "   " = None.
Proof. reflexivity. Qed.

Example split_keeps_empty_fields :
  Py.split ":" "a::b:" = ["a"; ""; "b"; ""] /\ Py.split ":" "" = [""].
Proof. split; reflexivity. Qed.

Example strip_both_ends : Py.strip "  9 : 5  " = "9 : 5".
Proof. reflexivity. Qed.

Example int_underscore : Py.int " +1_0 " = Some 10 /\ Py.int "1__0" = None.
Proof. split; reflexivity. Qed.

Lemma digit_val_inv c d :
  Py.digit_val c = Some d -> In (c, d) Py.digit_chars.
Proof.
  destruct c as [[] [] [] [] [] [] [] []]; vm_compute; intros H;
    try discriminate H; injection H as <-; tauto.
Qed.

Ltac digit_cases H :=
  apply digit_val_inv in H; simpl in H;
  repeat (destruct H as [H | H]; [injection H as <- <- | ]); try contradiction.

Lemma digit_not_space c d :
  Py.digit_val c = Some d -> Py.isspace c = false /\ Ascii.eqb c ":" = false.
Proof. intros H; digit_cases H; split; reflexivity. Qed.

Lemma digit_val_range c d : Py.digit_val c = Some d -> 0 <= d <= 9.
Proof. intros H; digit_cases H; lia. Qed.

Lemma int_two_digits a b v :
  two_digits a b = Some v -> Py.int (String a (String b "")) = Some v.
Proof.
  unfold two_digits.
  destruct (Py.digit_val a) as [x|] eqn:Ha; [|discriminate].
  destruct (Py.digit_val b) as [y|] eqn:Hb; [|discriminate].
  intros H; injection H as <-.
  digit_cases Ha; digit_cases Hb; reflexivity.
Qed.

Lemma two_digits_inv a b v :
  two_digits a b = Some v ->
  exists x y, Py.digit_val a = Some x /\ Py.digit_val b = Some y /\
              v = 10 * x + y /\ 0 <= x <= 9 /\ 0 <= y <= 9.
Proof.
  unfold two_digits.
  destruct (Py.digit_val a) as [x|] eqn:Ha; [|discriminate].
  destruct (Py.digit_val b) as [y|] eqn:Hb; [|discriminate].
  intros H; injection H as <-. exists x, y.
  pose proof (digit_val_range _ _ Ha). pose proof (digit_val_range _ _ Hb).
  repeat split; try reflexivity; lia.
Qed.

(** [parse_hhmm] read off its code: the first two colon-separated fields of
    the stripped text, each accepted by [int()], within range. *)
Lemma parse_hhmm_fields s v :
  parse_hhmm s = Some v <->
  exists f0 f1 rest hh mm,
    Py.split ":" (Py.strip s) = f0 :: f1 :: rest /\
    Py.int f0 = Some hh /\ Py.int f1 = Some mm /\
    0 <= hh <= 23 /\ 0 <= mm <= 59 /\ v = 60 * hh + mm.
Proof.
  unfold parse_hhmm. split.
  - destruct (String.eqb (Py.strip s) ""); [discriminate|].
    destruct (Py.split ":" (Py.strip s)) as [|f0 [|f1 rest]];
      cbn [List.length nth Nat.ltb Nat.leb]; try discriminate.
    destruct (Py.int f0) as [hh|] eqn:H0; [|discriminate].
    destruct (Py.int f1) as [mm|] eqn:H1; [|discriminate].
    destruct ((0 <=? hh) && (hh <=? 23) && (0 <=? mm) && (mm <=? 59)) eqn:R;
      [|discriminate].
    intros H; injection H as <-.
    exists f0, f1, rest, hh, mm.
    repeat rewrite andb_true_iff in R. repeat rewrite Z.leb_le in R.
    repeat split; try reflexivity; try assumption; lia.
  - intros (f0 & f1 & rest & hh & mm & Hs & H0 & H1 & Rh & Rm & ->).
    destruct (String.eqb (Py.strip s) "") eqn:E.
    + apply String.eqb_eq in E. rewrite E in Hs. discriminate Hs.
    + rewrite Hs. cbn [List.length nth Nat.ltb Nat.leb]. rewrite H0, H1.
      replace ((0 <=? hh) && (hh <=? 23) && (0 <=? mm) && (mm <=? 59))
        with true.
      * f_equal. lia.
      * symmetry. repeat rewrite andb_true_iff. repeat rewrite Z.leb_le. lia.
Qed.

Lemma parse_hhmm_range s v : parse_hhmm s = Some v -> 0 <= v < 1440.
Proof.
  intros H. apply parse_hhmm_fields in H.
  destruct H as (_ & _ & _ & hh & mm & _ & _ & _ & Rh & Rm & ->). lia.
Qed.

Lemma spec_parseTimeOfDay_inv s v :
  spec_parseTimeOfDay s = Some v ->
  exists h1 h2 m1 m2 rest hh mm,
    s = String h1 (String h2 (String ":" (String m1 (String m2 rest)))) /\
    two_digits h1 h2 = Some hh /\ two_digits m1 m2 = Some mm /\
    hh <= 23 /\ mm <= 59 /\ v = 60 * hh + mm /\
    (rest = "" \/
     exists s1 s2 k,
       rest = String ":" (String s1 (String s2 "")) /\
       two_digits s1 s2 = Some k).
Proof.
  destruct s as [|h1 [|h2 [|c [|m1 [|m2 rest]]]]]; try discriminate;
    try (destruct c as [[] [] [] [] [] [] [] []]; discriminate).
  destruct c as [[] [] [] [] [] [] [] []]; try discriminate.
  cbn [spec_parseTimeOfDay].
  destruct (two_digits h1 h2) as [hh|] eqn:Hh; [|discriminate].
  destruct (two_digits m1 m2) as [mm|] eqn:Hm; [|discriminate].
  match goal with |- (if ?b && _ && _ then _ else _) = _ -> _ =>
    destruct b eqn:Hsec end; [|discriminate].
  cbn [andb].
  destruct (hh <=? 23) eqn:R1; [|discriminate].
  destruct (mm <=? 59) eqn:R2; [|discriminate].
  cbn [andb]. intros H; injection H as <-.
  apply Z.leb_le in R1, R2.
  exists h1, h2, m1, m2, rest, hh, mm. repeat split; try assumption.
  destruct rest as [|c [|s1 [|s2 [|]]]]; try (left; reflexivity);
    try (destruct c as [[] [] [] [] [] [] [] []]; discriminate).
  right. destruct c as [[] [] [] [] [] [] [] []]; try discriminate.
  destruct (two_digits s1 s2) as [k|] eqn:Hs; [|discriminate].
  exists s1, s2, k. split; [reflexivity | assumption].
Qed.

Lemma spec_accepted_is_parsed s v :
  spec_parseTimeOfDay s = Some v -> parse_hhmm s = Some v.
Proof.
  intros H. apply spec_parseTimeOfDay_inv in H.
  destruct H as (h1 & h2 & m1 & m2 & rest & hh & mm & -> & Hh & Hm & R1 & R2
                 & -> & Hrest).
  destruct (two_digits_inv _ _ _ Hh) as (x1 & x2 & D1 & D2 & _ & B1 & B2).
  destruct (two_digits_inv _ _ _ Hm) as (y1 & y2 & D3 & D4 & _ & B3 & B4).
  destruct (digit_not_space _ _ D1) as [S1 C1].
  destruct (digit_not_space _ _ D2) as [S2 C2].
  destruct (digit_not_space _ _ D3) as [S3 C3].
  destruct (digit_not_space _ _ D4) as [S4 C4].
  assert (Hh0 : 0 <= hh) by (apply two_digits_inv in Hh;
    destruct Hh as (? & ? & _ & _ & -> & ? & ?); lia).
  assert (Hm0 : 0 <= mm) by (apply two_digits_inv in Hm;
    destruct Hm as (? & ? & _ & _ & -> & ? & ?); lia).
  apply parse_hhmm_fields.
  destruct Hrest as [-> | (s1 & s2 & k & -> & Hs)].
  - exists (String h1 (String h2 "")), (String m1 (String m2 "")), [], hh, mm.
    repeat split; try (apply int_two_digits; assumption); try lia.
    unfold Py.strip. cbn [Py.lstrip]. rewrite S1.
    cbn [Py.rstrip]. rewrite S4.
    cbn [Py.split]. rewrite C1, C2, C3, C4. reflexivity.
  - destruct (two_digits_inv _ _ _ Hs) as (z1 & z2 & D5 & D6 & _).
    destruct (digit_not_space _ _ D5) as [S5 C5].
    destruct (digit_not_space _ _ D6) as [S6 C6].
    exists (String h1 (String h2 "")), (String m1 (String m2 "")),
      [String s1 (String s2 "")], hh, mm.
    repeat split; try (apply int_two_digits; assumption); try lia.
    unfold Py.strip. cbn [Py.lstrip]. rewrite S1.
    cbn [Py.rstrip]. rewrite S6.
    cbn [Py.split]. rewrite C1, C2, C3, C4, C5, C6. reflexivity.
Qed.

(** C8 (amended).  [parse_hhmm] is a total function (it never raises) and its
    values lie in [0, 1440).  It returns [60*hh + mm] exactly when the
    stripped text has at least two colon-separated fields of which the first
    two are read by [int()] as an hour in [0,23] and a minute in [0,59];
    whatever follows the second colon is ignored.  Every text the
    specification calls well formed ([HH:MM] or [HH:MM:SS] within range) is
    among those, with the same value. *)
Theorem parse_hhmm_total_and_tolerant : forall s,
  (forall v,
      parse_hhmm s = Some v <->
      exists f0 f1 rest hh mm,
        Py.split ":" (Py.strip s) = f0 :: f1 :: rest /\
        Py.int f0 = Some hh /\ Py.int f1 = Some mm /\
        0 <= hh <= 23 /\ 0 <= mm <= 59 /\ v = 60 * hh + mm) /\
  (forall v, parse_hhmm s = Some v -> 0 <= v < 1440) /\
  (forall v, spec_parseTimeOfDay s = Some v -> parse_hhmm s = Some v).
Proof.
  intros s. split; [|split].
  - intros v. apply parse_hhmm_fields.
  - intros v. apply parse_hhmm_range.
  - intros v. apply spec_accepted_is_parsed.
Qed.

Lemma parse_hhmm_total_and_tolerant_witness :
  spec_parseTimeOfDay "09:30:00" = Some 570 /\
  parse_hhmm "09:30:00" = Some 570 /\ 0 <= 570 < 1440.
Proof.
  split; [reflexivity|].
  destruct (parse_hhmm_total_and_tolerant "09:30:00") as (_ & Hr & Hs).
  split.
  - apply Hs. reflexivity.
  - apply Hr. apply Hs. reflexivity.
Defined.

(** C8 as stated fails: a text that is neither [HH:MM] nor [HH:MM:SS] is
    parsed to a minute of day. *)
Lemma parse_hhmm_accepts_malformed :
  parse_hhmm "12:30:zz" = Some 750 /\ spec_parseTimeOfDay "12:30:zz" = None /\
  parse_hhmm " 9:5" = Some 545 /\ spec_parseTimeOfDay " 9:5" = None.
Proof. repeat split; reflexivity. Qed.

(** *** Interval placement *)

Lemma us_per_day_val : us_per_day = 86400000000.
Proof. reflexivity. Qed.

Lemma us_per_second_val : us_per_second = 1000000.
Proof. reflexivity. Qed.

Lemma combine_minutes d m :
  combine d (mk_dt_time (m / 60) (m mod 60)) = d * us_per_day + m * 60000000.
Proof.
  unfold combine; cbn [hour minute]. rewrite us_per_second_val.
  pose proof (Z.div_mod m 60). lia.
Qed.

Lemma date_of_offset d r :
  0 <= r < us_per_day -> date_of (d * us_per_day + r) = d.
Proof.
  intros Hr. unfold date_of. symmetry.
  apply (Z.div_unique _ _ d r); [left; exact Hr | ring].
Qed.

Lemma parse_time_obj_inv s t :
  _parse_time_obj s = Some t ->
  exists m, parse_hhmm s = Some m /\ 0 <= m < 1440 /\
            forall d, combine d t = d * us_per_day + m * 60000000.
Proof.
  unfold _parse_time_obj. destruct (parse_hhmm s) as [m|] eqn:E; [|discriminate].
  intros H; injection H as <-. exists m. split; [reflexivity|].
  split; [eapply parse_hhmm_range; eassumption|].
  intros d. apply combine_minutes.
Qed.

Lemma best_date_near now code d :
  _best_date_for_daycode now code = Some d ->
  date_of now - 1 <= d <= date_of now + 1.
Proof.
  unfold _best_date_for_daycode.
  destruct (lookup _ DAY_TO_WD) as [wd|]; [|discriminate].
  cbn [find].
  repeat match goal with |- context [if ?b then _ else _] => destruct b end;
    intros H; injection H as <-; lia.
Qed.

(** What a resolved interval looks like: both instants on the base date,
    the end moved one day on when it would not come after the start. *)
Lemma interval_inv now it s e r :
  _item_interval_debug now it = (Some (s, e), r) ->
  r = "ok" /\
  exists d ms me,
    _best_date_for_daycode now (day it) = Some d /\
    parse_hhmm (start it) = Some ms /\ parse_hhmm (end_ it) = Some me /\
    0 <= ms < 1440 /\ 0 <= me < 1440 /\
    s = d * us_per_day + ms * 60000000 /\
    e = d * us_per_day + me * 60000000
        + (if me <=? ms then us_per_day else 0).
Proof.
  unfold _item_interval_debug.
  destruct (_best_date_for_daycode now (day it)) as [d|]; [|discriminate].
  destruct (_parse_time_obj (start it)) as [ts|] eqn:Es; [|discriminate].
  destruct (_parse_time_obj (end_ it)) as [te|] eqn:Ee; [|discriminate].
  apply parse_time_obj_inv in Es, Ee.
  destruct Es as (ms & Hms & Rms & Cs). destruct Ee as (me & Hme & Rme & Ce).
  rewrite Cs, Ce. intros H; injection H as <- <- <-.
  split; [reflexivity|]. exists d, ms, me.
  repeat split; try assumption; try lia.
  unfold timedelta_days.
  destruct (me <=? ms) eqn:L1;
    [apply Z.leb_le in L1 | apply Z.leb_gt in L1];
    destruct (_ <=? _) eqn:L2;
    try apply Z.leb_le in L2; try apply Z.leb_gt in L2;
    pose proof us_per_day_val; lia.
Qed.

Lemma interval_positive now it s e r :
  _item_interval_debug now it = (Some (s, e), r) ->
  s < e <= s + us_per_day.
Proof.
  intros H. apply interval_inv in H.
  destruct H as (_ & d & ms & me & _ & _ & _ & Rs & Re & -> & ->).
  rewrite us_per_day_val.
  destruct (me <=? ms) eqn:L;
    [apply Z.leb_le in L | apply Z.leb_gt in L]; lia.
Qed.

(** C5.  Once the weekday is anchored to the base date [d], the start is
    [combine d t_start]; an end that does not come after it is moved forward
    exactly one day, any other end is kept.  For start 23:30 and end 00:30 the
    end is the start plus one hour, on the next calendar day. *)
Theorem midnight_crossing_pushes_one_day : forall now it d t_start t_end,
  _best_date_for_daycode now (day it) = Some d ->
  _parse_time_obj (start it) = Some t_start ->
  _parse_time_obj (end_ it) = Some t_end ->
  exists e,
    _item_interval_debug now it = (Some (combine d t_start, e), "ok") /\
    (combine d t_end <= combine d t_start ->
     e = combine d t_end + timedelta_days 1) /\
    (combine d t_start < combine d t_end -> e = combine d t_end) /\
    (start it = "23:30" -> end_ it = "00:30" ->
     e = combine d t_start + timedelta_minutes 60 /\
     date_of e = date_of (combine d t_start) + 1).
Proof.
  intros now it d ts te Hd Hs He.
  unfold _item_interval_debug. rewrite Hd, Hs, He.
  eexists. split; [reflexivity|].
  split; [|split].
  - intros L. apply Z.leb_le in L. rewrite L. reflexivity.
  - intros L. apply Z.leb_gt in L. rewrite L. reflexivity.
  - intros Es Ee. rewrite Es in Hs. rewrite Ee in He.
    vm_compute in Hs. vm_compute in He.
    injection Hs as <-. injection He as <-.
    assert (C1 : combine d (mk_dt_time 23 30) = d * us_per_day + 84600000000)
      by (unfold combine; cbn [hour minute]; rewrite us_per_second_val; lia).
    assert (C2 : combine d (mk_dt_time 0 30) = d * us_per_day + 1800000000)
      by (unfold combine; cbn [hour minute]; rewrite us_per_second_val; lia).
    rewrite C1, C2.
    replace (d * us_per_day + 1800000000 <=? d * us_per_day + 84600000000)
      with true by (symmetry; apply Z.leb_le; lia).
    unfold timedelta_days, timedelta_minutes.
    rewrite us_per_second_val. split; [rewrite us_per_day_val; lia|].
    replace (d * us_per_day + 1800000000 + 1 * us_per_day)
      with ((d + 1) * us_per_day + 1800000000) by ring.
    rewrite !date_of_offset; [reflexivity | |]; rewrite us_per_day_val; lia.
Qed.

Lemma midnight_crossing_witness :
  let now := 738000 * us_per_day + 34200000000 in
  let it := mkClassItem "QUI" "23:30" "00:30" "Futsal" "" "" "" in
  _item_interval_debug now it
  = (Some (738000 * us_per_day + 84600000000,
           738001 * us_per_day + 1800000000), "ok").
Proof.
  intros now it.
  destruct (midnight_crossing_pushes_one_day now it 738000
              (mk_dt_time 23 30) (mk_dt_time 0 30)
              eq_refl eq_refl eq_refl) as (e & H & Hpush & _).
  rewrite H. rewrite (Hpush ltac:(vm_compute; discriminate)). reflexivity.
Defined.

End SalProofs.

(** ** The now/next classifier *)

Module ClassifierProofs.
Import Sal Classifier SalProofs.

(** *** The loop as two flat maps *)

Lemma loop_body_acc now we a b it :
  loop_body now we (a, b) it
  = (a ++ fst (classify now we it), b ++ snd (classify now we it)).
Proof.
  unfold classify, loop_body.
  destruct (_item_interval_debug now it) as [[[s e]|] r].
  - destruct ((s <=? now) && (now <? e)).
    + cbn [fst snd app]. rewrite app_nil_r. reflexivity.
    + destruct ((now <=? s) && (s <=? we)); cbn [fst snd app];
        rewrite ?app_nil_r; reflexivity.
  - cbn [fst snd]. rewrite !app_nil_r. reflexivity.
Qed.

Lemma fold_loop_body now we items : forall a b,
  fold_left (loop_body now we) items (a, b)
  = (a ++ flat_map (fun it => fst (classify now we it)) items,
     b ++ flat_map (fun it => snd (classify now we it)) items).
Proof.
  induction items as [|it items IH]; intros a b; cbn [fold_left flat_map].
  - rewrite !app_nil_r. reflexivity.
  - rewrite loop_body_acc, IH, <- !app_assoc. reflexivity.
Qed.

Lemma buckets_flat_map items now :
  buckets items now
  = (flat_map (fun it => fst (classify now (now + timedelta_minutes 120) it))
       items,
     flat_map (fun it => snd (classify now (now + timedelta_minutes 120) it))
       items).
Proof. unfold buckets. rewrite fold_loop_body. reflexivity. Qed.

Lemma in_now_bucket items now r :
  In r (fst (buckets items now)) <->
  exists it s e,
    In it items /\ _item_interval_debug now it = (Some (s, e), "ok") /\
    s <= now < e /\ r = mk_row it (progress_now now s e) e s.
Proof.
  rewrite buckets_flat_map. cbn [fst]. rewrite in_flat_map. split.
  - intros (it & Hin & Hr). unfold classify, loop_body in Hr.
    destruct (_item_interval_debug now it) as [[[s e]|] reason] eqn:E;
      [|destruct Hr].
    destruct (interval_inv _ _ _ _ _ E) as [-> _].
    destruct ((s <=? now) && (now <? e)) eqn:C.
    + apply andb_true_iff in C. destruct C as [C1 C2].
      apply Z.leb_le in C1. apply Z.ltb_lt in C2.
      destruct Hr as [<- | []]. exists it, s, e. repeat split; assumption.
    + destruct ((now <=? s) && (s <=? _)); destruct Hr.
  - intros (it & s & e & Hin & E & [C1 C2] & ->). exists it. split; [exact Hin|].
    unfold classify, loop_body. rewrite E.
    apply Z.leb_le in C1. apply Z.ltb_lt in C2. rewrite C1, C2.
    left. reflexivity.
Qed.

Lemma in_next_bucket items now r :
  In r (snd (buckets items now)) <->
  exists it s e,
    In it items /\ _item_interval_debug now it = (Some (s, e), "ok") /\
    now < s <= now + timedelta_minutes 120 /\
    r = mk_row it (progress_next now s (now + timedelta_minutes 120)) e s.
Proof.
  rewrite buckets_flat_map. cbn [snd]. rewrite in_flat_map. split.
  - intros (it & Hin & Hr). unfold classify, loop_body in Hr.
    destruct (_item_interval_debug now it) as [[[s e]|] reason] eqn:E;
      [|destruct Hr].
    pose proof (interval_positive _ _ _ _ _ E) as Hpos.
    destruct (interval_inv _ _ _ _ _ E) as [-> _].
    destruct ((s <=? now) && (now <? e)) eqn:C; [destruct Hr|].
    destruct ((now <=? s) && (s <=? _)) eqn:C'; [|destruct Hr].
    apply andb_true_iff in C'. destruct C' as [C1 C2].
    apply Z.leb_le in C1, C2.
    apply andb_false_iff in C.
    destruct Hr as [<- | []]. exists it, s, e.
    repeat split; try assumption.
    destruct C as [C | C]; [apply Z.leb_gt in C | apply Z.ltb_ge in C]; lia.
  - intros (it & s & e & Hin & E & [C1 C2] & ->). exists it. split; [exact Hin|].
    unfold classify, loop_body. rewrite E.
    replace (s <=? now) with false by (symmetry; apply Z.leb_gt; lia).
    cbn [andb].
    replace (now <=? s) with true by (symmetry; apply Z.leb_le; lia).
    apply Z.leb_le in C2. rewrite C2. left. reflexivity.
Qed.

(** *** Progress fractions *)

Lemma total_seconds_val td : total_seconds td = (td * 1 # 1000000)%Q.
Proof. reflexivity. Qed.

Lemma total_seconds_pos td : 0 < td -> (0 < total_seconds td)%Q.
Proof. intros H. rewrite total_seconds_val. unfold Qlt; cbn. lia. Qed.

Lemma total_seconds_le td td' :
  td <= td' -> (total_seconds td <= total_seconds td')%Q.
Proof. intros H. rewrite !total_seconds_val. unfold Qle; cbn. lia. Qed.

Lemma total_seconds_lt td td' :
  td < td' -> (total_seconds td < total_seconds td')%Q.
Proof. intros H. rewrite !total_seconds_val. unfold Qlt; cbn. lia. Qed.

Lemma total_seconds_nonpos_test td :
  Qle_bool (total_seconds td) 0 = (td <=? 0).
Proof.
  rewrite total_seconds_val. unfold Qle_bool; cbn.
  destruct (td <=? 0) eqn:E;
    [apply Z.leb_le in E; apply Z.leb_le | apply Z.leb_gt in E; apply Z.leb_gt];
    lia.
Qed.

Lemma total_seconds_ratio a b :
  b <> 0 ->
  (total_seconds a / total_seconds b == inject_Z a / inject_Z b)%Q.
Proof.
  intros Hb. unfold total_seconds.
  assert (~ inject_Z b == 0)%Q
    by (unfold Qeq; cbn; lia).
  assert (~ inject_Z us_per_second == 0)%Q by discriminate.
  field. split; assumption.
Qed.

Lemma pymax_Qmax a b : (Py.max a b == Qmax a b)%Q.
Proof.
  unfold Py.max, Py.Qltb.
  destruct (Qle_bool b a) eqn:E; cbn [negb].
  - apply Qle_bool_iff in E. symmetry. apply Q.max_l. exact E.
  - assert (a < b)%Q.
    { apply Qnot_le_lt. intros H. apply Qle_bool_iff in H. congruence. }
    symmetry. apply Q.max_r. apply Qlt_le_weak. assumption.
Qed.

Lemma pymin_Qmin a b : (Py.min a b == Qmin a b)%Q.
Proof.
  unfold Py.min, Py.Qltb.
  destruct (Qle_bool a b) eqn:E; cbn [negb].
  - apply Qle_bool_iff in E. symmetry. apply Q.min_l. exact E.
  - assert (b < a)%Q.
    { apply Qnot_le_lt. intros H. apply Qle_bool_iff in H. congruence. }
    symmetry. apply Q.min_r. apply Qlt_le_weak. assumption.
Qed.

Lemma clamp_Qmax_Qmin r : (Py.max 0 (Py.min 1 r) == Qmax 0 (Qmin 1 r))%Q.
Proof. rewrite pymax_Qmax, pymin_Qmin. reflexivity. Qed.

(** A zero or negative duration gives progress 0. *)
Lemma progress_now_nonpositive now s e :
  e <= s -> progress_now now s e = 0%Q.
Proof.
  intros H. unfold progress_now. rewrite total_seconds_nonpos_test.
  replace (e - s <=? 0) with true by (symmetry; apply Z.leb_le; lia).
  reflexivity.
Qed.

(** Otherwise it is the elapsed fraction, clamped to [0, 1]. *)
Lemma progress_now_clamped now s e :
  s < e ->
  (progress_now now s e
   == Qmax 0 (Qmin 1 (inject_Z (now - s) / inject_Z (e - s))))%Q.
Proof.
  intros H. unfold progress_now. rewrite total_seconds_nonpos_test.
  replace (e - s <=? 0) with false by (symmetry; apply Z.leb_gt; lia).
  rewrite clamp_Qmax_Qmin, total_seconds_ratio by lia. reflexivity.
Qed.

Lemma ratio_bounds a b :
  0 <= a -> a < b -> (0 <= inject_Z a / inject_Z b < 1)%Q.
Proof.
  intros Ha Hab.
  assert (Hb : (0 < inject_Z b)%Q) by (unfold Qlt; cbn; lia).
  split.
  - apply Qle_shift_div_l; [exact Hb|]. rewrite Qmult_0_l.
    unfold Qle; cbn; lia.
  - apply Qlt_shift_div_r; [exact Hb|]. rewrite Qmult_1_l.
    unfold Qlt; cbn; lia.
Qed.

(** While the entry runs the clamp changes nothing. *)
Lemma progress_now_running now s e :
  s <= now < e ->
  (progress_now now s e == inject_Z (now - s) / inject_Z (e - s))%Q /\
  (0 <= progress_now now s e < 1)%Q.
Proof.
  intros [H1 H2].
  destruct (ratio_bounds (now - s) (e - s)) as [B1 B2]; [lia | lia |].
  assert (E : (progress_now now s e
               == inject_Z (now - s) / inject_Z (e - s))%Q).
  { rewrite progress_now_clamped by lia.
    rewrite (Q.min_r 1) by (apply Qlt_le_weak; exact B2).
    apply Q.max_r. exact B1. }
  split; [exact E|]. rewrite E. split; assumption.
Qed.

Lemma progress_next_clamped now s we :
  now < we ->
  (progress_next now s we
   == Qmax (2 # 100)
        (Qmax 0 (Qmin 1 (1 - inject_Z (s - now) / inject_Z (we - now)))))%Q.
Proof.
  intros H. unfold progress_next. rewrite total_seconds_nonpos_test.
  replace (we - now <=? 0) with false by (symmetry; apply Z.leb_gt; lia).
  rewrite pymax_Qmax, clamp_Qmax_Qmin, total_seconds_ratio by lia.
  reflexivity.
Qed.

(** The floor is applied last, so it also covers the zero-progress
    branch of a window that has no duration. *)
Lemma progress_next_empty_window now s we :
  we <= now -> progress_next now s we = (2 # 100)%Q.
Proof.
  intros H. unfold progress_next. rewrite total_seconds_nonpos_test.
  replace (we - now <=? 0) with true by (symmetry; apply Z.leb_le; lia).
  reflexivity.
Qed.

Lemma progress_next_bounds now s we :
  now < s <= we -> (2 # 100 <= progress_next now s we < 1)%Q.
Proof.
  intros [H1 H2]. rewrite progress_next_clamped by lia.
  assert (Hw : (0 < inject_Z (we - now))%Q) by (unfold Qlt; cbn; lia).
  assert (Hr : (0 < inject_Z (s - now) / inject_Z (we - now))%Q).
  { apply Qlt_shift_div_l; [exact Hw|]. rewrite Qmult_0_l.
    unfold Qlt; cbn; lia. }
  split; [apply Q.le_max_l|].
  apply Q.max_lub_lt; [reflexivity|].
  apply Q.max_lub_lt; [reflexivity|].
  apply Q.min_lt_iff. right.
  apply (Qplus_lt_l _ _ (inject_Z (s - now) / inject_Z (we - now))).
  ring_simplify. rewrite <- (Qplus_0_r 1) at 1.
  rewrite (Qplus_comm _ 1). apply Qplus_lt_r. exact Hr.
Qed.

(** *** The stable sort *)

Lemma in_firstn {A} n (l : list A) x : In x (firstn n l) -> In x l.
Proof.
  intros H. rewrite <- (firstn_skipn n l). apply in_or_app. left. exact H.
Qed.

Lemma in_skipn {A} n (l : list A) x : In x (skipn n l) -> In x l.
Proof.
  intros H. rewrite <- (firstn_skipn n l). apply in_or_app. right. exact H.
Qed.

Section SortBy.

Variable key : row -> Z.


Lemma insert_by_perm x l : Permutation (insert_by key x l) (x :: l).
Proof.
  induction l as [|y l IH]; cbn [insert_by]; [reflexivity|].
  destruct (key x <=? key y); [reflexivity|].
  rewrite IH. apply perm_swap.
Qed.

Lemma sort_by_perm l : Permutation (sort_by key l) l.
Proof.
  induction l as [|x l IH]; cbn [sort_by fold_right]; [reflexivity|].
  fold (sort_by key l). rewrite insert_by_perm, IH. reflexivity.
Qed.

Lemma insert_by_sorted x l :
  StronglySorted (key_le key) l -> StronglySorted (key_le key) (insert_by key x l).
Proof.
  induction 1 as [|y l Hs IH Hy]; cbn [insert_by].
  - constructor; constructor.
  - destruct (key x <=? key y) eqn:E.
    + apply Z.leb_le in E. constructor; [constructor; assumption|].
      constructor; [exact E|].
      eapply Forall_impl; [|exact Hy]. unfold key_le. intros; lia.
    + apply Z.leb_gt in E. constructor; [exact IH|].
      eapply Permutation_Forall; [symmetry; apply insert_by_perm|].
      constructor; [unfold key_le; lia | exact Hy].
Qed.

Lemma sort_by_sorted l : StronglySorted (key_le key) (sort_by key l).
Proof.
  induction l as [|x l IH]; cbn [sort_by fold_right]; [constructor|].
  apply insert_by_sorted. exact IH.
Qed.



(** The first [n] rows of a sorted list are its smallest. *)
Lemma firstn_skipn_sorted n l a b :
  StronglySorted (key_le key) l ->
  In a (firstn n l) -> In b (skipn n l) -> key a <= key b.
Proof.
  intros Hs. revert n. induction Hs as [|y l Hs IH Hy]; intros n Ha Hb.
  - destruct n; destruct Ha.
  - destruct n as [|n]; [destruct Ha|].
    cbn [firstn skipn] in *. destruct Ha as [<- | Ha].
    + rewrite Forall_forall in Hy. apply Hy.
      apply (in_skipn _ _ _ Hb).
    + eapply IH; eassumption.
Qed.

Lemma firstn_sorted n l :
  StronglySorted (key_le key) l -> StronglySorted (key_le key) (firstn n l).
Proof.
  intros Hs. revert n. induction Hs as [|y l Hs IH Hy]; intros [|n];
    cbn [firstn]; try constructor.
  - apply IH.
  - rewrite Forall_forall in *. intros z Hz. apply Hy.
    eapply in_firstn; eassumption.
Qed.

End SortBy.

(** *** One entry at a time *)

Lemma weekday_pred d : (weekday (d - 1) =? weekday d) = false.
Proof. apply Z.eqb_neq. unfold weekday. Z.div_mod_to_equations. lia. Qed.

(** An entry whose code names today's weekday is anchored to today. *)
Lemma today_anchor now code :
  lookup (Py.upper (Py.strip code)) DAY_TO_WD = Some (weekday (date_of now)) ->
  _best_date_for_daycode now code = Some (date_of now).
Proof.
  intros H. unfold _best_date_for_daycode. rewrite H. cbn [find].
  rewrite weekday_pred, Z.eqb_refl. reflexivity.
Qed.

Lemma compute_single_current it now s e :
  _item_interval_debug now it = (Some (s, e), "ok") -> s <= now < e ->
  _compute_now_next [it] now
  = ([row_card (mk_row it (progress_now now s e) e s)], []).
Proof.
  intros E [C1 C2]. unfold _compute_now_next, buckets.
  cbn [fold_left]. unfold loop_body. rewrite E.
  apply Z.leb_le in C1. apply Z.ltb_lt in C2. rewrite C1, C2. reflexivity.
Qed.

Lemma compute_single_upcoming it now s e :
  _item_interval_debug now it = (Some (s, e), "ok") ->
  now < s <= now + timedelta_minutes 120 ->
  _compute_now_next [it] now
  = ([], [row_card (mk_row it
            (progress_next now s (now + timedelta_minutes 120)) e s)]).
Proof.
  intros E [C1 C2]. unfold _compute_now_next, buckets.
  cbn [fold_left]. unfold loop_body. rewrite E.
  replace (s <=? now) with false by (symmetry; apply Z.leb_gt; lia).
  replace (now <=? s) with true by (symmetry; apply Z.leb_le; lia).
  apply Z.leb_le in C2. rewrite C2. reflexivity.
Qed.

Lemma compute_single_excluded it now s e :
  _item_interval_debug now it = (Some (s, e), "ok") ->
  now + timedelta_minutes 120 < s ->
  _compute_now_next [it] now = ([], []).
Proof.
  intros E C. unfold _compute_now_next, buckets.
  cbn [fold_left]. unfold loop_body. rewrite E.
  replace (s <=? now) with false
    by (symmetry; apply Z.leb_gt; unfold timedelta_minutes in C;
        rewrite us_per_second_val in C; lia).
  replace (s <=? now + timedelta_minutes 120) with false
    by (symmetry; apply Z.leb_gt; lia).
  rewrite andb_false_r. reflexivity.
Qed.

Lemma in_output_now items now c :
  In c (fst (_compute_now_next items now)) ->
  exists r, In r (fst (buckets items now)) /\ c = row_card r.
Proof.
  unfold _compute_now_next. destruct (buckets items now) as [nb xb].
  cbn [fst]. intros H. apply in_firstn in H. apply in_map_iff in H.
  destruct H as (r & <- & Hr). exists r. split; [|reflexivity].
  eapply Permutation_in; [apply sort_by_perm | exact Hr].
Qed.

Lemma in_output_next items now c :
  In c (snd (_compute_now_next items now)) ->
  exists r, In r (snd (buckets items now)) /\ c = row_card r.
Proof.
  unfold _compute_now_next. destruct (buckets items now) as [nb xb].
  cbn [snd]. intros H. apply in_firstn in H. apply in_map_iff in H.
  destruct H as (r & <- & Hr). exists r. split; [|reflexivity].
  eapply Permutation_in; [apply sort_by_perm | exact Hr].
Qed.

(** The 09:00-10:00 entry of today's weekday, seen at 09:30. *)
Lemma nine_to_ten_at_half_past d code a t l g :
  lookup (Py.upper (Py.strip code)) DAY_TO_WD = Some (weekday d) ->
  let now := combine d (mk_dt_time 9 30) in
  let it := mkClassItem code "09:00" "10:00" a t l g in
  _item_interval_debug now it
  = (Some (combine d (mk_dt_time 9 0), combine d (mk_dt_time 10 0)), "ok") /\
  combine d (mk_dt_time 9 0) <= now < combine d (mk_dt_time 10 0) /\
  (progress_now now (combine d (mk_dt_time 9 0)) (combine d (mk_dt_time 10 0))
   == 1 # 2)%Q.
Proof.
  intros H now it.
  assert (Hd : date_of now = d).
  { unfold now, combine; cbn [hour minute]. apply date_of_offset.
    rewrite us_per_day_val, us_per_second_val. lia. }
  assert (Hnow : now = d * us_per_day + 34200000000)
    by (unfold now, combine; cbn [hour minute]; rewrite us_per_second_val; lia).
  assert (Hs : combine d (mk_dt_time 9 0) = d * us_per_day + 32400000000)
    by (unfold combine; cbn [hour minute]; rewrite us_per_second_val; lia).
  assert (He : combine d (mk_dt_time 10 0) = d * us_per_day + 36000000000)
    by (unfold combine; cbn [hour minute]; rewrite us_per_second_val; lia).
  split; [|split].
  - unfold _item_interval_debug. cbn [day start end_ it].
    rewrite today_anchor by (rewrite Hd; exact H). rewrite Hd.
    change (_parse_time_obj "09:00") with (Some (mk_dt_time 9 0)).
    change (_parse_time_obj "10:00") with (Some (mk_dt_time 10 0)).
    cbv iota. rewrite Hs, He.
    replace (_ <=? _) with false by (symmetry; apply Z.leb_gt; lia).
    reflexivity.
  - lia.
  - destruct (progress_now_running now (combine d (mk_dt_time 9 0))
                (combine d (mk_dt_time 10 0))) as [E _]; [lia|].
    rewrite E.
    replace (now - combine d (mk_dt_time 9 0)) with 1800000000 by lia.
    replace (combine d (mk_dt_time 10 0) - combine d (mk_dt_time 9 0))
      with 3600000000 by lia.
    reflexivity.
Qed.

(** *** The claims about the classifier *)

(** C4.  A row is in the "current" bucket exactly when it comes from an entry
    whose resolved interval satisfies start <= reference < end.  Its progress
    is (reference - start) / (end - start) clamped to [0, 1], which for a
    running entry is the fraction itself, in [0, 1); a zero or negative
    duration gives progress 0.  Every card of the first output sequence comes
    from such a row.  An entry 09:00-10:00 on today's weekday, seen at 09:30,
    is the one current card, with progress 1/2. *)
Theorem current_bucket_and_progress : forall items now,
  (forall r,
      In r (fst (buckets items now)) <->
      exists it s e,
        In it items /\ _item_interval_debug now it = (Some (s, e), "ok") /\
        s <= now < e /\ r = mk_row it (progress_now now s e) e s) /\
  (forall c, In c (fst (_compute_now_next items now)) ->
             exists r, In r (fst (buckets items now)) /\ c = row_card r) /\
  (forall s e, s < e ->
     (progress_now now s e
      == Qmax 0 (Qmin 1 (inject_Z (now - s) / inject_Z (e - s))))%Q) /\
  (forall s e, s <= now < e ->
     (progress_now now s e == inject_Z (now - s) / inject_Z (e - s))%Q /\
     (0 <= progress_now now s e < 1)%Q) /\
  (forall s e, e <= s -> progress_now now s e = 0%Q) /\
  (forall d code a t l g,
     lookup (Py.upper (Py.strip code)) DAY_TO_WD = Some (weekday d) ->
     exists p,
       _compute_now_next [mkClassItem code "09:00" "10:00" a t l g]
         (combine d (mk_dt_time 9 30))
       = ([("09:00", "10:00", a, t, l, g, p)], []) /\ (p == 1 # 2)%Q).
Proof.
  intros items now. repeat apply conj.
  - intros r. apply in_now_bucket.
  - intros c. apply in_output_now.
  - intros s e. apply progress_now_clamped.
  - intros s e. apply progress_now_running.
  - intros s e. apply progress_now_nonpositive.
  - intros d code a t l g H.
    destruct (nine_to_ten_at_half_past d code a t l g H) as (E & C & P).
    eexists. split; [|exact P].
    rewrite (compute_single_current _ _ _ _ E C). reflexivity.
Qed.

Lemma current_bucket_and_progress_witness :
  exists p,
    _compute_now_next
      [mkClassItem "qui" "09:00" "10:00" "Natacao" "Ana" "Piscina" "GERAL"]
      (combine 738000 (mk_dt_time 9 30))
    = ([("09:00", "10:00", "Natacao", "Ana", "Piscina", "GERAL", p)], []) /\
    (p == 1 # 2)%Q.
Proof.
  destruct (current_bucket_and_progress [] 0) as (_ & _ & _ & _ & _ & H).
  apply (H 738000 "qui"). reflexivity.
Defined.

(** C3 (amended).  A row is in the "upcoming" bucket exactly when it comes
    from an entry whose resolved start satisfies
    reference < start <= reference + 120 minutes: an entry that starts at the
    reference instant is current, not upcoming.  Its progress is
    1 - (start - reference) / (windowEnd - reference), clamped to [0, 1] and
    then floored at 0.02, so it lies in [0.02, 1).  The floor is applied
    last: a window without duration, which the fixed 120 minutes never
    produce, would also give 0.02.  An entry starting in 30 minutes is the
    one upcoming card with progress 3/4; one starting in 150 minutes is in
    neither sequence. *)
Theorem upcoming_bucket_and_progress : forall items now,
  let window_end := now + timedelta_minutes 120 in
  (forall r,
      In r (snd (buckets items now)) <->
      exists it s e,
        In it items /\ _item_interval_debug now it = (Some (s, e), "ok") /\
        now < s <= window_end /\
        r = mk_row it (progress_next now s window_end) e s) /\
  (forall c, In c (snd (_compute_now_next items now)) ->
             exists r, In r (snd (buckets items now)) /\ c = row_card r) /\
  (forall s we, now < we ->
     (progress_next now s we
      == Qmax (2 # 100)
           (Qmax 0 (Qmin 1 (1 - inject_Z (s - now) / inject_Z (we - now)))))%Q) /\
  (forall s, now < s <= window_end ->
     (2 # 100 <= progress_next now s window_end < 1)%Q) /\
  (forall s we, we <= now -> progress_next now s we = (2 # 100)%Q) /\
  (forall it s e,
     _item_interval_debug now it = (Some (s, e), "ok") ->
     s = now + timedelta_minutes 30 ->
     exists p,
       _compute_now_next [it] now
       = ([], [(start it, end_ it, activity it, teacher it, location it,
                tag it, p)]) /\ (p == 3 # 4)%Q) /\
  (forall it s e,
     _item_interval_debug now it = (Some (s, e), "ok") ->
     s = now + timedelta_minutes 150 ->
     _compute_now_next [it] now = ([], [])).
Proof.
  intros items now window_end. repeat apply conj.
  - intros r. apply in_next_bucket.
  - intros c. apply in_output_next.
  - intros s we. apply progress_next_clamped.
  - intros s. apply progress_next_bounds.
  - intros s we. apply progress_next_empty_window.
  - intros it s e E Hs.
    assert (C : now < s <= now + timedelta_minutes 120)
      by (subst s; unfold timedelta_minutes; rewrite us_per_second_val; lia).
    eexists. split.
    + rewrite (compute_single_upcoming _ _ _ _ E C). reflexivity.
    + rewrite progress_next_clamped
        by (unfold timedelta_minutes; rewrite us_per_second_val; lia).
      replace (s - now) with 1800000000
        by (subst s; unfold timedelta_minutes; rewrite us_per_second_val; lia).
      replace (now + timedelta_minutes 120 - now) with 7200000000
        by (unfold timedelta_minutes; rewrite us_per_second_val; lia).
      reflexivity.
  - intros it s e E Hs.
    apply (compute_single_excluded _ _ _ _ E).
    subst s; unfold timedelta_minutes; rewrite us_per_second_val; lia.
Qed.

Lemma upcoming_bucket_and_progress_witness :
  exists p,
    _compute_now_next
      [mkClassItem "QUI" "10:00" "11:00" "Judo" "Rui" "Dojo" "MENOR"]
      (combine 738000 (mk_dt_time 9 30))
    = ([], [("10:00", "11:00", "Judo", "Rui", "Dojo", "MENOR", p)]) /\
    (p == 3 # 4)%Q.
Proof.
  destruct (upcoming_bucket_and_progress [] (combine 738000 (mk_dt_time 9 30)))
    as (_ & _ & _ & _ & _ & H & _).
  apply (H (mkClassItem "QUI" "10:00" "11:00" "Judo" "Rui" "Dojo" "MENOR")
           (combine 738000 (mk_dt_time 10 0))
           (combine 738000 (mk_dt_time 11 0))); reflexivity.
Defined.

(** C3 as stated fails: an entry whose start is the reference instant
    satisfies reference <= start <= reference + 120 minutes and is not
    upcoming (it is current). *)
Lemma start_at_reference_is_not_upcoming :
  let now := combine 738000 (mk_dt_time 9 0) in
  let it := mkClassItem "QUI" "09:00" "10:00" "Judo" "Rui" "Dojo" "MENOR" in
  _item_interval_debug now it
  = (Some (now, now + timedelta_minutes 60), "ok") /\
  now <= now <= now + timedelta_minutes 120 /\
  snd (buckets [it] now) = [] /\
  _compute_now_next [it] now
  = ([("09:00", "10:00", "Judo", "Rui", "Dojo", "MENOR", 0%Q)], []).
Proof.
  intros now it. repeat apply conj; try reflexivity;
    vm_compute; discriminate.
Qed.

(** C6.  For every entry collection and reference instant the two output
    sequences are the cards of the first (at most 6) rows of the buckets
    sorted ascending, "current" by resolved end and "upcoming" by resolved
    start: the kept rows are sorted, the rows left out have keys at least as
    large, kept and left-out rows together are the bucket, and the lengths are
    min(6, size of the bucket). *)
Theorem output_sorted_and_capped : forall items now,
  exists now_rows now_rest next_rows next_rest,
    _compute_now_next items now
    = (map row_card now_rows, map row_card next_rows) /\
    Permutation (now_rows ++ now_rest) (fst (buckets items now)) /\
    Permutation (next_rows ++ next_rest) (snd (buckets items now)) /\
    StronglySorted (key_le row_end) now_rows /\
    StronglySorted (key_le row_start) next_rows /\
    (forall a b, In a now_rows -> In b now_rest -> row_end a <= row_end b) /\
    (forall a b, In a next_rows -> In b next_rest ->
                 row_start a <= row_start b) /\
    List.length now_rows = Nat.min 6 (List.length (fst (buckets items now))) /\
    List.length next_rows = Nat.min 6 (List.length (snd (buckets items now))) /\
    (List.length (fst (_compute_now_next items now)) <= 6)%nat /\
    (List.length (snd (_compute_now_next items now)) <= 6)%nat.
Proof.
  intros items now. unfold _compute_now_next.
  destruct (buckets items now) as [nb xb]. cbn [fst snd].
  exists (firstn 6 (sort_by row_end nb)), (skipn 6 (sort_by row_end nb)),
    (firstn 6 (sort_by row_start xb)), (skipn 6 (sort_by row_start xb)).
  repeat apply conj.
  - rewrite !firstn_map. reflexivity.
  - rewrite firstn_skipn. apply sort_by_perm.
  - rewrite firstn_skipn. apply sort_by_perm.
  - apply firstn_sorted, sort_by_sorted.
  - apply firstn_sorted, sort_by_sorted.
  - intros a b. apply firstn_skipn_sorted, sort_by_sorted.
  - intros a b. apply firstn_skipn_sorted, sort_by_sorted.
  - rewrite length_firstn, (Permutation_length (sort_by_perm _ nb)).
    reflexivity.
  - rewrite length_firstn, (Permutation_length (sort_by_perm _ xb)).
    reflexivity.
  - apply firstn_le_length.
  - apply firstn_le_length.
Qed.

Lemma output_sorted_and_capped_witness :
  let it e := mkClassItem "QUI" "09:00" e "Aula" "" "" "" in
  let items := [it "10:07"; it "10:06"; it "10:05"; it "10:04"; it "10:03";
                it "10:02"; it "10:01"] in
  let now := combine 738000 (mk_dt_time 9 30) in
  List.length (fst (buckets items now)) = 7%nat /\
  (List.length (fst (_compute_now_next items now)) <= 6)%nat /\
  map (fun c => snd (fst (fst (fst (fst (fst c))))))
    (fst (_compute_now_next items now))
  = ["10:01"; "10:02"; "10:03"; "10:04"; "10:05"; "10:06"].
Proof.
  intros it items now.
  destruct (output_sorted_and_capped items now)
    as (nr & _ & xr & _ & _ & _ & _ & _ & _ & _ & _ & _ & _ & H & _).
  split; [reflexivity|]. split; [exact H | reflexivity].
Defined.

(** *** Disjointness *)

Lemma now_rows_started items now r :
  In r (fst (buckets items now)) -> row_start r <= now.
Proof.
  intros H. apply in_now_bucket in H.
  destruct H as (it & s & e & _ & _ & [C _] & ->). exact C.
Qed.

Lemma next_rows_not_started items now r :
  In r (snd (buckets items now)) -> now < row_start r.
Proof.
  intros H. apply in_next_bucket in H.
  destruct H as (it & s & e & _ & _ & [C _] & ->). exact C.
Qed.

Lemma Qdiv_lt_cross a b c d :
  0 < b -> 0 < d -> a * d < c * b ->
  (inject_Z a / inject_Z b < inject_Z c / inject_Z d)%Q.
Proof.
  intros Hb Hd H.
  assert (Qb : (0 < inject_Z b)%Q) by (unfold Qlt; cbn; lia).
  assert (Qd : (0 < inject_Z d)%Q) by (unfold Qlt; cbn; lia).
  apply Qlt_shift_div_r; [exact Qb|].
  unfold Qdiv. rewrite <- Qmult_assoc, (Qmult_comm (/ inject_Z d)), Qmult_assoc.
  apply Qlt_shift_div_l; [exact Qd|].
  rewrite <- !inject_Z_mult. rewrite <- Zlt_Qlt. exact H.
Qed.

(** A running entry is further along than any upcoming entry with the same
    start and end texts is close, so no card can be in both sequences. *)
Lemma current_progress_exceeds_upcoming items now r1 r2 :
  In r1 (fst (buckets items now)) -> In r2 (snd (buckets items now)) ->
  fst (row_card r1) = fst (row_card r2) ->
  (card_progress (row_card r2) < card_progress (row_card r1))%Q.
Proof.
  intros H1 H2. apply in_now_bucket in H1. apply in_next_bucket in H2.
  destruct H1 as (it1 & s1 & e1 & _ & E1 & C1 & ->).
  destruct H2 as (it2 & s2 & e2 & _ & E2 & C2 & ->).
  unfold mk_row, row_card, card_progress. cbn [fst snd].
  intros Heq. injection Heq as Hst Hen _ _ _ _.
  destruct (interval_inv _ _ _ _ _ E1)
    as (_ & d1 & ms1 & me1 & B1 & P1 & Q1 & R1 & R1' & Hs1 & He1).
  destruct (interval_inv _ _ _ _ _ E2)
    as (_ & d2 & ms2 & me2 & B2 & P2 & Q2 & R2 & R2' & Hs2 & He2).
  rewrite Hst, P2 in P1. injection P1 as <-.
  rewrite Hen, Q2 in Q1. injection Q1 as <-.
  apply best_date_near in B1, B2.
  unfold timedelta_minutes in *.
  rewrite us_per_second_val, ?us_per_day_val in *.
  assert (Hdur : 0 < e1 - s1 <= 86400000000)
    by (destruct (ms2 <=? me2), (me2 <=? ms2) eqn:L;
        try apply Z.leb_le in L; try apply Z.leb_gt in L; lia).
  assert (Hk : s2 = s1 + 86400000000) by lia.
  destruct (progress_now_running now s1 e1 C1) as [-> _].
  rewrite progress_next_clamped by lia.
  replace (now + 120 * 60 * 1000000 - now) with 7200000000 by lia.
  remember (now - s1) as x eqn:Hx.
  remember (e1 - s1) as dur eqn:Hd.
  replace (s2 - now) with (86400000000 - x) by lia.
  assert (Hx1 : 79200000000 <= x < dur) by lia.
  apply Q.max_lub_lt; [|apply Q.max_lub_lt].
  - change (2 # 100)%Q with (inject_Z 2 / inject_Z 100)%Q.
    apply Qdiv_lt_cross; lia.
  - change 0%Q with (inject_Z 0 / inject_Z 1)%Q.
    apply Qdiv_lt_cross; lia.
  - apply Q.min_lt_iff. right.
    assert (E : (1 - inject_Z (86400000000 - x) / inject_Z 7200000000
                 == inject_Z (x - 79200000000) / inject_Z 7200000000)%Q).
    { unfold Z.sub. rewrite !inject_Z_plus, !inject_Z_opp. field. }
    rewrite E. apply Qdiv_lt_cross; [lia | lia |].
    assert ((x - 79200000000) * dur <= (x - 79200000000) * 86400000000)
      by (apply Z.mul_le_mono_nonneg_l; lia).
    lia.
Qed.

(** C9.  In one classification pass the two buckets are disjoint: every
    current row has start <= reference and every upcoming row has
    reference < start, so no row, and no row built from the same entry, is in
    both; an entry whose resolved start is the reference instant is current
    and not upcoming; and no card occurs in both output sequences. *)
Theorem buckets_are_disjoint : forall items now,
  (forall r1 r2,
      In r1 (fst (buckets items now)) -> In r2 (snd (buckets items now)) ->
      row_start r1 <= now < row_start r2) /\
  (forall r, In r (fst (buckets items now)) ->
             ~ In r (snd (buckets items now))) /\
  (forall it s e p p',
      In (mk_row it p e s) (fst (buckets items now)) ->
      ~ In (mk_row it p' e s) (snd (buckets items now))) /\
  (forall it e,
      In it items -> _item_interval_debug now it = (Some (now, e), "ok") ->
      In (mk_row it (progress_now now now e) e now) (fst (buckets items now)) /\
      forall p, ~ In (mk_row it p e now) (snd (buckets items now))) /\
  (forall c, In c (fst (_compute_now_next items now)) ->
             ~ In c (snd (_compute_now_next items now))).
Proof.
  intros items now. repeat apply conj.
  - intros r1 r2 H1 H2. apply now_rows_started in H1.
    apply next_rows_not_started in H2. lia.
  - intros r H1 H2. apply now_rows_started in H1.
    apply next_rows_not_started in H2. lia.
  - intros it s e p p' H1 H2. apply now_rows_started in H1.
    apply next_rows_not_started in H2.
    unfold mk_row, row_start in *. cbn [snd] in *. lia.
  - intros it e Hin E. pose proof (interval_positive _ _ _ _ _ E) as Hpos.
    split.
    + apply in_now_bucket. exists it, now, e.
      repeat split; try assumption; lia.
    + intros p H. apply next_rows_not_started in H.
      unfold mk_row, row_start in H. cbn [snd] in H. lia.
  - intros c H1 H2.
    apply in_output_now in H1. destruct H1 as (r1 & H1 & ->).
    apply in_output_next in H2. destruct H2 as (r2 & H2 & Hc).
    pose proof (current_progress_exceeds_upcoming items now r1 r2 H1 H2) as L.
    rewrite Hc in L. specialize (L eq_refl).
    exact (Qlt_irrefl _ L).
Qed.

Lemma buckets_are_disjoint_witness :
  let now := combine 738000 (mk_dt_time 9 0) in
  let it := mkClassItem "QUI" "09:00" "10:00" "Judo" "Rui" "Dojo" "MENOR" in
  In (mk_row it (progress_now now now (now + timedelta_minutes 60))
        (now + timedelta_minutes 60) now)
     (fst (buckets [it] now)) /\
  forall p, ~ In (mk_row it p (now + timedelta_minutes 60) now)
                 (snd (buckets [it] now)).
Proof.
  intros now it.
  destruct (buckets_are_disjoint [it] now) as (_ & _ & _ & H & _).
  apply (H it (now + timedelta_minutes 60)); [left|]; reflexivity.
Defined.

(** *** The examples in double arithmetic *)

Example progress_half_in_binary64 :
  Binary64.progress_now (combine 738000 (mk_dt_time 9 30))
    (combine 738000 (mk_dt_time 9 0)) (combine 738000 (mk_dt_time 10 0))
  = Binary64.lit_0_5.
Proof. vm_compute. reflexivity. Qed.

Example progress_three_quarters_in_binary64 :
  Binary64.progress_next (combine 738000 (mk_dt_time 9 30))
    (combine 738000 (mk_dt_time 10 0)) (combine 738000 (mk_dt_time 11 30))
  = Binary64.lit_0_75.
Proof. vm_compute. reflexivity. Qed.

Example progress_floor_in_binary64 :
  Binary64.progress_next (combine 738000 (mk_dt_time 9 30))
    (combine 738000 (mk_dt_time 11 30)) (combine 738000 (mk_dt_time 11 30))
  = Binary64.lit_0_02.
Proof. vm_compute. reflexivity. Qed.

End ClassifierProofs.

(** ** The weather fetch *)

Module FetchProofs.
Import Weather Fetch.

(** *** The retry loop *)

(** C7.  The retrieval opens the connection at most twice.  A response or an
    HTTP status error on the first attempt ends it there, with no delay and no
    second attempt.  Any other exception on the first attempt is followed by
    one sleep of 0.4 s and exactly one second attempt, whose outcome,
    whatever it is, is the outcome of the retrieval. *)
Theorem at_most_two_attempts : forall net,
  (List.length (opens (fst (_http_get_json net))) <= 2)%nat /\
  (List.length (sleeps (fst (_http_get_json net))) <= 1)%nat /\
  match net 0%nat with
  | Response payload =>
      _http_get_json net = ([EvOpen 1], inr payload)
  | Raises (HTTPError code) =>
      _http_get_json net = ([EvOpen 1], inl (HTTPError code))
  | Raises _ =>
      _http_get_json net
      = ([EvOpen 1; EvSleep (4 # 10); EvOpen 2],
         match net 1%nat with
         | Response payload => inr payload
         | Raises e' => inl e'
         end)
  end.
Proof.
  intros net. unfold _http_get_json. cbn [attempts].
  destruct (net 0%nat) as [payload | e] eqn:E0.
  - repeat split; cbn; lia.
  - destruct e; cbn [Z.eqb Pos.eqb fst];
      try (repeat split; cbn; lia);
      destruct (net 1%nat) as [payload' | e'] eqn:E1;
      try (repeat split; cbn; lia);
      destruct e'; repeat split; cbn; lia.
Qed.

Lemma at_most_two_attempts_witness :
  _http_get_json
    (fun k => match k with
              | O => Raises URLError
              | _ => Raises (HTTPError 503)
              end)
  = ([EvOpen 1; EvSleep (4 # 10); EvOpen 2], inl (HTTPError 503)).
Proof.
  exact (proj2 (proj2 (at_most_two_attempts
                         (fun k => match k with
                                   | O => Raises URLError
                                   | _ => Raises (HTTPError 503)
                                   end)))).
Defined.

(** *** Summary extraction *)

Section WithFloatParser.

Variable float_of_str : string -> option pyfloat.

Ltac bind_inv H :=
  unfold bind in H;
  repeat match type of H with
         | context [match ?m with inl _ => _ | inr _ => _ end] =>
             destruct m eqn:?; try discriminate H
         | context [let '(_, _) := ?p in _] => destruct p eqn:?
         end.

(** A snapshot that [_extract_summary] builds is marked fresh. *)
Lemma extract_summary_fresh payload hour ts res :
  _extract_summary float_of_str payload hour ts = inr res ->
  ok res = true /\ source res = "online" /\ cache_ts res = VInt ts.
Proof.
  unfold _extract_summary. intros H. bind_inv H.
  injection H as <-. repeat split.
Qed.

(** [_minmax_tomorrow] reads nothing of a forecast point but its ["data"]
    entry: the ["time"] of the point plays no part. *)
Lemma minmax_step_data acc item item' :
  get item "data" (VDict []) = get item' "data" (VDict []) ->
  minmax_step float_of_str acc item = minmax_step float_of_str acc item'.
Proof.
  intros H. unfold minmax_step, bind. destruct acc as [e | [tmin tmax]];
    [reflexivity|]. rewrite H. reflexivity.
Qed.

Lemma minmax_tomorrow_ignores_time items items' :
  Forall2 (fun a b => get a "data" (VDict []) = get b "data" (VDict []))
    items items' ->
  _minmax_tomorrow float_of_str (VList items)
  = _minmax_tomorrow float_of_str (VList items').
Proof.
  unfold _minmax_tomorrow, iterate, bind, ret.
  generalize (@inr pyexn _ (@None Z, @None Z)).
  intros acc H. revert acc.
  induction H as [|a b l l' Hab _ IH]; intros acc; cbn [fold_left];
    [reflexivity|].
  rewrite (minmax_step_data acc a b Hab). apply IH.
Qed.

(** C1 (what the code does).  With one forecast point today at 30 degrees
    and one tomorrow at 10 degrees, whatever the current time, the label
    reads "10-30": the minimum and maximum run over both points, no
    timestamp being looked at, so they are not those of the next day alone
    (which would be "10-10", or the placeholder if tomorrow were some other
    day).  With the single point of today the label shows numbers where the
    claim has the placeholder. *)
Theorem tomorrow_label_spans_all_points : forall now_hour now_ts,
  (exists res,
      _extract_summary float_of_str
        (forecast [forecast_point "2026-02-11T12:00:00Z" 30;
                   forecast_point "2026-02-12T12:00:00Z" 10])
        now_hour now_ts = inr res /\
      tomorrow_label res = "Amanhã: 10–30°C") /\
  (exists res,
      _extract_summary float_of_str
        (forecast [forecast_point "2026-02-11T12:00:00Z" 30])
        now_hour now_ts = inr res /\
      tomorrow_label res = "Amanhã: 30–30°C").
Proof.
  intros now_hour now_ts. split; eexists; split; reflexivity.
Qed.

Example safe_int_rounds_half_to_even :
  _safe_int float_of_str (VFloat (Finite (5 # 2))) = Some 2 /\
  _safe_int float_of_str (VFloat (Finite (7 # 2))) = Some 4 /\
  _safe_int float_of_str (VFloat (Finite (-(5 # 2)))) = Some (-2) /\
  _safe_int float_of_str (VFloat (Finite (214 # 10))) = Some 21.
Proof. repeat split; reflexivity. Qed.

Example safe_int_swallows_errors :
  _safe_int float_of_str VNone = None /\
  _safe_int float_of_str (VFloat NonFinite) = None /\
  _safe_int float_of_str (VList []) = None /\
  _safe_int float_of_str (VBool true) = Some 1 /\
  _safe_int float_of_str (VInt (2 ^ 53 + 1)) = Some (2 ^ 53).
Proof. repeat split; reflexivity. Qed.

Example no_timeseries_gives_placeholder :
  _extract_summary float_of_str (VDict []) 19 1000
  = inr (mkWeatherResult true None "Hoje (noite): Sem dados" "Amanhã: —"
           VNone "online" (VInt 1000)).
Proof. reflexivity. Qed.

(** Whether the extraction succeeds does not depend on the clock. *)
Lemma extract_summary_any_time payload hour ts hour' ts' res :
  _extract_summary float_of_str payload hour ts = inr res ->
  exists res',
    _extract_summary float_of_str payload hour' ts' = inr res' /\
    temp_c res' = temp_c res /\ tomorrow_label res' = tomorrow_label res /\
    symbol_code res' = symbol_code res.
Proof.
  unfold _extract_summary. intros H. bind_inv H. injection H as <-.
  unfold bind.
  repeat (match goal with
          | Heq : ?m = inr _
            |- context [match ?m with inl _ => _ | inr _ => _ end] =>
              rewrite Heq
          end; cbv beta iota).
  eexists. split; [reflexivity|]. repeat split.
Qed.

(** *** The fallback *)

Lemma get_weather_offline w city e :
  snd (_http_get_json (net w)) = inl e ->
  get_weather float_of_str w city
  = (fallback float_of_str w (cache_file w), cache_file w).
Proof. intros H. unfold get_weather, online. rewrite H. reflexivity. Qed.

Lemma get_weather_fresh w city res :
  fst (online float_of_str w city) = inr res ->
  fst (get_weather float_of_str w city) = inr res /\
  ok res = true /\ source res = "online" /\
  exists payload, snd (_http_get_json (net w)) = inr payload.
Proof.
  unfold get_weather. intros H.
  destruct (online float_of_str w city) as [[e | r] slot] eqn:E;
    cbn [fst] in *; [discriminate|]. injection H as ->.
  split; [reflexivity|].
  unfold online in E.
  destruct (snd (_http_get_json (net w))) as [e | payload]; [discriminate|].
  destruct (_extract_summary _ _ _ _) as [e | r] eqn:X; [discriminate|].
  destruct (write_ok w); [|discriminate].
  injection E as -> _.
  destruct (extract_summary_fresh _ _ _ _ X) as (? & ? & _).
  repeat split; try assumption. exists payload. reflexivity.
Qed.

(** A record whose payload is a dict from which the summary can be
    extracted gives the snapshot of that payload, marked as cached and
    stamped with the stored timestamp. *)
Lemma fallback_usable w items p res0 :
  lookup "payload" items = Some (VDict p) ->
  _extract_summary float_of_str (VDict p) (now_hour w) (now_ts w) = inr res0 ->
  fallback float_of_str w (VDict items)
  = inr (mkWeatherResult true (temp_c res0) (today_label res0)
           (tomorrow_label res0) (symbol_code res0) "cache"
           (match lookup "ts" items with Some ts => ts | None => VNone end)).
Proof.
  intros Hp Hx. unfold fallback, bind, get, ret.
  assert (T : truthy (VDict items) = true)
    by (destruct items; [discriminate Hp | reflexivity]).
  rewrite T, Hp. cbv beta iota delta [is_dict]. rewrite Hx. reflexivity.
Qed.

(** Whatever the fallback returns is either a cached snapshot with
    [ok = True] or the "no data" snapshot. *)
Lemma fallback_returns w cached res :
  fallback float_of_str w cached = inr res ->
  (usable cached = true /\ ok res = true /\ source res = "cache") \/
  (usable cached = false /\ res = no_data).
Proof.
  unfold fallback, usable, bind, get, ret.
  destruct (truthy cached) eqn:T.
  - destruct cached as [| | | | | |items]; try discriminate.
    destruct (lookup "payload" items) as [[| | | | | |p]|];
      cbn [is_dict]; try (intros H; injection H as <-; right; split; reflexivity).
    destruct (_extract_summary _ _ _ _) as [e | r]; [discriminate|].
    intros H; injection H as <-. left. repeat split.
  - intros H; injection H as <-. right. split; [|reflexivity].
    destruct cached as [| | | | | |items]; try reflexivity.
    destruct (lookup "payload" items) as [[| | | | | |p]|]; reflexivity.
Qed.

Lemma extract_summary_needs_dict payload hour ts res :
  _extract_summary float_of_str payload hour ts = inr res ->
  exists items, payload = VDict items.
Proof.
  unfold _extract_summary, bind, get.
  destruct payload; try discriminate. intros _. eexists. reflexivity.
Qed.

(** The record written by a successful fetch is one the fallback can use:
    a later call with the network down returns that forecast, marked as
    cached and stamped with the time of the successful fetch. *)
Lemma cache_of_a_fresh_fetch_is_usable w city res slot w' city' e :
  get_weather float_of_str w city = (inr res, slot) ->
  source res = "online" ->
  snd (_http_get_json (net w')) = inl e ->
  cache_file w' = slot ->
  exists res',
    fst (get_weather float_of_str w' city') = inr res' /\
    ok res' = true /\ source res' = "cache" /\
    cache_ts res' = VInt (now_ts w) /\
    temp_c res' = temp_c res /\ tomorrow_label res' = tomorrow_label res.
Proof.
  unfold get_weather. intros H Hsrc Hnet Hc.
  destruct (online float_of_str w city) as [[e0 | r] slot0] eqn:E.
  - injection H as Hf ->.
    destruct (fallback_returns _ _ _ Hf) as [(_ & _ & Hs) | (_ & ->)];
      [rewrite Hs in Hsrc | ]; discriminate Hsrc.
  - injection H as -> ->. unfold online in E.
    destruct (snd (_http_get_json (net w))) as [e0 | payload];
      [discriminate|].
    destruct (_extract_summary _ _ _ _) as [e0 | r] eqn:X; [discriminate|].
    destruct (write_ok w); [|discriminate].
    injection E as -> <-.
    destruct (extract_summary_needs_dict _ _ _ _ X) as (p & ->).
    destruct (extract_summary_any_time _ _ _ (now_hour w') (now_ts w') _ X)
      as (r' & X' & Ht & Hl & _).
    destruct (extract_summary_fresh _ _ _ _ X) as (_ & _ & Hts).
    fold (get_weather float_of_str w' city').
    rewrite (get_weather_offline _ _ _ Hnet), Hc. cbn [fst].
    rewrite (fallback_usable w'
               [("ts", cache_ts res); ("payload", VDict p);
                ("city", VStr city)] p r' eq_refl X').
    eexists. split; [reflexivity|]. cbn [ok source cache_ts temp_c
      tomorrow_label lookup String.eqb Ascii.eqb Bool.eqb].
    repeat split; assumption.
Qed.

(** Without a usable record the fallback returns the "no data" snapshot,
    provided the cache file holds nothing, a falsy value or an object. *)
Lemma fallback_no_record w cached :
  usable cached = false ->
  truthy cached = false \/ (exists items, cached = VDict items) ->
  fallback float_of_str w cached = inr no_data.
Proof.
  intros Hu Hc. unfold fallback, bind, get, ret.
  destruct (truthy cached) eqn:T; [|reflexivity].
  destruct Hc as [Hc | (items & ->)]; [discriminate Hc|].
  unfold usable in Hu. rewrite T in Hu.
  destruct (lookup "payload" items) as [[| | | | | |p]|];
    try reflexivity. discriminate Hu.
Qed.

(** What the [ok] flag says.  When the network fetch fails and the cache
    file holds a record with a dict payload, the snapshot reconstructed from
    it has [ok = True] and source "cache"; it is returned whenever the
    summary can be extracted from that payload.  A returned snapshot has
    [ok = False] only if it is the "no data" snapshot, and that happens in
    three ways only: the retrieval raised and the cache file holds no usable
    record; the retrieval answered, the extraction raised and the cache file
    holds no usable record; or the retrieval answered, the summary was
    extracted and the new record could not be written, the previous file
    having been moved to the archive or holding no usable record.  A
    snapshot with [ok = True] is either fresh (source "online") or cached
    (source "cache"): the flag is the same for both. *)
Lemma ok_flag_cases : forall w city,
  (forall e items p res0,
      snd (_http_get_json (net w)) = inl e ->
      cache_file w = VDict items ->
      lookup "payload" items = Some (VDict p) ->
      _extract_summary float_of_str (VDict p) (now_hour w) (now_ts w)
      = inr res0 ->
      exists res,
        fst (get_weather float_of_str w city) = inr res /\
        ok res = true /\ source res = "cache") /\
  (forall e res,
      snd (_http_get_json (net w)) = inl e ->
      usable (cache_file w) = true ->
      fst (get_weather float_of_str w city) = inr res ->
      ok res = true /\ source res = "cache") /\
  (forall res,
      fst (get_weather float_of_str w city) = inr res -> ok res = false ->
      res = no_data /\
      (((exists e, snd (_http_get_json (net w)) = inl e) /\
        usable (cache_file w) = false) \/
       ((exists payload e,
            snd (_http_get_json (net w)) = inr payload /\
            _extract_summary float_of_str payload (now_hour w) (now_ts w)
            = inl e) /\
        usable (cache_file w) = false) \/
       ((exists payload res0,
            snd (_http_get_json (net w)) = inr payload /\
            _extract_summary float_of_str payload (now_hour w) (now_ts w)
            = inr res0) /\
        write_ok w = false /\
        (archive_ok w = true \/ usable (cache_file w) = false)))) /\
  (forall res,
      fst (get_weather float_of_str w city) = inr res -> ok res = true ->
      (source res = "online" /\
       exists payload, snd (_http_get_json (net w)) = inr payload) \/
      (source res = "cache" /\
       usable (snd (online float_of_str w city)) = true)).
Proof.
  intros w city. repeat apply conj.
  - intros e items p res0 Hnet Hc Hp Hx.
    rewrite (get_weather_offline _ _ _ Hnet), Hc. cbn [fst].
    rewrite (fallback_usable _ _ _ _ Hp Hx). eexists. repeat split.
  - intros e res Hnet Hu H.
    rewrite (get_weather_offline _ _ _ Hnet) in H. cbn [fst] in H.
    destruct (fallback_returns _ _ _ H) as [(_ & Hk & Hs) | (Hu' & _)];
      [split; assumption | congruence].
  - intros res H Hok. unfold get_weather, online in H.
    destruct (snd (_http_get_json (net w))) as [e | payload] eqn:N.
    { cbn [fst] in H.
      destruct (fallback_returns _ _ _ H) as [(_ & Hk & _) | (Hu & ->)];
        [congruence|].
      split; [reflexivity|]. left. split; [exists e; reflexivity | exact Hu]. }
    destruct (_extract_summary float_of_str payload (now_hour w) (now_ts w))
      as [e | res0] eqn:X.
    { cbn [fst] in H.
      destruct (fallback_returns _ _ _ H) as [(_ & Hk & _) | (Hu & ->)];
        [congruence|].
      split; [reflexivity|]. right. left.
      split; [exists payload, e; split; [reflexivity | exact X] | exact Hu]. }
    destruct (write_ok w) eqn:Wr.
    { cbn [fst] in H. injection H as <-.
      destruct (extract_summary_fresh _ _ _ _ X) as (Hk & _). congruence. }
    cbn [fst] in H.
    destruct (fallback_returns _ _ _ H) as [(_ & Hk & _) | (Hu & ->)];
      [congruence|].
    split; [reflexivity|]. right. right.
    split; [exists payload, res0; split; [reflexivity | exact X]|].
    split; [reflexivity|].
    destruct (archive_ok w); [left; reflexivity | right; exact Hu].
  - intros res H Hok. unfold get_weather in H.
    destruct (online float_of_str w city) as [[e | r] slot] eqn:E;
      cbn [fst snd] in *.
    + destruct (fallback_returns _ _ _ H) as [(Hu & _ & Hs) | (_ & ->)];
        [right; split; assumption | discriminate Hok].
    + injection H as ->.
      destruct (get_weather_fresh w city res) as (_ & _ & Hs & Hp);
        [rewrite E; reflexivity | left; split; assumption].
Qed.

(** C10 (what the code does).  The network answers with a forecast from
    which the summary is extracted, the cache file holds a usable record,
    the move of that file to the archive succeeds and the write of the new
    record fails.  Whatever the clock and the city, [get_weather] returns
    the "no data" snapshot, with [ok = False], and leaves the cache slot
    empty: the flag is false although there is a network response and there
    was a usable cache record.  With the write succeeding, the same call
    returns the fresh snapshot. *)
Theorem write_failure_reports_no_data : forall city hour ts,
  let payload := forecast [forecast_point "2026-02-11T12:00:00Z" 30] in
  let cached := VDict [("ts", VInt 77); ("payload", payload);
                       ("city", VStr "Alfenas")] in
  let answers := fun _ : nat => Response payload in
  let w := mkWorld answers hour ts cached true false in
  snd (_http_get_json (net w)) = inr payload /\
  (exists res,
      _extract_summary float_of_str payload hour ts = inr res /\
      ok res = true /\ temp_c res = Some 30 /\
      fst (get_weather float_of_str
             (mkWorld answers hour ts cached true true) city) = inr res) /\
  usable (cache_file w) = true /\
  get_weather float_of_str w city = (inr no_data, VNone) /\
  ok no_data = false.
Proof.
  intros city hour ts payload cached answers w.
  split; [reflexivity|]. split.
  - eexists. repeat split.
  - repeat split.
Qed.

(** C2 (what the code does).  With the network down on both attempts, a
    cache file whose record has a dict payload of an unexpected shape makes
    [get_weather] raise, and so does a cache file holding JSON that is not an
    object: neither a cached snapshot nor the "no data" snapshot comes
    back. *)
Theorem fallback_raises_on_unexpected_cache : forall city,
  let offline := fun _ : nat => Raises URLError in
  fst (get_weather float_of_str
         (mkWorld offline 9 1000
            (VDict [("ts", VInt 77);
                    ("payload", VDict [("properties", VInt 5)])])
            true true) city)
  = inl AttributeError /\
  fst (get_weather float_of_str
         (mkWorld offline 9 1000 (VList [VInt 1]) true true) city)
  = inl AttributeError.
Proof. intros city offline. split; reflexivity. Qed.

End WithFloatParser.

Example cached_record_gives_ok :
  let float_of_str := fun _ : string => @None pyfloat in
  let w := mkWorld (fun _ => Raises URLError) 9 1000
             (VDict [("ts", VInt 77);
                     ("payload",
                      forecast [forecast_point "2026-02-11T12:00:00Z" 30])])
             true true in
  exists res,
    fst (get_weather float_of_str w "Alfenas") = inr res /\
    ok res = true /\ source res = "cache".
Proof.
  intros float_of_str w.
  destruct (ok_flag_cases float_of_str w "Alfenas") as (H & _).
  eapply (H URLError); reflexivity.
Qed.

End FetchProofs.

(** ** Further properties of the time helpers *)

Module SalMore.
Import Sal SalUi SalProofs.

Lemma weekday_range d : 0 <= weekday d <= 6.
Proof. unfold weekday. pose proof (Z.mod_pos_bound (d + 6) 7). lia. Qed.

Lemma weekday_succ d : weekday (d + 1) <> weekday d.
Proof. unfold weekday. Z.div_mod_to_equations. lia. Qed.

Lemma weekday_pred_succ d : weekday (d - 1) <> weekday (d + 1).
Proof. unfold weekday. Z.div_mod_to_equations. lia. Qed.

(** X1.  [_best_date_for_daycode] returns nothing exactly for a code
    outside the table.  For a code of weekday [wd] it returns the one date
    among yesterday, today and tomorrow that falls on [wd] and, when none of
    the three does (the weekday is two or more days away), today's date,
    whose weekday then differs from [wd]. *)
Theorem best_date_is_match_or_today : forall now code,
  match lookup (Py.upper (Py.strip code)) DAY_TO_WD with
  | None => _best_date_for_daycode now code = None
  | Some wd =>
      exists d,
        _best_date_for_daycode now code = Some d /\
        date_of now - 1 <= d <= date_of now + 1 /\
        (forall d', date_of now - 1 <= d' <= date_of now + 1 ->
                    weekday d' = wd -> d = d') /\
        (weekday d <> wd ->
         d = date_of now /\ weekday (date_of now - 1) <> wd /\
         weekday (date_of now + 1) <> wd)
  end.
Proof.
  intros now code. unfold _best_date_for_daycode.
  destruct (lookup _ DAY_TO_WD) as [wd|]; [|reflexivity].
  cbn [find]. set (t := date_of now).
  pose proof (ClassifierProofs.weekday_pred t) as P. apply Z.eqb_neq in P.
  pose proof (weekday_succ t) as S1. pose proof (weekday_pred_succ t) as S2.
  destruct (weekday (t - 1) =? wd) eqn:E1;
    [apply Z.eqb_eq in E1 | apply Z.eqb_neq in E1].
  { exists (t - 1). repeat split; try lia.
    intros d' Hd' Hw.
    assert (d' = t - 1 \/ d' = t \/ d' = t + 1) as [-> | [-> | ->]] by lia;
      congruence. }
  destruct (weekday t =? wd) eqn:E2;
    [apply Z.eqb_eq in E2 | apply Z.eqb_neq in E2].
  { exists t. repeat split; try lia; try congruence.
    intros d' Hd' Hw.
    assert (d' = t - 1 \/ d' = t \/ d' = t + 1) as [-> | [-> | ->]] by lia;
      congruence. }
  destruct (weekday (t + 1) =? wd) eqn:E3;
    [apply Z.eqb_eq in E3 | apply Z.eqb_neq in E3].
  { exists (t + 1). repeat split; try lia; try congruence.
    intros d' Hd' Hw.
    assert (d' = t - 1 \/ d' = t \/ d' = t + 1) as [-> | [-> | ->]] by lia;
      congruence. }
  exists t. repeat split; try lia; try assumption.
  intros d' Hd' Hw.
  assert (d' = t - 1 \/ d' = t \/ d' = t + 1) as [-> | [-> | ->]] by lia;
    congruence.
Qed.

Example monday_entry_on_a_thursday :
  _best_date_for_daycode (combine 738000 (mk_dt_time 9 30)) " seg "
  = Some 738000 /\ weekday 738000 = 3.
Proof. split; reflexivity. Qed.

(** X2.  The reason [_item_interval_debug] gives: "invalid_day" for a
    day code outside the table, whatever the times are; "invalid_time" for a
    known day when the start or the end does not parse; and otherwise an
    interval with reason "ok". *)
Theorem interval_reason_cases : forall now it,
  match lookup (Py.upper (Py.strip (day it))) DAY_TO_WD,
        parse_hhmm (start it), parse_hhmm (end_ it) with
  | None, _, _ => _item_interval_debug now it = (None, "invalid_day")
  | Some _, Some _, Some _ =>
      exists s e, _item_interval_debug now it = (Some (s, e), "ok")
  | Some _, _, _ => _item_interval_debug now it = (None, "invalid_time")
  end.
Proof.
  intros now it. unfold _item_interval_debug, _best_date_for_daycode,
    _parse_time_obj.
  destruct (lookup _ DAY_TO_WD) as [wd|]; [|reflexivity].
  destruct (find _ _);
    destruct (parse_hhmm (start it)); destruct (parse_hhmm (end_ it));
    try reflexivity; eexists; eexists; reflexivity.
Qed.

(** X3.  A resolved interval starts on the anchored date, within one day of
    today, at the parsed start minute; it lasts the difference of the two
    parsed minutes, taken modulo 24 hours into (0, 24h]: exactly 24 hours
    when start and end are the same minute. *)
Theorem resolved_interval_shape : forall now it s e r,
  _item_interval_debug now it = (Some (s, e), r) ->
  exists ms me,
    parse_hhmm (start it) = Some ms /\ parse_hhmm (end_ it) = Some me /\
    date_of now - 1 <= date_of s <= date_of now + 1 /\
    s = date_of s * us_per_day + ms * 60000000 /\
    e - s = (if ms <? me then me - ms else me - ms + 1440) * 60000000 /\
    0 < e - s <= us_per_day /\
    (e - s = us_per_day <-> ms = me).
Proof.
  intros now it s e r H.
  destruct (interval_inv _ _ _ _ _ H)
    as (_ & d & ms & me & B & Ps & Pe & Rs & Re & -> & ->).
  apply best_date_near in B.
  assert (Hd : date_of (d * us_per_day + ms * 60000000) = d)
    by (apply date_of_offset; rewrite us_per_day_val; lia).
  exists ms, me. rewrite Hd, us_per_day_val.
  destruct (me <=? ms) eqn:L1;
    [apply Z.leb_le in L1 | apply Z.leb_gt in L1];
    destruct (ms <? me) eqn:L2;
    try apply Z.ltb_lt in L2; try apply Z.ltb_ge in L2;
    repeat split; try assumption; try lia.
Qed.

Lemma resolved_interval_shape_witness :
  exists ms me,
    parse_hhmm "22:00" = Some ms /\ parse_hhmm "22:00" = Some me /\ ms = me.
Proof.
  destruct (resolved_interval_shape
              (combine 738000 (mk_dt_time 9 30))
              (mkClassItem "QUI" "22:00" "22:00" "Vigia" "" "" "")
              (combine 738000 (mk_dt_time 22 0))
              (combine 738001 (mk_dt_time 22 0)) "ok" eq_refl)
    as (ms & me & Ps & Pe & _ & _ & _ & _ & Heq).
  exists ms, me. repeat split; try assumption.
  apply Heq. vm_compute. reflexivity.
Defined.

(** X4.  A time object built by [_parse_time_obj] has its hour in [0, 23]
    and its minute in [0, 59] (so the constructor cannot fail), and the two
    fields give back the parsed minute of day; no time object is built when
    the text does not parse. *)
Theorem parse_time_obj_fields : forall s,
  match _parse_time_obj s with
  | Some t =>
      0 <= hour t <= 23 /\ 0 <= minute t <= 59 /\
      parse_hhmm s = Some (hour t * 60 + minute t)
  | None => parse_hhmm s = None
  end.
Proof.
  intros s. unfold _parse_time_obj.
  destruct (parse_hhmm s) as [m|] eqn:E; [|reflexivity].
  apply parse_hhmm_range in E. cbn [hour minute].
  assert (m / 60 * 60 + m mod 60 = m /\ 0 <= m / 60 <= 23 /\
          0 <= m mod 60 <= 59) as (E1 & E2 & E3)
    by (Z.div_mod_to_equations; lia).
  rewrite E1. repeat split; lia.
Qed.

Lemma in_minutes_of_day m : 0 <= m < 1440 -> In m minutes_of_day.
Proof.
  intros H. unfold minutes_of_day. apply in_map_iff.
  exists (Z.to_nat m). split; [lia|]. apply in_seq. lia.
Qed.

(** X5.  Reading back what [fmt_hhmm] writes: a minute of day that is not a
    whole hour is rendered as HH:MM and parsed back to itself; a whole hour
    is rendered as HH followed by "H", which [parse_hhmm] does not read;
    and so is the dash written for no value. *)
Theorem fmt_hhmm_read_back : forall m,
  0 <= m < 1440 ->
  parse_hhmm (fmt_hhmm (Some m))
  = (if m mod 60 =? 0 then None else Some m) /\
  parse_hhmm (fmt_hhmm None) = None.
Proof.
  intros m Hm. split; [|reflexivity].
  assert (A : forallb
                (fun m =>
                   match parse_hhmm (fmt_hhmm (Some m)) with
                   | Some v => negb (m mod 60 =? 0) && (v =? m)
                   | None => m mod 60 =? 0
                   end) minutes_of_day = true)
    by (vm_compute; reflexivity).
  rewrite forallb_forall in A. specialize (A m (in_minutes_of_day m Hm)).
  destruct (parse_hhmm (fmt_hhmm (Some m))) as [v|].
  - apply andb_true_iff in A. destruct A as [A1 A2].
    apply Z.eqb_eq in A2. subst v.
    destruct (m mod 60 =? 0); [discriminate A1 | reflexivity].
  - rewrite A. reflexivity.
Qed.

Lemma fmt_hhmm_read_back_witness :
  parse_hhmm (fmt_hhmm (Some 545)) = Some 545 /\
  parse_hhmm (fmt_hhmm (Some 540)) = None.
Proof.
  split.
  - exact (proj1 (fmt_hhmm_read_back 545 ltac:(lia))).
  - exact (proj1 (fmt_hhmm_read_back 540 ltac:(lia))).
Defined.

(** X6.  The code [today_3letters_noaccent] gives for a weekday is the key
    of that weekday in [DAY_TO_WD] and the first three letters of the full
    name; so an entry carrying today's code is anchored to today's date. *)
Theorem today_code_round_trip : forall now,
  let wd := weekday (date_of now) in
  lookup (today_3letters_noaccent wd) DAY_TO_WD = Some wd /\
  substring 0 3 (weekday_full_noaccent wd) = today_3letters_noaccent wd /\
  _best_date_for_daycode now (today_3letters_noaccent wd)
  = Some (date_of now).
Proof.
  intros now wd. pose proof (weekday_range (date_of now)) as R. fold wd in R.
  assert (L : lookup (today_3letters_noaccent wd) DAY_TO_WD = Some wd /\
              substring 0 3 (weekday_full_noaccent wd)
              = today_3letters_noaccent wd /\
              Py.upper (Py.strip (today_3letters_noaccent wd))
              = today_3letters_noaccent wd).
  { assert (wd = 0 \/ wd = 1 \/ wd = 2 \/ wd = 3 \/ wd = 4 \/ wd = 5 \/
            wd = 6) as [-> | [-> | [-> | [-> | [-> | [-> | ->]]]]]] by lia;
      repeat split; reflexivity. }
  destruct L as (L1 & L2 & L3). repeat split; try assumption.
  apply ClassifierProofs.today_anchor. rewrite L3. exact L1.
Qed.

(** *** Whitespace around a time text *)

Local Open Scope string_scope.

Lemma lstrip_app_space w s :
  all_space w = true -> Py.lstrip (w ++ s) = Py.lstrip s.
Proof.
  induction w as [|c w IH]; cbn [all_space append Py.lstrip]; [reflexivity|].
  intros H. apply andb_true_iff in H. destruct H as [H1 H2].
  rewrite H1. apply IH. exact H2.
Qed.

Lemma lstrip_all_space w : all_space w = true -> Py.lstrip w = "".
Proof.
  induction w as [|c w IH]; cbn [all_space Py.lstrip]; [reflexivity|].
  intros H. apply andb_true_iff in H. destruct H as [H1 H2].
  rewrite H1. apply IH. exact H2.
Qed.

Lemma rstrip_all_space w : all_space w = true -> Py.rstrip w = "".
Proof.
  induction w as [|c w IH]; cbn [all_space Py.rstrip]; [reflexivity|].
  intros H. apply andb_true_iff in H. destruct H as [H1 H2].
  rewrite (IH H2), H1. reflexivity.
Qed.

Lemma rstrip_app_space s w :
  all_space w = true -> Py.rstrip (s ++ w) = Py.rstrip s.
Proof.
  intros H. induction s as [|c s IH]; cbn [append Py.rstrip].
  - apply rstrip_all_space. exact H.
  - rewrite IH. reflexivity.
Qed.

Lemma strip_app_space s w :
  all_space w = true -> Py.strip (s ++ w) = Py.strip s.
Proof.
  intros H. unfold Py.strip.
  induction s as [|c s IH]; cbn [append Py.lstrip].
  - rewrite (lstrip_all_space w H). reflexivity.
  - destruct (Py.isspace c); [exact IH|].
    change (String c (s ++ w)) with (String c s ++ w).
    apply rstrip_app_space. exact H.
Qed.

Lemma lstrip_shape s :
  Py.lstrip s = "" \/
  exists c x, Py.lstrip s = String c x /\ Py.isspace c = false.
Proof.
  induction s as [|c s IH]; cbn [Py.lstrip]; [left; reflexivity|].
  destruct (Py.isspace c) eqn:E; [exact IH|].
  right. exists c, s. split; [reflexivity | exact E].
Qed.

Lemma rstrip_cons c x :
  Py.rstrip (String c x)
  = match Py.rstrip x with
    | "" => if Py.isspace c then "" else String c ""
    | r => String c r
    end.
Proof. reflexivity. Qed.

Lemma rstrip_idempotent s : Py.rstrip (Py.rstrip s) = Py.rstrip s.
Proof.
  induction s as [|c s IH]; [reflexivity|]. rewrite rstrip_cons.
  destruct (Py.rstrip s) as [|c' r] eqn:E.
  - destruct (Py.isspace c) eqn:Ec; [reflexivity|].
    rewrite rstrip_cons. cbn [Py.rstrip]. rewrite Ec. reflexivity.
  - rewrite rstrip_cons, IH. reflexivity.
Qed.

Lemma rstrip_keeps_head c x :
  Py.isspace c = false ->
  exists y, Py.rstrip (String c x) = String c y.
Proof.
  intros H. cbn [Py.rstrip]. destruct (Py.rstrip x) as [|c' r].
  - rewrite H. exists "". reflexivity.
  - exists (String c' r). reflexivity.
Qed.

Lemma strip_idempotent s : Py.strip (Py.strip s) = Py.strip s.
Proof.
  unfold Py.strip.
  destruct (lstrip_shape s) as [-> | (c & x & -> & Hc)]; [reflexivity|].
  destruct (rstrip_keeps_head c x Hc) as (y & Hy).
  rewrite Hy. cbn [Py.lstrip]. rewrite Hc, <- Hy.
  apply rstrip_idempotent.
Qed.

(** X7.  Whitespace before and after a time text does not change what
    [parse_hhmm] reads, and parsing the stripped text gives the same
    result. *)
Theorem parse_hhmm_ignores_padding : forall w1 s w2,
  all_space w1 = true -> all_space w2 = true ->
  parse_hhmm (w1 ++ s ++ w2) = parse_hhmm s /\
  parse_hhmm (Py.strip s) = parse_hhmm s.
Proof.
  intros w1 s w2 H1 H2. unfold parse_hhmm. split.
  - replace (Py.strip (w1 ++ s ++ w2)) with (Py.strip s); [reflexivity|].
    unfold Py.strip at 2. rewrite (lstrip_app_space w1 _ H1).
    symmetry. apply (strip_app_space s w2 H2).
  - rewrite strip_idempotent. reflexivity.
Qed.

Lemma parse_hhmm_ignores_padding_witness :
  parse_hhmm ("  " ++ "07:45" ++ " ") = parse_hhmm "07:45".
Proof.
  exact (proj1 (parse_hhmm_ignores_padding "  " "07:45" " "
                  eq_refl eq_refl)).
Defined.

(** *** Opening hours *)

Local Open Scope Z_scope.

(** X8.  The hours card says "ABERTO AGORA" exactly when today has a rule
    whose two times parse and open <= now < close, and then announces the
    closing time.  A rule that closes at or before its opening time is
    therefore closed at every minute; and whenever the card is closed and
    the opening time parses, it announces that opening time, before it as
    well as after closing. *)
Theorem hours_status_cases : forall rules day now_min,
  (fst (update_status_only rules day now_min) = "ABERTO AGORA" <->
   exists os cs o c,
     rule_of day rules = Some (os, cs) /\
     parse_if_set os = Some o /\ parse_if_set cs = Some c /\
     o <= now_min < c) /\
  (forall os cs o c,
     rule_of day rules = Some (os, cs) ->
     parse_if_set os = Some o -> parse_if_set cs = Some c ->
     (o <= now_min < c ->
      update_status_only rules day now_min
      = ("ABERTO AGORA", "FECHA ÀS " ++ fmt_hhmm (Some c))%string) /\
     (~ o <= now_min < c ->
      update_status_only rules day now_min
      = ("FECHADO AGORA", "ABRE ÀS " ++ fmt_hhmm (Some o))%string) /\
     (c <= o -> fst (update_status_only rules day now_min)
                = "FECHADO AGORA")).
Proof.
  intros rules day now. unfold update_status_only. split.
  - split.
    + destruct (rule_of day rules) as [[os cs]|]; [|discriminate].
      destruct (parse_if_set os) as [o|] eqn:Eo; [|discriminate].
      destruct (parse_if_set cs) as [c|] eqn:Ec; [|discriminate].
      destruct ((o <=? now) && (now <? c)) eqn:R; [|discriminate].
      intros _. apply andb_true_iff in R. destruct R as [R1 R2].
      apply Z.leb_le in R1. apply Z.ltb_lt in R2.
      exists os, cs, o, c. repeat split; assumption.
    + intros (os & cs & o & c & -> & Eo & Ec & R1 & R2).
      rewrite Eo, Ec.
      apply Z.leb_le in R1. apply Z.ltb_lt in R2. rewrite R1, R2.
      reflexivity.
  - intros os cs o c -> Eo Ec. rewrite Eo, Ec. repeat split.
    + intros [R1 R2].
      apply Z.leb_le in R1. apply Z.ltb_lt in R2. rewrite R1, R2.
      reflexivity.
    + intros R. destruct ((o <=? now) && (now <? c)) eqn:E; [|reflexivity].
      apply andb_true_iff in E. destruct E as [R1 R2].
      apply Z.leb_le in R1. apply Z.ltb_lt in R2. lia.
    + intros R. destruct ((o <=? now) && (now <? c)) eqn:E; [|reflexivity].
      apply andb_true_iff in E. destruct E as [R1 R2].
      apply Z.leb_le in R1. apply Z.ltb_lt in R2. lia.
Qed.

Lemma hours_status_cases_witness :
  update_status_only [("SAB", (Some "08:00", Some "12:00"))] "SAB" 780
  = ("FECHADO AGORA", "ABRE ÀS 08H").
Proof.
  destruct (hours_status_cases [("SAB", (Some "08:00", Some "12:00"))]
              "SAB" 780) as (_ & H).
  destruct (H (Some "08:00") (Some "12:00") 480 720 eq_refl eq_refl eq_refl)
    as (_ & Hclosed & _).
  apply Hclosed. lia.
Defined.

End SalMore.

(** ** Further properties of the classifier and of the tick *)

Module SchedulerProofs.
Import Sal Classifier Scheduler SalProofs ClassifierProofs.

Lemma interval_reason now it :
  match lookup (Py.upper (Py.strip (day it))) DAY_TO_WD,
        parse_hhmm (start it), parse_hhmm (end_ it) with
  | None, _, _ => _item_interval_debug now it = (None, "invalid_day")
  | Some _, Some _, Some _ =>
      exists s e, _item_interval_debug now it = (Some (s, e), "ok")
  | Some _, _, _ => _item_interval_debug now it = (None, "invalid_time")
  end.
Proof.
  unfold _item_interval_debug, _best_date_for_daycode, _parse_time_obj.
  destruct (lookup _ DAY_TO_WD) as [wd|]; [|reflexivity].
  destruct (find _ _);
    destruct (parse_hhmm (start it)); destruct (parse_hhmm (end_ it));
    try reflexivity; eexists; eexists; reflexivity.
Qed.

Lemma classify_unresolved now we it :
  resolves now it = false -> classify now we it = ([], []).
Proof.
  unfold resolves, classify, loop_body.
  destruct (_item_interval_debug now it) as [[[s e]|] r]; cbn [fst];
    [discriminate | reflexivity].
Qed.

Lemma flat_map_filter {A B} (f : A -> list B) (keep : A -> bool) l :
  (forall x, keep x = false -> f x = []) ->
  flat_map f (filter keep l) = flat_map f l.
Proof.
  intros H. induction l as [|x l IH]; cbn [filter flat_map]; [reflexivity|].
  destruct (keep x) eqn:E; cbn [flat_map]; rewrite IH; [reflexivity|].
  rewrite (H x E). reflexivity.
Qed.

(** X9.  Entries that get no interval (unknown day code, unreadable start
    or end) are skipped without effect: the result is the one computed from
    the other entries alone. *)
Theorem unresolved_entries_are_ignored : forall items now,
  buckets items now = buckets (filter (resolves now) items) now /\
  _compute_now_next items now
  = _compute_now_next (filter (resolves now) items) now.
Proof.
  intros items now.
  assert (B : buckets items now = buckets (filter (resolves now) items) now).
  { rewrite !buckets_flat_map. f_equal; symmetry; apply flat_map_filter;
      intros it H; rewrite (classify_unresolved _ _ _ H); reflexivity. }
  split; [exact B|]. unfold _compute_now_next. rewrite B. reflexivity.
Qed.


(** Three current entries met in the order A, B, C, where C ends first and
    A and B end together, come out as C, A, B; and likewise for upcoming
    entries that start together. *)
Example tied_rows_come_out_in_entry_order :
  let cur a e := mkClassItem "QUI" "09:00" e a "" "" "" in
  let nxt a s := mkClassItem "QUI" s "12:00" a "" "" "" in
  let now := combine 738000 (mk_dt_time 9 30) in
  let activity (c : card) := snd (fst (fst (fst (fst c)))) in
  map activity
    (fst (_compute_now_next
            [cur "A" "10:30"; cur "B" "10:30"; cur "C" "10:00"] now))
  = ["C"; "A"; "B"] /\
  map activity
    (snd (_compute_now_next
            [nxt "A" "10:30"; nxt "B" "10:30"; nxt "C" "10:00"] now))
  = ["C"; "A"; "B"].
Proof. intros cur nxt now activity. split; vm_compute; reflexivity. Qed.

Lemma count_fold now items : forall dd dt dother,
  fold_left (count_body now) items (dd, dt, dother)
  = (dd + Z.of_nat (List.length
        (filter (fun it =>
                   match lookup (Py.upper (Py.strip (day it))) DAY_TO_WD with
                   | None => true
                   | Some _ => false
                   end) items)),
     dt + Z.of_nat (List.length
        (filter (fun it =>
                   match lookup (Py.upper (Py.strip (day it))) DAY_TO_WD with
                   | None => false
                   | Some _ => negb (resolves now it)
                   end) items)),
     dother).
Proof.
  induction items as [|it items IH]; intros dd dt dother;
    cbn [fold_left filter].
  - cbn. rewrite !Z.add_0_r. reflexivity.
  - unfold count_body at 2, resolves at 1. pose proof (interval_reason now it) as R.
    destruct (lookup _ DAY_TO_WD) as [wd|].
    + destruct (parse_hhmm (start it)); destruct (parse_hhmm (end_ it));
        try destruct R as (s & e & R); rewrite R; cbn [fst negb String.eqb
          Ascii.eqb Bool.eqb]; rewrite IH; cbn [List.length];
        f_equal; try f_equal; lia.
    + rewrite R. cbn [String.eqb Ascii.eqb Bool.eqb]. rewrite IH.
      cbn [List.length]. f_equal; try f_equal; lia.
Qed.

(** X11.  The tallies of the diagnostic line: [discard_day] counts the
    entries with an unknown day code, [discard_time] those with a known day
    and an unreadable time, [discard_other] is always 0, and the two
    together with the entries that got an interval make up the whole
    list. *)
Theorem discard_tallies : forall items now,
  let unknown_day it :=
    match lookup (Py.upper (Py.strip (day it))) DAY_TO_WD with
    | None => true
    | Some _ => false
    end in
  let bad_time it := negb (unknown_day it) && negb (resolves now it) in
  discard_counts items now
  = (Z.of_nat (List.length (filter unknown_day items)),
     Z.of_nat (List.length (filter bad_time items)), 0) /\
  (List.length (filter unknown_day items)
   + List.length (filter bad_time items)
   + List.length (filter (resolves now) items) = List.length items)%nat.
Proof.
  intros items now unknown_day bad_time. split.
  - unfold discard_counts. rewrite count_fold. cbn [Z.add].
    f_equal. f_equal. f_equal. f_equal.
    apply filter_ext. intros it. unfold bad_time, unknown_day.
    destruct (lookup _ DAY_TO_WD); reflexivity.
  - induction items as [|it items IH]; [reflexivity|]. cbn [filter].
    assert (X : (unknown_day it, bad_time it, resolves now it)
                = (true, false, false) \/
                (unknown_day it, bad_time it, resolves now it)
                = (false, true, false) \/
                (unknown_day it, bad_time it, resolves now it)
                = (false, false, true)).
    { unfold bad_time, unknown_day, resolves.
      pose proof (interval_reason now it) as R.
      destruct (lookup _ DAY_TO_WD) as [wd|];
        [destruct (parse_hhmm (start it)); destruct (parse_hhmm (end_ it));
         try destruct R as (s & e & R)|];
        rewrite R; cbn [fst negb andb]; auto. }
    destruct X as [X | [X | X]]; injection X as -> -> ->;
      cbn [List.length]; lia.
Qed.

(** *** Rate limits *)

Lemma Qltb_lt a b : Py.Qltb a b = true <-> (a < b)%Q.
Proof.
  unfold Py.Qltb. destruct (Qle_bool b a) eqn:E; cbn [negb]; split;
    intros H; try reflexivity; try discriminate.
  - apply Qle_bool_iff in E. apply Qlt_not_le in H. contradiction.
  - apply Qnot_le_lt. intros L. apply Qle_bool_iff in L. congruence.
Qed.

Lemma Qltb_ge a b : Py.Qltb a b = false <-> (b <= a)%Q.
Proof.
  unfold Py.Qltb. destruct (Qle_bool b a) eqn:E; cbn [negb]; split;
    intros H; try reflexivity; try discriminate.
  - apply Qle_bool_iff. exact E.
  - apply Qle_bool_iff in H. congruence.
Qed.

Lemma zero_agenda_log_fires p last q :
  zero_agenda_log p last = (true, q) ->
  q = p_stamp p /\ (last + 60 < p_check p)%Q /\ p_items p <> [] /\
  _compute_now_next (p_items p) (p_now p) = ([], []).
Proof.
  unfold zero_agenda_log, _compute_now_next.
  destruct (buckets (p_items p) (p_now p)) as [nb xb].
  destruct (p_items p) as [|it items] eqn:E; cbn [andb]; [discriminate|].
  destruct (map row_card (sort_by row_end nb)) as [|c1 l1]; cbn [List.length
    Nat.eqb andb]; [|discriminate].
  destruct (map row_card (sort_by row_start xb)) as [|c2 l2]; cbn [List.length
    Nat.eqb andb]; [|discriminate].
  destruct (Py.Qltb 60 (p_check p - last)) eqn:L; [|discriminate].
  intros H; injection H as <-. apply Qltb_lt in L.
  repeat split; try discriminate. lra.
Qed.

Lemma zero_agenda_log_silent p last q :
  zero_agenda_log p last = (false, q) -> q = last.
Proof.
  unfold zero_agenda_log.
  destruct (buckets (p_items p) (p_now p)) as [nb xb].
  repeat match goal with
         | |- context [if ?b then _ else _] => destruct b
         end; intros H; try discriminate H; injection H as <-; reflexivity.
Qed.

Lemma zero_agenda_run_spaced passes : forall last,
  Sorted (fun a b => (p_stamp a + 60 < p_check b)%Q)
    (zero_agenda_run passes last) /\
  (forall p rest, zero_agenda_run passes last = p :: rest ->
                  (last + 60 < p_check p)%Q) /\
  Forall (fun p => p_items p <> [] /\
                   _compute_now_next (p_items p) (p_now p) = ([], []))
    (zero_agenda_run passes last).
Proof.
  induction passes as [|p passes IH]; intros last; cbn [zero_agenda_run].
  - repeat split; try constructor. intros p rest H. discriminate H.
  - destruct (zero_agenda_log p last) as [[|] q] eqn:E.
    + apply zero_agenda_log_fires in E. destruct E as (-> & L & N & C).
      destruct (IH (p_stamp p)) as (S1 & H1 & F1).
      repeat split.
      * constructor; [exact S1|].
        destruct (zero_agenda_run passes (p_stamp p)) as [|p' rest] eqn:R;
          constructor. apply (H1 p' rest eq_refl).
      * intros p0 rest H0. injection H0 as <- _. exact L.
      * constructor; [split; assumption | exact F1].
    + apply zero_agenda_log_silent in E. subst q. apply IH.
Qed.

(** X12.  The diagnostic line of an empty agenda is written only by a pass
    that has entries and two empty sequences, and, by the clock the code
    reads, more than 60 seconds after the stamp of the line before it (and
    after the initial stamp for the first one). *)
Theorem zero_agenda_lines_are_spaced : forall passes last,
  Sorted (fun a b => (p_stamp a + 60 < p_check b)%Q)
    (zero_agenda_run passes last) /\
  (forall p rest, zero_agenda_run passes last = p :: rest ->
                  (last + 60 < p_check p)%Q) /\
  Forall (fun p => p_items p <> [] /\
                   _compute_now_next (p_items p) (p_now p) = ([], []))
    (zero_agenda_run passes last).
Proof. intros passes last. apply zero_agenda_run_spaced. Qed.

Lemma housekeeping_run_spaced ticks : forall last,
  Sorted (fun a b => (snd a + 86400 <= fst b)%Q) (housekeeping_run ticks last)
  /\ (forall t rest, housekeeping_run ticks last = t :: rest ->
                      (last + 86400 <= fst t)%Q).
Proof.
  induction ticks as [|[c st] ticks IH]; intros last;
    cbn [housekeeping_run].
  - split; [constructor | intros t rest H; discriminate H].
  - unfold _tick_housekeeping.
    destruct (Py.Qltb (c - last) 86400) eqn:L.
    + apply IH.
    + apply Qltb_ge in L. destruct (IH st) as (S1 & H1). split.
      * constructor; [exact S1|].
        destruct (housekeeping_run ticks st) as [|t' rest] eqn:R;
          constructor. cbn [snd]. apply (H1 t' rest eq_refl).
      * intros t rest H0. injection H0 as <- _. cbn [fst]. lra.
Qed.

(** X13.  Housekeeping runs on a tick exactly when at least 86400 seconds
    have passed, by the clock the code reads, since the stamp of the run
    before it; so two consecutive runs are at least a day apart, and with
    the initial stamp 0.0 the first tick whose clock is at least 86400 runs
    it. *)
Theorem housekeeping_once_a_day : forall ticks last t_check t_stamp,
  (fst (_tick_housekeeping t_check t_stamp last) = true <->
   (last + 86400 <= t_check)%Q) /\
  snd (_tick_housekeeping t_check t_stamp last)
  = (if fst (_tick_housekeeping t_check t_stamp last) then t_stamp
     else last) /\
  Sorted (fun a b => (snd a + 86400 <= fst b)%Q)
    (housekeeping_run ticks last) /\
  (forall t rest, housekeeping_run ticks last = t :: rest ->
                  (last + 86400 <= fst t)%Q).
Proof.
  intros ticks last c st. unfold _tick_housekeeping.
  destruct (Py.Qltb (c - last) 86400) eqn:L; cbn [fst snd].
  - apply Qltb_lt in L. repeat split; try apply housekeeping_run_spaced;
      try discriminate. intros H. lra.
  - apply Qltb_ge in L. repeat split; try apply housekeeping_run_spaced.
    intros _. lra.
Qed.

(** *** One weather fetch at a time *)

Lemma step_keeps_one_flight a s s' :
  one_flight s -> step a s = Some s' -> one_flight s'.
Proof.
  unfold one_flight, step.
  destruct s as [lf wres fl p f n]; destruct a; cbn [pc fetching finishing
    _weather_inflight weather_last_fetch weather_res];
    destruct p, fl, f, n; cbn; intros I H;
    try discriminate; injection H as <-; cbn;
    try lia;
    repeat match goal with
           | |- context [if ?b then _ else _] => destruct b
           end; cbn; lia.
Qed.

Lemma run_keeps_one_flight acts : forall s s',
  one_flight s -> run acts s = Some s' -> one_flight s'.
Proof.
  induction acts as [|a acts IH]; intros s s' I; cbn [run].
  - intros H; injection H as <-. exact I.
  - destruct (step a s) as [s1|] eqn:E; [|discriminate].
    apply IH. eapply step_keeps_one_flight; eassumption.
Qed.

(** X14.  However the steps of the tick and of the weather workers
    interleave from start-up, at most one worker is alive at any time, a
    live worker always has the in-flight flag set, and the main thread
    holds the flag for a thread it is about to start only when no worker is
    alive. *)
Theorem at_most_one_weather_worker : forall acts s,
  run acts boot = Some s ->
  (fetching s + finishing s <= 1)%nat /\
  ((0 < fetching s + finishing s)%nat -> _weather_inflight s = true) /\
  (pc s = Acquired -> (fetching s + finishing s = 0)%nat).
Proof.
  intros acts s H.
  assert (I : one_flight s)
    by (eapply run_keeps_one_flight; [|exact H]; reflexivity).
  unfold one_flight in I.
  destruct (pc s), (_weather_inflight s); repeat split; intros;
    try discriminate; lia.
Qed.

Lemma at_most_one_weather_worker_witness :
  run [TickTest 1000; TickLock; TickStart; TickTest 1001; TickLock;
       WorkerRaise] boot
  = Some (mkApp 0 None true Idle 0 1) /\
  (fetching (mkApp 0 None true Idle 0 1)
   + finishing (mkApp 0 None true Idle 0 1) <= 1)%nat.
Proof.
  split; [vm_compute; reflexivity|].
  apply (at_most_one_weather_worker
           [TickTest 1000; TickLock; TickStart; TickTest 1001; TickLock;
            WorkerRaise]).
  vm_compute. reflexivity.
Defined.

End SchedulerProofs.

(** ** The pruning of the archives *)

Module HousekeepingProofs.
Import Housekeeping.

Lemma scan_fold max_age now entries : forall removed files,
  fold_left (scan_body max_age now) entries (removed, files)
  = (removed ++ aged max_age now entries,
     files ++ fresh max_age now entries).
Proof.
  induction entries as [|e entries IH]; intros removed files;
    cbn [fold_left aged fresh filter flat_map].
  - rewrite !app_nil_r. reflexivity.
  - unfold scan_body at 2. fold (aged max_age now entries).
    fold (fresh max_age now entries).
    destruct (d_is_file e); cbn [negb andb]; [|apply IH].
    destruct (d_mtime e) as [m|]; [|apply IH].
    destruct (too_old max_age now m); rewrite IH, <- !app_assoc; reflexivity.
Qed.

Lemma cleanup_unfold keep days now entries :
  cleanup keep days now (Some entries)
  = aged (days * 86400) now entries
    ++ map snd (skipn keep (sort_desc (fresh (days * 86400) now entries))).
Proof. unfold cleanup. rewrite scan_fold. reflexivity. Qed.

Lemma insert_desc_perm x l : Permutation (insert_desc x l) (x :: l).
Proof.
  induction l as [|y l IH]; cbn [insert_desc]; [reflexivity|].
  destruct (tuple_geb x y); [reflexivity|].
  rewrite IH. apply perm_swap.
Qed.

Lemma sort_desc_perm l : Permutation (sort_desc l) l.
Proof.
  induction l as [|x l IH]; cbn [sort_desc fold_right]; [reflexivity|].
  fold (sort_desc l). rewrite insert_desc_perm, IH. reflexivity.
Qed.

Lemma tuple_geb_true a b : tuple_geb a b = true -> (fst b <= fst a)%Q.
Proof.
  unfold tuple_geb. destruct (Qcompare_spec (fst a) (fst b)) as [E | L | L];
    intros H; try discriminate.
  - rewrite E. apply Qle_refl.
  - apply Qlt_le_weak. exact L.
Qed.

Lemma tuple_geb_false a b : tuple_geb a b = false -> (fst a <= fst b)%Q.
Proof.
  unfold tuple_geb. destruct (Qcompare_spec (fst a) (fst b)) as [E | L | L];
    intros H; try discriminate.
  - rewrite E. apply Qle_refl.
  - apply Qlt_le_weak. exact L.
Qed.

Lemma insert_desc_sorted x l :
  StronglySorted newest_first l -> StronglySorted newest_first (insert_desc x l).
Proof.
  induction 1 as [|y l Hs IH Hy]; cbn [insert_desc].
  - constructor; constructor.
  - destruct (tuple_geb x y) eqn:E.
    + apply tuple_geb_true in E. constructor; [constructor; assumption|].
      constructor; [exact E|].
      eapply Forall_impl; [|exact Hy]. unfold newest_first.
      intros z Hz. eapply Qle_trans; eassumption.
    + apply tuple_geb_false in E. constructor; [exact IH|].
      eapply Permutation_Forall; [symmetry; apply insert_desc_perm|].
      constructor; [exact E | exact Hy].
Qed.

Lemma sort_desc_sorted l : StronglySorted newest_first (sort_desc l).
Proof.
  induction l as [|x l IH]; cbn [sort_desc fold_right]; [constructor|].
  apply insert_desc_sorted. exact IH.
Qed.

Lemma firstn_before_skipn n (l : list (Q * dirent)) a b :
  StronglySorted newest_first l ->
  In a (firstn n l) -> In b (skipn n l) -> (fst b <= fst a)%Q.
Proof.
  intros Hs. revert n. induction Hs as [|y l Hs IH Hy]; intros n Ha Hb.
  - destruct n; destruct Ha.
  - destruct n as [|n]; [destruct Ha|].
    cbn [firstn skipn] in *. destruct Ha as [<- | Ha].
    + rewrite Forall_forall in Hy. apply Hy.
      apply (ClassifierProofs.in_skipn _ _ _ Hb).
    + eapply IH; eassumption.
Qed.

Lemma skipn_nonempty_firstn_full {A} n (l : list A) x :
  In x (skipn n l) -> List.length (firstn n l) = n.
Proof.
  intros H. apply firstn_length_le.
  destruct (Nat.le_gt_cases n (List.length l)) as [L | L]; [exact L|].
  rewrite skipn_all2 in H by lia. destruct H.
Qed.

Lemma in_fresh max_age now entries m e :
  In (m, e) (fresh max_age now entries) ->
  In e entries /\ d_is_file e = true /\ d_mtime e = Some m /\
  too_old max_age now m = false.
Proof.
  unfold fresh. rewrite in_flat_map. intros (e' & Hin & H).
  destruct (d_is_file e') eqn:F; [|destruct H].
  destruct (d_mtime e') as [m'|] eqn:M; [|destruct H].
  destruct (too_old max_age now m') eqn:T; [destruct H|].
  destruct H as [H | []]. injection H as <- <-. repeat split; assumption.
Qed.

Lemma in_aged max_age now entries e :
  In e (aged max_age now entries) ->
  In e entries /\ d_is_file e = true /\
  exists m, d_mtime e = Some m /\ too_old max_age now m = true.
Proof.
  unfold aged. rewrite filter_In. intros (Hin & H).
  apply andb_true_iff in H. destruct H as [F H].
  destruct (d_mtime e) as [m|]; [|discriminate].
  repeat split; try assumption. exists m. split; [reflexivity | exact H].
Qed.

Lemma regular_split max_age now entries :
  Permutation (map snd (fresh max_age now entries)
               ++ aged max_age now entries)
    (regular entries).
Proof.
  induction entries as [|e entries IH];
    cbn [fresh aged regular flat_map filter map app]; [reflexivity|].
  fold (fresh max_age now entries). fold (aged max_age now entries).
  fold (regular entries).
  destruct (d_is_file e); cbn [andb]; [|exact IH].
  destruct (d_mtime e) as [m|]; [|exact IH].
  destruct (too_old max_age now m); cbn [app map snd].
  - rewrite <- Permutation_middle. constructor. exact IH.
  - constructor. exact IH.
Qed.

(** X15.  The regular files of the archive whose [stat] succeeds split
    into those [os.remove] is called on and a remainder of at most [keep]
    files, none of which is older than the age limit: when the removals
    succeed, at most [keep] such files are left ([_cleanup_cache_archive]:
    10 files of at most 7 days; [_cleanup_log_archive]: 6 files of at most 30
    days).  A directory that cannot be listed is left alone. *)
Theorem cleanup_leaves_at_most_keep : forall keep days now entries,
  exists kept,
    Permutation (map snd kept ++ cleanup keep days now (Some entries))
      (regular entries) /\
    (List.length kept <= keep)%nat /\
    (forall m e, In (m, e) kept ->
       d_is_file e = true /\ d_mtime e = Some m /\
       too_old (days * 86400) now m = false) /\
    cleanup keep days now None = [] /\
    _cleanup_cache_archive = cleanup 10 7 /\
    _cleanup_log_archive = cleanup 6 30.
Proof.
  intros keep days now entries.
  exists (firstn keep (sort_desc (fresh (days * 86400) now entries))).
  repeat split.
  - rewrite cleanup_unfold.
    rewrite <- (regular_split (days * 86400) now entries).
    rewrite (Permutation_app_comm (aged _ _ _)), app_assoc, <- map_app,
      firstn_skipn.
    apply Permutation_app_tail. apply Permutation_map. apply sort_desc_perm.
  - apply firstn_le_length.
  - apply ClassifierProofs.in_firstn in H.
    eapply Permutation_in in H; [|apply sort_desc_perm].
    apply in_fresh in H. tauto.
  - apply ClassifierProofs.in_firstn in H.
    eapply Permutation_in in H; [|apply sort_desc_perm].
    apply in_fresh in H. tauto.
  - apply ClassifierProofs.in_firstn in H.
    eapply Permutation_in in H; [|apply sort_desc_perm].
    apply in_fresh in H. tauto.
Qed.

(** X16.  [os.remove] is only ever called on a regular file of the listing
    whose [stat] succeeded, and only for one of two reasons: the file is
    older than the age limit, or it is within the limit and [keep] other
    files within the limit are at least as recent.  Directories, files that
    cannot be inspected and the [keep] most recent files within the limit
    are never touched. *)
Theorem cleanup_removes_only_old_or_outranked :
  forall keep days now entries e,
  In e (cleanup keep days now (Some entries)) ->
  In e entries /\ d_is_file e = true /\
  exists m,
    d_mtime e = Some m /\
    (too_old (days * 86400) now m = true \/
     too_old (days * 86400) now m = false /\
     exists kept rest,
       Permutation (kept ++ (m, e) :: rest)
         (fresh (days * 86400) now entries) /\
       List.length kept = keep /\
       forall k, In k kept -> (m <= fst k)%Q).
Proof.
  intros keep days now entries e H. rewrite cleanup_unfold in H.
  apply in_app_or in H. destruct H as [H | H].
  - apply in_aged in H. destruct H as (Hin & F & m & M & T).
    repeat split; try assumption. exists m. split; [exact M | left; exact T].
  - apply in_map_iff in H. destruct H as ([m e'] & He & H).
    cbn [snd] in He. subst e'.
    set (sorted := sort_desc (fresh (days * 86400) now entries)) in *.
    assert (Hf : In (m, e) (fresh (days * 86400) now entries)).
    { eapply Permutation_in; [apply sort_desc_perm|].
      apply (ClassifierProofs.in_skipn _ _ _ H). }
    destruct (in_fresh _ _ _ _ _ Hf) as (Hin & F & M & T).
    repeat split; try assumption. exists m. split; [exact M|]. right.
    split; [exact T|].
    destruct (in_split _ _ H) as (r1 & r2 & Hr).
    exists (firstn keep sorted), (r1 ++ r2). repeat split.
    + rewrite <- (sort_desc_perm (fresh (days * 86400) now entries)).
      fold sorted. rewrite <- (firstn_skipn keep sorted) at 2. rewrite Hr.
      apply Permutation_app_head. apply Permutation_middle.
    + apply (skipn_nonempty_firstn_full keep sorted (m, e) H).
    + intros k Hk.
      apply (firstn_before_skipn keep sorted k (m, e)
               (sort_desc_sorted _) Hk H).
Qed.

Lemma cleanup_removes_only_old_or_outranked_witness :
  let old := mkDirent "weather_cache_20260101_000000.json" true (Some 0%Q) in
  let young :=
    mkDirent "weather_cache_20260112_000000.json" true (Some 950000%Q) in
  In old [young; old] /\ d_is_file old = true /\
  exists m,
    d_mtime old = Some m /\
    (too_old (7 * 86400) 1000000 m = true \/
     too_old (7 * 86400) 1000000 m = false /\
     exists kept rest,
       Permutation (kept ++ (m, old) :: rest)
         (fresh (7 * 86400) 1000000 [young; old]) /\
       List.length kept = 10%nat /\
       forall k, In k kept -> (m <= fst k)%Q).
Proof.
  intros old young.
  apply (cleanup_removes_only_old_or_outranked 10 7 1000000 [young; old] old).
  vm_compute. left. reflexivity.
Defined.

End HousekeepingProofs.

(** ** Further properties of the summary extraction *)

Module ForecastProofs.
Import Weather Fetch Forecast.

Lemma range_of_widen seen acc t :
  range_of seen acc ->
  range_of (seen ++ numbers [t]) (widen acc t).
Proof.
  unfold range_of, widen, numbers. cbn [flat_map].
  destruct t as [n|]; cbn [app fst snd];
    [|rewrite !app_nil_r; exact (fun H => H)].
  destruct acc as [[lo|] [hi|]]; cbn [fst snd]; try contradiction.
  - intros (Hlo & Hhi & B). repeat split.
    + apply in_or_app.
      destruct (Z.min_spec lo n) as [[_ ->] | [_ ->]];
        [left; exact Hlo | right; left; reflexivity].
    + apply in_or_app.
      destruct (Z.max_spec hi n) as [[_ ->] | [_ ->]];
        [right; left; reflexivity | left; exact Hhi].
    + apply in_app_or in H. destruct H as [H | [<- | []]];
        [specialize (B t H)|]; lia.
    + apply in_app_or in H. destruct H as [H | [<- | []]];
        [specialize (B t H)|]; lia.
  - intros ->. cbn [app]. repeat split; try (left; reflexivity);
      destruct H as [<- | []]; lia.
Qed.

Lemma range_of_fold ts : forall seen acc,
  range_of seen acc ->
  range_of (seen ++ numbers ts) (fold_left widen ts acc).
Proof.
  induction ts as [|t ts IH]; intros seen acc H; cbn [fold_left].
  - unfold numbers. cbn [flat_map]. rewrite app_nil_r. exact H.
  - replace (numbers (t :: ts)) with (numbers [t] ++ numbers ts)
      by (destruct t; reflexivity).
    rewrite app_assoc. apply IH. apply range_of_widen. exact H.
Qed.

Section WithFloatParser.

Variable float_of_str : string -> option pyfloat.

Lemma minmax_step_point acc item :
  minmax_step float_of_str (inr acc) item
  = match point_temp float_of_str item with
    | inl e => inl e
    | inr t => inr (widen acc t)
    end.
Proof.
  unfold minmax_step, point_temp, bind, ret, widen.
  destruct acc as [tmin tmax]. cbn [fst snd].
  destruct (get item "data" (VDict [])) as [e | data]; [reflexivity|].
  destruct (get data "instant" (VDict [])) as [e | instant]; [reflexivity|].
  destruct (get instant "details" (VDict [])) as [e | inst]; [reflexivity|].
  destruct (get inst "air_temperature" VNone) as [e | t]; [reflexivity|].
  destruct (_safe_int float_of_str t); reflexivity.
Qed.

Lemma minmax_fold_raised items e :
  fold_left (minmax_step float_of_str) items (inl e) = inl e.
Proof. induction items as [|x items IH]; [reflexivity | exact IH]. Qed.

Lemma minmax_fold_ok items : forall acc res,
  fold_left (minmax_step float_of_str) items (inr acc) = inr res ->
  exists ts,
    Forall2 (fun item t => point_temp float_of_str item = inr t) items ts /\
    res = fold_left widen ts acc.
Proof.
  induction items as [|item items IH]; intros acc res; cbn [fold_left].
  - intros H; injection H as <-. exists []. split; [constructor | reflexivity].
  - rewrite minmax_step_point.
    destruct (point_temp float_of_str item) as [e | t] eqn:E.
    + rewrite minmax_fold_raised. discriminate.
    + intros H. destruct (IH _ _ H) as (ts & F & ->).
      exists (t :: ts). split; [constructor; assumption | reflexivity].
Qed.

(** X17.  When [_minmax_tomorrow] returns for a list of points, every point
    could be read, and the pair returned is the range of the readings that
    are numbers: both [None] when there is none, otherwise the smallest and
    the largest of them, over all the points of the list. *)
Theorem minmax_is_the_range_of_all_points : forall items lo hi,
  _minmax_tomorrow float_of_str (VList items) = inr (lo, hi) ->
  exists ts,
    Forall2 (fun item t => point_temp float_of_str item = inr t) items ts /\
    match lo, hi with
    | None, None => numbers ts = []
    | Some lo, Some hi =>
        lo <= hi /\ In lo (numbers ts) /\ In hi (numbers ts) /\
        forall t, In t (numbers ts) -> lo <= t <= hi
    | _, _ => False
    end.
Proof.
  intros items lo hi H. unfold _minmax_tomorrow, iterate, bind, ret in H.
  destruct (minmax_fold_ok _ _ _ H) as (ts & F & E).
  exists ts. split; [exact F|].
  pose proof (range_of_fold ts [] (None, None) eq_refl) as R.
  rewrite <- E in R. cbn [app] in R. unfold range_of in R.
  destruct lo as [lo|], hi as [hi|]; try exact R.
  destruct R as (Hlo & Hhi & B).
  split; [|split; [exact Hlo | split; [exact Hhi | exact B]]].
  specialize (B hi Hhi). lia.
Qed.

(** X18.  Whenever the snapshot carries a current temperature, the label
    for "tomorrow" shows numbers and the current temperature lies between
    them: the first point of the series, which gives the current
    temperature, is one of the points the range runs over. *)
Theorem current_temperature_is_inside_the_label :
  forall payload hour ts res t0,
  _extract_summary float_of_str payload hour ts = inr res ->
  temp_c res = Some t0 ->
  exists lo hi,
    tomorrow_label res
    = ("Amanhã: " ++ str_of_int lo ++ "–" ++ str_of_int hi ++ "°C")%string /\
    lo <= t0 <= hi.
Proof.
  intros payload hour ts res t0 H Ht.
  unfold _extract_summary, bind in H.
  destruct (get payload "properties" (VDict [])) as [e | props];
    [discriminate|].
  destruct (get props "timeseries" (VList [])) as [e | series];
    [discriminate|].
  destruct (truthy series) eqn:T.
  - destruct (index0 series) as [e | item0] eqn:I0; [discriminate|].
    destruct (get item0 "data" (VDict [])) as [e | first] eqn:G1;
      [discriminate|].
    destruct (get first "instant" (VDict [])) as [e | instant] eqn:G2;
      [discriminate|].
    destruct (get instant "details" (VDict [])) as [e | details] eqn:G3;
      [discriminate|].
    destruct (get details "air_temperature" VNone) as [e | t] eqn:G4;
      [discriminate|].
    destruct (get first "next_1_hours" (VDict [])) as [e | n1h];
      [discriminate|].
    destruct (get n1h "summary" (VDict [])) as [e | s1]; [discriminate|].
    destruct (get s1 "symbol_code" VNone) as [e | n1]; [discriminate|].
    destruct (get first "next_6_hours" (VDict [])) as [e | n6h];
      [discriminate|].
    destruct (get n6h "summary" (VDict [])) as [e | s6]; [discriminate|].
    destruct (get s6 "symbol_code" VNone) as [e | n6]; [discriminate|].
    unfold ret in H. cbv beta iota in H.
    destruct (humanize _) as [e | h]; [discriminate|].
    destruct (_minmax_tomorrow float_of_str series) as [e | [tmin tmax]] eqn:M;
      [discriminate|].
    injection H as <-. cbn [temp_c] in Ht. cbn [tomorrow_label].
    assert (S : exists rest, series = VList (item0 :: rest)).
    { destruct series as [| | | |s|l|]; try discriminate I0.
      - destruct s; [discriminate I0|]. injection I0 as <-.
        discriminate G1.
      - destruct l as [|a l]; [discriminate I0|]. injection I0 as ->.
        exists l. reflexivity. }
    destruct S as (rest & ->).
    unfold _minmax_tomorrow, iterate, bind, ret in M.
    destruct (minmax_fold_ok _ _ _ M) as (ts0 & F & E).
    inversion F as [|? t1 ? ts1 P F']; subst.
    unfold point_temp, bind, ret in P.
    rewrite G1, G2, G3, G4 in P. injection P as <-. rewrite Ht in E.
    pose proof (range_of_fold (Some t0 :: ts1) [] (None, None) eq_refl) as R.
    rewrite <- E in R. cbn [app] in R. unfold range_of in R.
    assert (I : In t0 (numbers (Some t0 :: ts1))) by (left; reflexivity).
    destruct tmin as [lo|], tmax as [hi|]; try contradiction.
    + destruct R as (_ & _ & B). exists lo, hi. split; [reflexivity|].
      exact (B t0 I).
    + rewrite R in I. destruct I.
  - unfold ret in H. cbv beta iota in H.
    destruct (humanize _) as [e | h]; [discriminate|].
    destruct (_minmax_tomorrow float_of_str series) as [e | [tmin tmax]];
      [discriminate|].
    injection H as <-. discriminate Ht.
Qed.

(** *** Rounding *)

Lemma round_half_even_nearest q :
  (q - (1 # 2) <= inject_Z (round_half_even q) <= q + (1 # 2))%Q /\
  ((inject_Z (round_half_even q) - q == 1 # 2)%Q \/
   (q - inject_Z (round_half_even q) == 1 # 2)%Q ->
   Z.even (round_half_even q) = true).
Proof.
  unfold round_half_even.
  pose proof (Qfloor_le q) as L. pose proof (Qlt_floor q) as U.
  rewrite inject_Z_plus in U.
  change (inject_Z 1) with 1%Q in U.
  set (n := Qfloor q) in *.
  destruct (Qcompare_spec (q - inject_Z n) (1 # 2)) as [C | C | C].
  - destruct (Z.even n) eqn:Ev.
    + split; [split; lra | intros _; exact Ev].
    + rewrite inject_Z_plus. change (inject_Z 1) with 1%Q.
      split; [split; lra|]. intros _.
      change (n + 1)%Z with (Z.succ n). rewrite Z.even_succ.
      rewrite <- Z.negb_even, Ev. reflexivity.
  - split; [split; lra|]. intros [D | D]; lra.
  - rewrite inject_Z_plus. change (inject_Z 1) with 1%Q.
    split; [split; lra|]. intros [D | D]; lra.
Qed.

Lemma round_half_even_int z : round_half_even (inject_Z z) = z.
Proof.
  unfold round_half_even. rewrite Qfloor_Z.
  assert (C : (inject_Z z - inject_Z z ?= 1 # 2)%Q = Lt)
    by (apply (proj1 (Qlt_alt _ _)); lra).
  rewrite C. reflexivity.
Qed.

Lemma float_of_int_exact z :
  Z.abs z < 2 ^ 53 -> float_of_int z = Some (inject_Z z).
Proof.
  intros H. unfold float_of_int.
  assert (B : Z.log2 (Z.abs z) + 1 <= 53).
  { destruct (Z.eq_dec (Z.abs z) 0) as [-> | N]; [cbn; lia|].
    assert (P : 0 < Z.abs z) by lia.
    apply (Z.log2_lt_pow2 _ 53 P) in H. lia. }
  apply Z.leb_le in B. rewrite B. reflexivity.
Qed.

(** X19.  [_safe_int] never raises and gives the nearest integer.  An int
    below 2^53 in absolute value comes back unchanged.  A finite float comes
    back as an integer at distance at most one half, and when two integers
    are equally near, as the even one.  None, a list, a dict and a float that
    is not finite (nan, inf) give [None]. *)
Theorem safe_int_is_the_nearest_integer :
  (forall z, Z.abs z < 2 ^ 53 -> _safe_int float_of_str (VInt z) = Some z) /\
  (forall q, exists r,
      _safe_int float_of_str (VFloat (Finite q)) = Some r /\
      (q - (1 # 2) <= inject_Z r <= q + (1 # 2))%Q /\
      ((inject_Z r - q == 1 # 2)%Q \/ (q - inject_Z r == 1 # 2)%Q ->
       Z.even r = true)) /\
  (forall x,
      x = VNone \/ x = VFloat NonFinite \/
      (exists l, x = VList l) \/ (exists items, x = VDict items) ->
      _safe_int float_of_str x = None).
Proof.
  repeat apply conj.
  - intros z H. unfold _safe_int, float_.
    rewrite (float_of_int_exact z H), round_half_even_int. reflexivity.
  - intros q. exists (round_half_even q). split; [reflexivity|].
    apply round_half_even_nearest.
  - intros x [-> | [-> | [(l & ->) | (items & ->)]]]; reflexivity.
Qed.

(** *** The cache slot *)

(** X20.  A fetch that succeeds leaves in the cache slot a record that a
    later call can read back: with the network down, that later call
    returns the same current temperature, range label and symbol code,
    marked as cached and stamped with the time of the successful fetch,
    whatever the clock and the city of the later call; the label for today
    is the same too when both calls fall in the same period of the day. *)
Theorem cached_forecast_round_trip : forall w city res slot w' city' e,
  get_weather float_of_str w city = (inr res, slot) ->
  source res = "online" ->
  snd (_http_get_json (net w')) = inl e ->
  cache_file w' = slot ->
  exists payload res',
    snd (_http_get_json (net w)) = inr payload /\
    slot = VDict [("ts", VInt (now_ts w)); ("payload", payload);
                  ("city", VStr city)] /\
    get_weather float_of_str w' city' = (inr res', slot) /\
    ok res' = true /\ source res' = "cache" /\
    cache_ts res' = VInt (now_ts w) /\
    temp_c res' = temp_c res /\
    tomorrow_label res' = tomorrow_label res /\
    symbol_code res' = symbol_code res /\
    (_pick_period (now_hour w') = _pick_period (now_hour w) ->
     today_label res' = today_label res).
Proof.
  intros w city res slot w' city' e H Hsrc Hnet Hc.
  unfold get_weather in H.
  destruct (online float_of_str w city) as [[e0 | r] slot0] eqn:E.
  - injection H as Hf ->.
    destruct (FetchProofs.fallback_returns _ _ _ _ Hf)
      as [(_ & _ & Hs) | (_ & ->)];
      [rewrite Hs in Hsrc | ]; discriminate Hsrc.
  - injection H as -> ->. unfold online in E.
    destruct (snd (_http_get_json (net w))) as [e0 | payload];
      [discriminate|].
    destruct (_extract_summary _ _ _ _) as [e0 | r] eqn:X; [discriminate|].
    destruct (write_ok w); [|discriminate].
    injection E as -> <-.
    destruct (FetchProofs.extract_summary_needs_dict _ _ _ _ _ X) as (p & ->).
    destruct (FetchProofs.extract_summary_fresh _ _ _ _ _ X) as (_ & _ & Hts).
    exists (VDict p). rewrite Hts in Hc |- *.
    assert (X' : exists r',
      _extract_summary float_of_str (VDict p) (now_hour w') (now_ts w')
      = inr r' /\
      temp_c r' = temp_c res /\ tomorrow_label r' = tomorrow_label res /\
      symbol_code r' = symbol_code res /\
      (_pick_period (now_hour w') = _pick_period (now_hour w) ->
       today_label r' = today_label res)).
    { clear Hts Hsrc. unfold _extract_summary in X |- *. unfold bind in X.
      repeat match type of X with
             | context [match ?m with inl _ => _ | inr _ => _ end] =>
                 destruct m eqn:?; try discriminate X
             | context [let '(_, _) := ?p in _] => destruct p eqn:?
             end.
      injection X as <-. unfold bind.
      repeat (match goal with
              | Heq : ?m = inr _
                |- context [match ?m with inl _ => _ | inr _ => _ end] =>
                  rewrite Heq
              end; cbv beta iota).
      eexists. split; [reflexivity|].
      cbn [temp_c tomorrow_label symbol_code today_label].
      repeat split. intros ->. reflexivity. }
    destruct X' as (r' & X' & Ht & Hl & Hsym & Htoday).
    rewrite (FetchProofs.get_weather_offline _ _ _ _ Hnet), Hc.
    rewrite (FetchProofs.fallback_usable _ w'
               [("ts", VInt (now_ts w)); ("payload", VDict p);
                ("city", VStr city)] p r' eq_refl X').
    eexists. repeat split; assumption.
Qed.

(** X21.  What a call leaves in the cache slot.  When the retrieval or the
    extraction raises, the slot is left as it was and the answer is the
    fallback on it.  When both succeed but the record cannot be written
    after the previous file was moved to the archive, the slot is left
    empty and the answer is the "no data" snapshot: the fresh forecast is
    dropped, and so is the one that was in the cache. *)
Theorem failed_fetch_and_the_cache_slot : forall w city,
  (forall e,
      snd (_http_get_json (net w)) = inl e ->
      get_weather float_of_str w city
      = (fallback float_of_str w (cache_file w), cache_file w)) /\
  (forall payload e,
      snd (_http_get_json (net w)) = inr payload ->
      _extract_summary float_of_str payload (now_hour w) (now_ts w) = inl e ->
      get_weather float_of_str w city
      = (fallback float_of_str w (cache_file w), cache_file w)) /\
  (forall payload res,
      snd (_http_get_json (net w)) = inr payload ->
      _extract_summary float_of_str payload (now_hour w) (now_ts w)
      = inr res ->
      write_ok w = false -> archive_ok w = true ->
      get_weather float_of_str w city = (inr no_data, VNone)).
Proof.
  intros w city. repeat apply conj.
  - intros e H. unfold get_weather, online. rewrite H. reflexivity.
  - intros payload e H X. unfold get_weather, online. rewrite H, X.
    reflexivity.
  - intros payload res H X W A. unfold get_weather, online.
    rewrite H, X, W, A. reflexivity.
Qed.

End WithFloatParser.

Lemma minmax_is_the_range_of_all_points_witness :
  let float_of_str := fun _ : string => @None pyfloat in
  exists ts,
    Forall2 (fun item t => point_temp float_of_str item = inr t)
      [forecast_point "2026-02-11T12:00:00Z" 30;
       forecast_point "2026-02-12T12:00:00Z" 10] ts /\
    10 <= 30 /\ In 10 (numbers ts) /\ In 30 (numbers ts) /\
    forall t, In t (numbers ts) -> 10 <= t <= 30.
Proof.
  intros float_of_str.
  exact (minmax_is_the_range_of_all_points float_of_str
           [forecast_point "2026-02-11T12:00:00Z" 30;
            forecast_point "2026-02-12T12:00:00Z" 10]
           (Some 10) (Some 30) eq_refl).
Defined.

Lemma current_temperature_is_inside_the_label_witness :
  let float_of_str := fun _ : string => @None pyfloat in
  exists lo hi,
    "Amanhã: 10–30°C"
    = ("Amanhã: " ++ str_of_int lo ++ "–" ++ str_of_int hi ++ "°C")%string /\
    lo <= 30 <= hi.
Proof.
  intros float_of_str.
  exact (current_temperature_is_inside_the_label float_of_str
           (forecast [forecast_point "2026-02-11T12:00:00Z" 30;
                      forecast_point "2026-02-12T12:00:00Z" 10])
           9 1000 _ 30 eq_refl eq_refl).
Defined.

Lemma safe_int_is_the_nearest_integer_witness :
  let float_of_str := fun _ : string => @None pyfloat in
  _safe_int float_of_str (VInt (-7)) = Some (-7) /\
  _safe_int float_of_str (VList []) = None.
Proof.
  intros float_of_str.
  destruct (safe_int_is_the_nearest_integer float_of_str) as (I & _ & N).
  split.
  - apply (I (-7)). reflexivity.
  - apply (N (VList [])). right. right. left. exists []. reflexivity.
Defined.

Lemma cached_forecast_round_trip_witness :
  let float_of_str := fun _ : string => @None pyfloat in
  let payload := forecast [forecast_point "2026-02-11T12:00:00Z" 30] in
  let w := mkWorld (fun _ => Response payload) 9 1000 VNone true true in
  let slot := VDict [("ts", VInt 1000); ("payload", payload);
                     ("city", VStr "Alfenas")] in
  let w' := mkWorld (fun _ => Raises URLError) 20 5000 slot true true in
  exists payload0 res',
    snd (_http_get_json (net w)) = inr payload0 /\
    slot = VDict [("ts", VInt (now_ts w)); ("payload", payload0);
                  ("city", VStr "Alfenas")] /\
    get_weather float_of_str w' "Alfenas" = (inr res', slot) /\
    ok res' = true /\ source res' = "cache" /\
    cache_ts res' = VInt (now_ts w) /\
    temp_c res' = Some 30 /\
    tomorrow_label res' = "Amanhã: 30–30°C" /\
    symbol_code res' = VNone /\
    (_pick_period (now_hour w') = _pick_period (now_hour w) ->
     today_label res' = "Hoje (manhã): Sem dados").
Proof.
  intros float_of_str payload w slot w'.
  exact (cached_forecast_round_trip float_of_str w "Alfenas" _ slot w'
           "Alfenas" URLError eq_refl eq_refl eq_refl eq_refl).
Defined.

Lemma failed_fetch_and_the_cache_slot_witness :
  let float_of_str := fun _ : string => @None pyfloat in
  let payload := forecast [forecast_point "2026-02-11T12:00:00Z" 30] in
  let old := VDict [("ts", VInt 77); ("payload", payload)] in
  get_weather float_of_str
    (mkWorld (fun _ => Response payload) 9 1000 old true false) "Alfenas"
  = (inr no_data, VNone) /\
  get_weather float_of_str
    (mkWorld (fun _ => Raises (HTTPError 503)) 9 1000 old true true) "Alfenas"
  = (fallback float_of_str
       (mkWorld (fun _ => Raises (HTTPError 503)) 9 1000 old true true) old,
     old).
Proof.
  intros float_of_str payload old. split.
  - destruct (failed_fetch_and_the_cache_slot float_of_str
                (mkWorld (fun _ => Response payload) 9 1000 old true false)
                "Alfenas") as (_ & _ & W).
    eapply W; reflexivity.
  - destruct (failed_fetch_and_the_cache_slot float_of_str
                (mkWorld (fun _ => Raises (HTTPError 503)) 9 1000 old true
                   true) "Alfenas") as (N & _).
    eapply (N (HTTPError 503)); reflexivity.
Defined.

End ForecastProofs.

(** ** The weather symbol: the label of weather.py and the icon of sal.py *)

Module SymbolProofs.
Import Weather SalUi.

Local Open Scope string_scope.

Lemma append_assoc (a b c : string) : (a ++ b) ++ c = a ++ b ++ c.
Proof. induction a as [|x a IH]; cbn; [|rewrite IH]; reflexivity. Qed.

Lemma prefix_iff (a s : string) :
  prefix a s = true <-> exists t, s = a ++ t.
Proof.
  revert s. induction a as [|x a IH]; intros s.
  - split; [intros _; exists s; reflexivity | destruct s; reflexivity].
  - destruct s as [|y s]; cbn.
    + split; [discriminate | intros (t & H); discriminate H].
    + destruct (ascii_dec x y) as [-> | N].
      * rewrite IH. split; intros (t & H); exists t;
          [rewrite H; reflexivity | injection H as ->; reflexivity].
      * split; [discriminate|]. intros (t & H). injection H as <- _.
        contradiction N; reflexivity.
Qed.

Lemma contains_iff (sub s : string) :
  Py.contains sub s = true <-> exists pre post, s = pre ++ sub ++ post.
Proof.
  induction s as [|c s IH]; cbn [Py.contains].
  - destruct (prefix sub "") eqn:P.
    + split; [intros _ | reflexivity].
      apply prefix_iff in P. destruct P as (t & P). exists "", t. exact P.
    + split; [discriminate|]. intros (pre & post & H).
      destruct pre; [|discriminate H]. cbn in H.
      assert (P' : prefix sub "" = true)
        by (apply prefix_iff; exists post; exact H).
      congruence.
  - destruct (prefix sub (String c s)) eqn:P.
    + split; [intros _ | reflexivity].
      apply prefix_iff in P. destruct P as (t & P). exists "", t. exact P.
    + rewrite IH. split; intros (pre & post & H).
      * exists (String c pre), post. cbn. rewrite H. reflexivity.
      * destruct pre as [|c' pre].
        -- cbn in H.
           assert (P' : prefix sub (String c s) = true)
             by (apply prefix_iff; exists post; exact H).
           congruence.
        -- injection H as _ ->. exists pre, post. reflexivity.
Qed.

(** A text that contains [a ++ b] contains [a] and contains [b]. *)
Lemma contains_app (a b s : string) :
  Py.contains (a ++ b) s = true ->
  Py.contains a s = true /\ Py.contains b s = true.
Proof.
  intros H. apply contains_iff in H. destruct H as (pre & post & ->).
  split; apply contains_iff.
  - exists pre, (b ++ post). rewrite append_assoc. reflexivity.
  - exists (pre ++ a), post. rewrite !append_assoc. reflexivity.
Qed.

Lemma contains_app_false_l (a b s : string) :
  Py.contains a s = false -> Py.contains (a ++ b) s = false.
Proof.
  intros H. destruct (Py.contains (a ++ b) s) eqn:C; [|reflexivity].
  apply contains_app in C. destruct C as (C & _). congruence.
Qed.

Lemma contains_app_false_r (a b s : string) :
  Py.contains b s = false -> Py.contains (a ++ b) s = false.
Proof.
  intros H. destruct (Py.contains (a ++ b) s) eqn:C; [|reflexivity].
  apply contains_app in C. destruct C as (_ & C). congruence.
Qed.

Ltac split_ifs :=
  repeat match goal with
         | |- context [if ?b then _ else _] => destruct b eqn:?
         end.

(** X22.  Three of the tests of [humanize] never decide anything.  A code
    with "rainshowersandthunder" has "thunder" and is a storm before the
    rain is looked at; "heavyrainshowers" has "heavyrain" and
    "lightrainshowers" has "lightrain".  So, for a code that is not empty:
    the label is "Chuva forte" exactly when the code has "heavyrain" and
    neither "thunder" nor "snow"; it is "Chuva fraca" exactly when it has
    "lightrain" and none of "thunder", "snow", "heavyrain"; and it is
    "Tempestade" exactly when it has "thunder". *)
Theorem humanize_rain_labels : forall sym,
  sym <> "" ->
  let has k := Py.contains k (Py.lower sym) in
  exists label,
    humanize (VStr sym) = inr label /\
    (label = "Tempestade" <-> has "thunder" = true) /\
    (label = "Chuva forte" <->
     has "thunder" = false /\ has "snow" = false /\ has "heavyrain" = true) /\
    (label = "Chuva fraca" <->
     has "thunder" = false /\ has "snow" = false /\
     has "heavyrain" = false /\ has "lightrain" = true).
Proof.
  intros sym N has. unfold humanize. cbn [truthy].
  apply String.eqb_neq in N. rewrite N. cbn [negb].
  fold (has "thunder") (has "snow") (has "rain") (has "sleet")
    (has "heavyrain") (has "rainshowersandthunder") (has "heavyrainshowers")
    (has "lightrain") (has "lightrainshowers") (has "cloudy") (has "partly")
    (has "clearsky") (has "fair").
  assert (R1 : has "heavyrain" = true -> has "rain" = true)
    by (intros H; apply (contains_app "heavy" "rain" _ H)).
  assert (R2 : has "lightrain" = true -> has "rain" = true)
    by (intros H; apply (contains_app "light" "rain" _ H)).
  assert (D1 : has "thunder" = false -> has "rainshowersandthunder" = false)
    by (apply (contains_app_false_r "rainshowersand" "thunder")).
  assert (D2 : has "heavyrain" = false -> has "heavyrainshowers" = false)
    by (apply (contains_app_false_l "heavyrain" "showers")).
  assert (D3 : has "lightrain" = false -> has "lightrainshowers" = false)
    by (apply (contains_app_false_l "lightrain" "showers")).
  destruct (has "thunder") eqn:T.
  { eexists. split; [reflexivity|]. repeat split; intros; try discriminate;
      repeat match goal with H : _ /\ _ |- _ => destruct H end;
      try discriminate; reflexivity. }
  rewrite (D1 eq_refl).
  destruct (has "snow") eqn:S.
  { eexists. split; [reflexivity|]. repeat split; intros; try discriminate;
      repeat match goal with H : _ /\ _ |- _ => destruct H end;
      try discriminate; reflexivity. }
  destruct (has "heavyrain") eqn:HR.
  { rewrite (R1 eq_refl). cbn [orb].
    eexists. split; [reflexivity|]. repeat split; intros; try discriminate;
      repeat match goal with H : _ /\ _ |- _ => destruct H end;
      try discriminate; reflexivity. }
  rewrite (D2 eq_refl).
  destruct (has "lightrain") eqn:LR.
  { rewrite (R2 eq_refl). cbn [orb].
    eexists. split; [reflexivity|]. repeat split; intros; try discriminate;
      repeat match goal with H : _ /\ _ |- _ => destruct H end;
      try discriminate; reflexivity. }
  rewrite (D3 eq_refl). cbn [orb].
  split_ifs; (eexists; split; [reflexivity|]); repeat split; intros;
    repeat match goal with H : _ /\ _ |- _ => destruct H end;
    try discriminate; try reflexivity.
Qed.

Lemma humanize_rain_labels_witness :
  exists label,
    humanize (VStr "heavyrainshowers_day") = inr label /\
    (label = "Tempestade" <->
     Py.contains "thunder" (Py.lower "heavyrainshowers_day") = true) /\
    (label = "Chuva forte" <->
     Py.contains "thunder" (Py.lower "heavyrainshowers_day") = false /\
     Py.contains "snow" (Py.lower "heavyrainshowers_day") = false /\
     Py.contains "heavyrain" (Py.lower "heavyrainshowers_day") = true) /\
    (label = "Chuva fraca" <->
     Py.contains "thunder" (Py.lower "heavyrainshowers_day") = false /\
     Py.contains "snow" (Py.lower "heavyrainshowers_day") = false /\
     Py.contains "heavyrain" (Py.lower "heavyrainshowers_day") = false /\
     Py.contains "lightrain" (Py.lower "heavyrainshowers_day") = true).
Proof.
  apply (humanize_rain_labels "heavyrainshowers_day"). discriminate.
Defined.

(** X23.  The icon that the screen picks and the label that the snapshot
    carries are computed from the same symbol code by two functions; they
    agree.  The storm icon goes with "Tempestade" and only with it, the
    snowflake with "Neve", the rain icon with the three rain labels, the sun
    with "Céu limpo".  The icon for a partly cloudy sky is only shown with
    "Parcialmente nublado", and "Nublado", "Tempo instável" and "Sem dados"
    always come with the plain clouds. *)
Theorem icon_agrees_with_label : forall sym,
  let icon := map_symbol_to_icon (Some sym) in
  exists label,
    humanize (VStr sym) = inr label /\
    (icon = "storm" <-> label = "Tempestade") /\
    (icon = "snowflake" <-> label = "Neve") /\
    (icon = "rainy-day" <->
     label = "Chuva forte" \/ label = "Chuva fraca" \/ label = "Chuva") /\
    (icon = "sun" <-> label = "Céu limpo") /\
    (icon = "cloudy" -> label = "Parcialmente nublado") /\
    (label = "Nublado" \/ label = "Tempo instável" \/ label = "Sem dados" ->
     icon = "clouds").
Proof.
  intros sym icon. subst icon.
  unfold humanize, map_symbol_to_icon. cbn [truthy].
  destruct (String.eqb sym "") eqn:N; cbn [negb].
  { eexists. split; [reflexivity|].
    repeat split; intros; try discriminate;
      repeat match goal with H : _ \/ _ |- _ => destruct H end;
      try discriminate; reflexivity. }
  set (s := Py.lower sym).
  assert (P : Py.contains "partlycloudy" s = true ->
              Py.contains "partly" s = true /\ Py.contains "cloudy" s = true)
    by (apply (contains_app "partly" "cloudy")).
  destruct (Py.contains "thunder" s).
  { eexists. split; [reflexivity|].
    repeat split; intros; try discriminate;
      repeat match goal with H : _ \/ _ |- _ => destruct H end;
      try discriminate; reflexivity. }
  destruct (Py.contains "snow" s).
  { eexists. split; [reflexivity|].
    repeat split; intros; try discriminate;
      repeat match goal with H : _ \/ _ |- _ => destruct H end;
      try discriminate; reflexivity. }
  destruct (Py.contains "rain" s || Py.contains "sleet" s).
  { split_ifs; (eexists; split; [reflexivity|]);
      repeat split; intros; try discriminate;
      repeat match goal with H : _ \/ _ |- _ => destruct H end;
      try discriminate; try reflexivity; auto. }
  destruct (Py.contains "partlycloudy" s).
  { destruct (P eq_refl) as (-> & ->).
    eexists. split; [reflexivity|].
    repeat split; intros; try discriminate;
      repeat match goal with H : _ \/ _ |- _ => destruct H end;
      try discriminate; reflexivity. }
  clear P.
  split_ifs; (eexists; split; [reflexivity|]);
    repeat split; intros; try discriminate;
    repeat match goal with H : _ \/ _ |- _ => destruct H end;
    try discriminate; try reflexivity.
Qed.

Lemma icon_agrees_with_label_witness :
  exists label,
    humanize (VStr "partlycloudy_night") = inr label /\
    ("cloudy" = "storm" <-> label = "Tempestade") /\
    ("cloudy" = "snowflake" <-> label = "Neve") /\
    ("cloudy" = "rainy-day" <->
     label = "Chuva forte" \/ label = "Chuva fraca" \/ label = "Chuva") /\
    ("cloudy" = "sun" <-> label = "Céu limpo") /\
    ("cloudy" = "cloudy" -> label = "Parcialmente nublado") /\
    (label = "Nublado" \/ label = "Tempo instável" \/ label = "Sem dados" ->
     "cloudy" = "clouds").
Proof. exact (icon_agrees_with_label "partlycloudy_night"). Defined.

(** X24.  The two readings of the hour agree: the screen uses its day theme
    exactly in the hours that the weather label calls morning or afternoon,
    6 to 17, and its night theme exactly in those the label calls night. *)
Theorem day_theme_matches_period : forall h,
  (theme_is_day h = true <->
   _pick_period h = "manhã" \/ _pick_period h = "tarde") /\
  (theme_is_day h = false <-> _pick_period h = "noite") /\
  (theme_is_day h = true <-> 6 <= h <= 17)%Z.
Proof.
  intros h. unfold theme_is_day, _pick_period.
  destruct (Z.leb_spec 6 h), (Z.leb_spec h 11), (Z.leb_spec 12 h),
    (Z.leb_spec h 17); cbn [andb];
    repeat split; intros;
    repeat match goal with H : _ \/ _ |- _ => destruct H end;
    try discriminate; try reflexivity; try lia; auto.
Qed.

End SymbolProofs.
